(** * ardopmeshchat: the mesh node core, embedded and verified

    A shallow embedding of [mesh_node.py] (header codec, OGM and DATA
    handlers, cleanup loop, AX.25 wrapper) and of the parts of
    [kiss_link.py] the node depends on (the RX callback wrapper, [send],
    the reconnect loop); then of the KISS client itself with its TX
    worker, and of [config_loader.py].

    Conventions.
    - Python [bytes] are [list byte]; Python [int]s are [Z]; Python [str]
      (callsigns) are [string], i.e. Latin-1 code points.
    - [time.time()] and the configured delays and expiries are Python
      floats (binary64), given here by the rationals ([Q]) they denote.
      The code compares, doubles and subtracts them.  Comparing and
      doubling are exact on floats.  Subtracting rounds: the cleanup
      loop tests the rounded difference [now - timestamp], where the
      model tests the exact one.  The properties use that test only
      where rounding cannot change its outcome: for an age of at most
      the expiry (rounding is monotone and the expiry is a float), and
      for an age [beyond] the expiry by more than the rounding.
    - A call either returns or raises: [result].  Mutations made before an
      exception is raised persist, so the state is threaded through both.
    - Dictionaries are [gmap]s: no claim depends on iteration order.
    - Code outside the repository (zlib, the AEAD adapter of
      [crypto_layer.py], the builtin [int], the application callback) is an
      interface, [Externals], over which every definition is parametric. *)

From Stdlib Require Import ZArith QArith Lqa Lia List String Ascii Bool.
From Stdlib.Strings Require Import Byte.
From stdpp Require Import gmap list.

Open Scope Z_scope.

(** ** Python values *)

Abbreviation bytes := (list byte).

#[global] Instance byte_eq_dec : EqDecision byte := Byte.byte_eq_dec.
#[global] Instance byte_countable : Countable byte :=
  inj_countable Byte.to_N Byte.of_N Byte.of_to_N.

Module Py.

(** Exception classes that occur in the sources.  [UnicodeEncodeError]
    derives from [ValueError]; [Foreign] is an exception raised by code
    outside the repository whose class the sources do not name: its flag
    says whether that class derives from [ValueError]. *)
Inductive exn : Type :=
| ValueError
| UnicodeEncodeError
| StructError
| ZlibError
| KISSClientError
| OSError
| Foreign (derives_value_error : bool).

(** What [except ValueError] catches. *)
Definition is_ValueError (e : exn) : bool :=
  match e with
  | ValueError | UnicodeEncodeError => true
  | Foreign b => b
  | _ => false
  end.

Inductive result (A : Type) : Type :=
| Ok (a : A)
| Raise (e : exn).
Arguments Ok {A} a.
Arguments Raise {A} e.

Definition Z_of_byte (b : byte) : Z := Z.of_N (Byte.to_N b).

(** The byte with value [z]; meaningful for [0 <= z < 256]. *)
Definition byte_of_Z (z : Z) : byte :=
  match Byte.of_N (Z.to_N z) with
  | Some b => b
  | None => x00
  end.

Definition in_byte_range (z : Z) : bool := (0 <=? z) && (z <? 256).

(** [len(b)] *)
Definition len (b : bytes) : Z := Z.of_nat (length b).

(** [b[i:j]] for literal non-negative [i <= j]: slices clamp. *)
Definition slice (i j : nat) (b : bytes) : bytes := take (j - i) (drop i b).

(** [b[i:]] *)
Definition slice_from (i : nat) (b : bytes) : bytes := drop i b.

(** [a[i:j] = x] on a [bytearray]: the range is replaced by [x], whatever
    the length of [x]. *)
Definition slice_assign (i j : nat) (x a : bytes) : bytes :=
  take i a ++ x ++ drop (Nat.max i j) a.

(** [a[i] = v] on a [bytearray] of sufficient length: [ValueError] unless
    [v] is in [range(256)]. *)
Definition setitem (i : nat) (v : Z) (a : bytes) : result bytes :=
  if in_byte_range v then Ok (<[i := byte_of_Z v]> a) else Raise ValueError.

(** The four bytes of [n], most significant first. *)
Definition be32_bytes (n : Z) : bytes :=
  [ byte_of_Z (n / 2 ^ 24);
    byte_of_Z ((n / 2 ^ 16) mod 256);
    byte_of_Z ((n / 2 ^ 8) mod 256);
    byte_of_Z (n mod 256) ].

(** [struct.pack(">I", n)] *)
Definition pack_be32 (n : Z) : result bytes :=
  if (0 <=? n) && (n <? 2 ^ 32) then Ok (be32_bytes n) else Raise StructError.

(** [struct.unpack(">I", b)[0]] *)
Definition unpack_be32 (b : bytes) : result Z :=
  match b with
  | [b0; b1; b2; b3] =>
      Ok (((Z_of_byte b0 * 256 + Z_of_byte b1) * 256 + Z_of_byte b2) * 256
          + Z_of_byte b3)
  | _ => Raise StructError
  end.

(** [b[i]] for an index known to be in range, as an [int]. *)
Definition getitem (i : nat) (b : bytes) : Z :=
  match b !! i with
  | Some x => Z_of_byte x
  | None => 0
  end.

End Py.
Export Py.

(** ** Constants of [mesh_node.py] *)

Definition MESH_VERSION : Z := 1.
Definition MESH_MSG_DATA : Z := 0.
Definition MESH_MSG_OGM : Z := 1.
Definition MESH_FLAG_COMPRESSED : Z := 1.
Definition MESH_FLAG_ENCRYPTED : Z := 2.

(** ** Mesh header codec *)

Module Codec.

(** The value of [parse_mesh_header]:
    [(version, msg_type, flags, ttl, origin_id, seqno)]. *)
Record header : Type := Header {
  h_version : Z;
  h_msg_type : Z;
  h_flags : Z;
  h_ttl : Z;
  h_origin_id : bytes;
  h_seqno : Z;
}.

(** [MeshNode._build_mesh_header] *)
Definition _build_mesh_header
    (msg_type flags ttl : Z) (origin_id : bytes) (seqno : Z) : result bytes :=
  let header := replicate 16 x00 in
  match setitem 0 MESH_VERSION header with
  | Raise e => Raise e
  | Ok header =>
  match setitem 1 msg_type header with
  | Raise e => Raise e
  | Ok header =>
  match setitem 2 flags header with
  | Raise e => Raise e
  | Ok header =>
  match setitem 3 ttl header with
  | Raise e => Raise e
  | Ok header =>
      let header := slice_assign 4 12 origin_id header in
      match pack_be32 seqno with
      | Raise e => Raise e
      | Ok packed => Ok (slice_assign 12 16 packed header)
      end
  end end end end.

(** [MeshNode._parse_mesh_header] *)
Definition _parse_mesh_header (info : bytes) : result header :=
  if len info <? 16 then Raise ValueError
  else
    let version := getitem 0 info in
    let msg_type := getitem 1 info in
    let flags := getitem 2 info in
    let ttl := getitem 3 info in
    let origin_id := slice 4 12 info in
    match unpack_be32 (slice 12 16 info) with
    | Raise e => Raise e
    | Ok seqno => Ok (Header version msg_type flags ttl origin_id seqno)
    end.

End Codec.
Export Codec.

(** ** Code outside the repository *)

(** Modelled from the spec: [crypto_layer.py] (class [MeshEncryptor]) is
    not among the sources.  Spec 4.6: [encrypt(plaintext, aad)] yields
    [(nonce, ciphertext+tag)] with a freshly generated nonce;
    [decrypt(nonce, ciphertext+tag, aad)] yields the plaintext and fails
    with [AuthFail] on tag mismatch; [encryption_enabled] is a flag.
    A failure is an exception, [Raise e]; the spec does not say of which
    class, so [e] is left to the instance.  The bytes a fresh nonce is
    drawn from are the first argument of [encrypt]. *)
Record MeshEncryptor : Type := {
  encryption_enabled : bool;
  encrypt : bytes -> bytes -> bytes -> result (bytes * bytes);
  decrypt : bytes -> bytes -> bytes -> result bytes;
}.

(** The interpreter and library functions the node calls, and the
    application's delivery callback.
    - [zlib_compress]: [zlib.compress], total on [bytes];
    - [zlib_decompress]: [zlib.decompress], [None] for [zlib.error];
    - [py_int]: the builtin [int] on a [str], [None] for [ValueError];
    - [app_data_callback]: [None] when no callback is registered; a
      registered callback returns ([None]) or raises ([Some e]).  What a
      callback does to the node itself is not modelled. *)
Record Externals : Type := {
  zlib_compress : bytes -> bytes;
  zlib_decompress : bytes -> option bytes;
  py_int : string -> option Z;
  encryptor : MeshEncryptor;
  app_data_callback : option (bytes -> bytes -> Z -> bytes -> option exn);
}.

(** ** Configuration records

    The dataclasses of [mesh_config.py], which is not among the sources,
    with the fields [config_loader.py] fills and the node reads. *)

Record MeshRoutingConfig : Type := {
  ogm_interval_seconds : Q;
  ogm_ttl : Z;
  route_expiry_seconds : Q;
  neighbor_expiry_seconds : Q;
  data_seen_expiry_seconds : Q;
}.

Record KISSConnectionConfig : Type := {
  reconnect_base_delay : Q;
  reconnect_max_delay : Q;
  tx_queue_size : Z;
}.

Record MeshNodeConfig : Type := {
  callsign : string;
  mesh_dest_callsign : string;
  kiss_config : KISSConnectionConfig;
  routing_config : MeshRoutingConfig;
}.

(** The defaults of [config_loader.py]. *)
Definition default_kiss_config : KISSConnectionConfig :=
  {| reconnect_base_delay := 5; reconnect_max_delay := 60; tx_queue_size := 1000 |}.

Definition default_routing_config : MeshRoutingConfig :=
  {| ogm_interval_seconds := 10; ogm_ttl := 5; route_expiry_seconds := 120;
     neighbor_expiry_seconds := 60; data_seen_expiry_seconds := 30 |}.

(** ** Routing state and node state *)

Record OriginatorEntry : Type := {
  best_next_hop : bytes;
  last_seqno : Z;
  metric : Z;
  last_seen : Q;
}.

Record NeighborEntry : Type := {
  nei_last_seen : Q;
  link_metric : Z;
}.

Record MeshRoutingState : Type := {
  originators : gmap bytes OriginatorEntry;
  neighbors : gmap bytes NeighborEntry;
}.

(** The two [threading.Lock]s of [MeshNode]. *)
Inductive lock : Type := seqno_lock | data_seen_lock.

#[global] Instance lock_eq_dec : EqDecision lock.
Proof. solve_decision. Defined.

(** The shared tables and counters the node's threads touch. *)
Inductive resource : Type :=
| res_originators | res_neighbors | res_data_seen | res_seqno.

#[global] Instance resource_eq_dec : EqDecision resource.
Proof. solve_decision. Defined.

Inductive access_kind : Type := Reads | Mutates.

(** One read or update of a shared resource, with the locks the executing
    thread holds at that point (the field assignments that rewrite one
    table entry count as one update). *)
Record access : Type := Access {
  acc_resource : resource;
  acc_kind : access_kind;
  acc_held : list lock;
}.

Inductive level : Type := INFO | WARNING.

(** The mutable state of a [MeshNode] and of its [KISSClient], with three
    histories that make effects observable: [tx_queue] holds every frame
    [KISSClient.send] has enqueued (oldest first; the TX worker's draining
    is not modelled), [delivered] every invocation of the application
    callback, [log] every record sent to [LOG].  [held] and [accesses]
    follow the locking: the locks the running thread holds, and every
    access to a shared table made so far (newest first). *)
Record MeshNode : Type := {
  _routing_state : MeshRoutingState;
  _seqno : Z;
  _data_seen : gmap (bytes * Z) Q;
  kiss_running : bool;
  tx_queue : list bytes;
  delivered : list (bytes * bytes * Z * bytes);
  log : list (level * string);
  held : list lock;
  accesses : list access;
}.

Definition set_routing_state (f : MeshRoutingState -> MeshRoutingState) (s : MeshNode) : MeshNode :=
  {| _routing_state := f (_routing_state s); _seqno := _seqno s;
     _data_seen := _data_seen s; kiss_running := kiss_running s;
     tx_queue := tx_queue s; delivered := delivered s; log := log s;
     held := held s; accesses := accesses s |}.

Definition set_originators (f : gmap bytes OriginatorEntry -> gmap bytes OriginatorEntry)
    (r : MeshRoutingState) : MeshRoutingState :=
  {| originators := f (originators r); neighbors := neighbors r |}.

Definition set_neighbors (f : gmap bytes NeighborEntry -> gmap bytes NeighborEntry)
    (r : MeshRoutingState) : MeshRoutingState :=
  {| originators := originators r; neighbors := f (neighbors r) |}.

Definition set_seqno (n : Z) (s : MeshNode) : MeshNode :=
  {| _routing_state := _routing_state s; _seqno := n;
     _data_seen := _data_seen s; kiss_running := kiss_running s;
     tx_queue := tx_queue s; delivered := delivered s; log := log s;
     held := held s; accesses := accesses s |}.

Definition set_data_seen (f : gmap (bytes * Z) Q -> gmap (bytes * Z) Q) (s : MeshNode) : MeshNode :=
  {| _routing_state := _routing_state s; _seqno := _seqno s;
     _data_seen := f (_data_seen s); kiss_running := kiss_running s;
     tx_queue := tx_queue s; delivered := delivered s; log := log s;
     held := held s; accesses := accesses s |}.

Definition set_tx_queue (f : list bytes -> list bytes) (s : MeshNode) : MeshNode :=
  {| _routing_state := _routing_state s; _seqno := _seqno s;
     _data_seen := _data_seen s; kiss_running := kiss_running s;
     tx_queue := f (tx_queue s); delivered := delivered s; log := log s;
     held := held s; accesses := accesses s |}.

Definition set_delivered
    (f : list (bytes * bytes * Z * bytes) -> list (bytes * bytes * Z * bytes))
    (s : MeshNode) : MeshNode :=
  {| _routing_state := _routing_state s; _seqno := _seqno s;
     _data_seen := _data_seen s; kiss_running := kiss_running s;
     tx_queue := tx_queue s; delivered := f (delivered s); log := log s;
     held := held s; accesses := accesses s |}.

Definition set_log (f : list (level * string) -> list (level * string)) (s : MeshNode) : MeshNode :=
  {| _routing_state := _routing_state s; _seqno := _seqno s;
     _data_seen := _data_seen s; kiss_running := kiss_running s;
     tx_queue := tx_queue s; delivered := delivered s; log := f (log s);
     held := held s; accesses := accesses s |}.

Definition set_held (f : list lock -> list lock) (s : MeshNode) : MeshNode :=
  {| _routing_state := _routing_state s; _seqno := _seqno s;
     _data_seen := _data_seen s; kiss_running := kiss_running s;
     tx_queue := tx_queue s; delivered := delivered s; log := log s;
     held := f (held s); accesses := accesses s |}.

Definition set_accesses (f : list access -> list access) (s : MeshNode) : MeshNode :=
  {| _routing_state := _routing_state s; _seqno := _seqno s;
     _data_seen := _data_seen s; kiss_running := kiss_running s;
     tx_queue := tx_queue s; delivered := delivered s; log := log s;
     held := held s; accesses := f (accesses s) |}.

(** ** The monad of node code: state, and a result or an exception *)

Module NodeMonad.

Definition M (A : Type) : Type := MeshNode -> result A * MeshNode.

Definition ret {A} (a : A) : M A := fun s => (Ok a, s).

Definition bind {A B} (m : M A) (k : A -> M B) : M B :=
  fun s =>
    match m s with
    | (Ok a, s') => k a s'
    | (Raise e, s') => (Raise e, s')
    end.

Definition raise {A} (e : exn) : M A := fun s => (Raise e, s).

(** A pure call that may raise. *)
Definition lift {A} (r : result A) : M A := fun s => (r, s).

Definition get : M MeshNode := fun s => (Ok s, s).

Definition modify (f : MeshNode -> MeshNode) : M unit := fun s => (Ok tt, f s).

(** [try: m except <classes>: handler] *)
Definition try_except {A} (m : M A) (catches : exn -> bool) (handler : M A) : M A :=
  fun s =>
    match m s with
    | (Ok a, s') => (Ok a, s')
    | (Raise e, s') => if catches e then handler s' else (Raise e, s')
    end.

Fixpoint release (l : lock) (hs : list lock) : list lock :=
  match hs with
  | [] => []
  | h :: t => if decide (h = l) then t else h :: release l t
  end.

(** [with l: m]: the lock is released on return and on exception. *)
Definition with_lock {A} (l : lock) (m : M A) : M A :=
  fun s =>
    match m (set_held (cons l) s) with
    | (r, s') => (r, set_held (release l) s')
    end.

(** Record an access to a shared resource under the locks now held. *)
Definition touch (r : resource) (k : access_kind) : M unit :=
  modify (fun s => set_accesses (cons (Access r k (held s))) s).

(** [LOG.info] / [LOG.warning] *)
Definition LOG (lv : level) (msg : string) : M unit :=
  modify (set_log (fun l => l ++ [(lv, msg)])).

Declare Scope node_scope.
Delimit Scope node_scope with node.
Notation "x <- m ;; k" := (bind m (fun x => k))
  (at level 100, m at next level, right associativity) : node_scope.
Notation "m ;; k" := (bind m (fun _ => k))
  (at level 100, right associativity) : node_scope.

End NodeMonad.
Export NodeMonad.

(** ** Minimal AX.25 UI frame builder *)

Module Ax25.

Definition is_ascii (c : ascii) : bool := (N_of_ascii c <? 128)%N.

(** [s.encode("ascii")]: [UnicodeEncodeError] on a non-ASCII character. *)
Definition encode_ascii (s : list ascii) : result bytes :=
  if forallb is_ascii s then Ok (map byte_of_ascii s) else Raise UnicodeEncodeError.

(** [s.encode("ascii", errors="ignore")] *)
Definition encode_ascii_ignore (s : list ascii) : bytes :=
  map byte_of_ascii (List.filter is_ascii s).

(** [b.ljust(n, fill)] *)
Definition ljust (n : nat) (fill : byte) (b : bytes) : bytes :=
  b ++ replicate (n - length b) fill.

(** [str.upper] on one Latin-1 character: [a-z] and the accented lower
    case letters move up by 32, sharp s becomes [SS]; micro sign and y
    with diaeresis have upper cases outside Latin-1 and are kept, which
    leaves them non-ASCII as in Python. *)
Definition upper_char (c : ascii) : list ascii :=
  let n := N_of_ascii c in
  if ((97 <=? n) && (n <=? 122))%N then [ascii_of_N (n - 32)]
  else if (n =? 223)%N then ["S"%char; "S"%char]
  else if ((224 <=? n) && (n <=? 254) && negb (n =? 247))%N then [ascii_of_N (n - 32)]
  else [c].

Definition upper (s : list ascii) : list ascii := flat_map upper_char s.

(** [s.split("-", 1)] when ["-" in s]: the parts around the first dash. *)
Fixpoint split_dash (s : list ascii) : option (list ascii * list ascii) :=
  match s with
  | [] => None
  | c :: s' =>
      if Ascii.eqb c "-"%char then Some ([], s')
      else match split_dash s' with
           | Some (base, rest) => Some (c :: base, rest)
           | None => None
           end
  end.

(** [MeshNode._encode_ax25_address].  Each of the six call bytes is ASCII,
    so [b << 1] fits a byte; the SSID field lies in [0x60 .. 0x7f]. *)
Definition _encode_ax25_address
    (int : string -> option Z) (callsign : string) (last : bool) : result bytes :=
  let '(base, ssid_value) :=
    match split_dash (list_ascii_of_string callsign) with
    | Some (base, ssid_str) =>
        (base, match int (string_of_list_ascii ssid_str) with
               | Some v => v
               | None => 0
               end)
    | None => (list_ascii_of_string callsign, 0)
    end in
  let base := take 6 (upper base) in
  match encode_ascii base with
  | Raise e => Raise e
  | Ok encoded =>
      let call_bytes := ljust 6 x20 encoded in
      let shifted := map (fun b => byte_of_Z (Z.shiftl (Z_of_byte b) 1)) call_bytes in
      let ssid_field := Z.lor 96 (Z.shiftl (Z.land ssid_value 15) 1) in
      let ssid_field := if last then Z.lor ssid_field 1 else ssid_field in
      Ok (shifted ++ [byte_of_Z ssid_field])
  end.

End Ax25.
Export Ax25.

(** ** The mesh node *)

(** [a > b] on floats *)
Definition Qgtb (a b : Q) : bool := negb (Qle_bool a b).

(** [a < b] on floats *)
Definition Qltb (a b : Q) : bool := negb (Qle_bool b a).

(** [(flags & bit) != 0] *)
Definition flag_set (flags bit : Z) : bool := negb (Z.land flags bit =? 0).

(** [bytes([v])]: [ValueError] unless [v] is in [range(256)]. *)
Definition bytes_of_int (v : Z) : result bytes :=
  if in_byte_range v then Ok [byte_of_Z v] else Raise ValueError.

(** The keys a cleanup comprehension collects:
    [[key for key, v in d.items() if expired(v)]]. *)
Definition dead_keys {K V} `{Countable K} (expired : V -> bool) (d : gmap K V) : list K :=
  map fst (List.filter (fun kv => expired (snd kv)) (map_to_list d)).

Section Node.

Context (ext : Externals) (cfg : MeshNodeConfig).

Local Open Scope node_scope.

(** [MeshNode._derive_node_id] *)
Definition _derive_node_id (callsign : string) : bytes :=
  let encoded := encode_ascii_ignore (list_ascii_of_string callsign) in
  take 8 (ljust 8 x00 encoded).

(** [self._node_id], fixed at construction *)
Definition _node_id : bytes := _derive_node_id (callsign cfg).

(** [KISSClient.send] with its defaults [block=True, timeout=None], as
    far as the call ends: it raises when the client is not running, and
    it returns when it has enqueued the frame.  On a full queue the call
    waits for room and returns once the TX worker has made some; a call
    that waits for ever has no outcome, and the model has none for it.
    The properties are about sends that end: they say what has happened
    when a send has returned or raised, not that it returns. *)
Definition kiss_send (frame : bytes) : M unit :=
  s <- get ;;
  if kiss_running s then modify (set_tx_queue (fun q => q ++ [frame]))
  else raise KISSClientError.

(** [MeshNode._next_seqno] *)
Definition _next_seqno : M Z :=
  with_lock seqno_lock
    (touch res_seqno Reads ;;
     s <- get ;;
     touch res_seqno Mutates ;;
     modify (set_seqno (Z.land (_seqno s + 1) 4294967295)) ;;
     touch res_seqno Reads ;;
     s <- get ;;
     ret (_seqno s)).

(** [MeshNode._wrap_in_ax25_ui] *)
Definition _wrap_in_ax25_ui (info_payload : bytes) : result bytes :=
  match _encode_ax25_address (py_int ext) (mesh_dest_callsign cfg) false with
  | Raise e => Raise e
  | Ok dest =>
      match _encode_ax25_address (py_int ext) (callsign cfg) true with
      | Raise e => Raise e
      | Ok src => Ok (dest ++ src ++ [x03] ++ [xf0] ++ info_payload)
      end
  end.

(** [MeshNode._build_ogm_payload] *)
Definition _build_ogm_payload : M bytes :=
  seqno <- _next_seqno ;;
  let ttl := ogm_ttl (routing_config cfg) in
  mesh_header <- lift (_build_mesh_header MESH_MSG_OGM 0 ttl _node_id seqno) ;;
  let prev_hop := _node_id in
  let link_metric := 255 in
  metric_byte <- lift (bytes_of_int link_metric) ;;
  let body := prev_hop ++ metric_byte in
  ret (mesh_header ++ body).

(** [MeshNode._handle_ogm]; [now] is the value of its [time.time()]. *)
Definition _handle_ogm (now : Q) (origin_id : bytes) (seqno ttl : Z)
    (prev_hop_id : bytes) (link_metric : Z) : M unit :=
  (* Update neighbors *)
  touch res_neighbors Reads ;;
  s <- get ;;
  match neighbors (_routing_state s) !! prev_hop_id with
  | None =>
      touch res_neighbors Mutates ;;
      modify (set_routing_state (set_neighbors
        (insert prev_hop_id {| nei_last_seen := now; link_metric := link_metric |})))
  | Some nei =>
      (* nei.last_seen = now; nei.link_metric = link_metric *)
      touch res_neighbors Mutates ;;
      modify (set_routing_state (set_neighbors
        (insert prev_hop_id {| nei_last_seen := now; link_metric := link_metric |})))
  end ;;
  (* Update originators *)
  touch res_originators Reads ;;
  s <- get ;;
  match originators (_routing_state s) !! origin_id with
  | None =>
      touch res_originators Mutates ;;
      modify (set_routing_state (set_originators
        (insert origin_id {| best_next_hop := prev_hop_id; last_seqno := seqno;
                             metric := link_metric; last_seen := now |})))
  | Some entry =>
      if seqno >? last_seqno entry then
        (* the four fields of the stored entry are assigned *)
        touch res_originators Mutates ;;
        modify (set_routing_state (set_originators
          (insert origin_id {| best_next_hop := prev_hop_id; last_seqno := seqno;
                               metric := link_metric; last_seen := now |})))
      else ret tt
  end ;;
  if ttl >? 1 then
    let fwd_ttl := ttl - 1 in
    mesh_header <- lift (_build_mesh_header MESH_MSG_OGM 0 fwd_ttl origin_id seqno) ;;
    metric_byte <- lift (bytes_of_int link_metric) ;;
    let fwd_body := _node_id ++ metric_byte in
    let fwd_payload := mesh_header ++ fwd_body in
    frame <- lift (_wrap_in_ax25_ui fwd_payload) ;;
    kiss_send frame
  else ret tt.

(** [MeshNode._build_data_payload]; [entropy] feeds the nonce of
    [encrypt]. *)
Definition _build_data_payload (entropy : bytes)
    (dest_id : bytes) (data_seqno : Z) (app_payload : bytes) : result bytes :=
  let flags := 0 in
  let compressed := zlib_compress ext app_payload in
  let '(payload_to_send, flags) :=
    if len compressed <? len app_payload
    then (compressed, Z.lor flags MESH_FLAG_COMPRESSED)
    else (app_payload, flags) in
  match pack_be32 data_seqno with
  | Raise e => Raise e
  | Ok seq_be =>
      let associated_data := _node_id ++ dest_id ++ seq_be in
      match
        (if encryption_enabled (encryptor ext) then
           match encrypt (encryptor ext) entropy payload_to_send associated_data with
           | Raise e => Raise e
           | Ok (nonce, ciphertext) =>
               Ok (Z.lor flags MESH_FLAG_ENCRYPTED,
                   dest_id ++ seq_be ++ nonce ++ ciphertext)
           end
         else Ok (flags, dest_id ++ seq_be ++ payload_to_send))
      with
      | Raise e => Raise e
      | Ok (flags, body) =>
          let ttl := ogm_ttl (routing_config cfg) in
          match _build_mesh_header MESH_MSG_DATA flags ttl _node_id data_seqno with
          | Raise e => Raise e
          | Ok mesh_header => Ok (mesh_header ++ body)
          end
      end
  end.

(** [MeshNode._lookup_best_next_hop] *)
Definition _lookup_best_next_hop (dest_id : bytes) : M (option bytes) :=
  touch res_originators Reads ;;
  s <- get ;;
  match originators (_routing_state s) !! dest_id with
  | None => ret None
  | Some entry => ret (Some (best_next_hop entry))
  end.

(** The [with self._data_seen_lock:] block of [_handle_data_frame].  The
    result says whether the frame goes on: the [return] inside the block
    leaves the function. *)
Definition dedup_gate (now : Q) (key : bytes * Z) : M bool :=
  with_lock data_seen_lock
    (touch res_data_seen Reads ;;
     s <- get ;;
     match _data_seen s !! key with
     | Some _ => ret false
     | None =>
         touch res_data_seen Mutates ;;
         modify (set_data_seen (insert key now)) ;;
         ret true
     end).

(** [MeshNode._handle_data_frame]; [now] is the value of its
    [time.time()]. *)
Definition _handle_data_frame (now : Q) (origin_id : bytes) (seqno ttl flags : Z)
    (body : bytes) : M unit :=
  let key := (origin_id, seqno) in
  fresh <- dedup_gate now key ;;
  if negb fresh then ret tt   (* duplicate: drop *)
  else
  (* Continue parsing *)
  if len body <? 12 then ret tt
  else
  let dest_id := slice 0 8 body in
  data_seq <- lift (unpack_be32 (slice 8 12 body)) ;;
  let remainder := slice_from 12 body in
  seq_be <- lift (pack_be32 data_seq) ;;
  let associated_data := origin_id ++ dest_id ++ seq_be in
  decoded <-
    (if flag_set flags MESH_FLAG_ENCRYPTED then
       if len remainder <? 13 then ret None
       else
         let nonce := slice 0 12 remainder in
         let ciphertext := slice_from 12 remainder in
         decrypted <- lift (decrypt (encryptor ext) nonce ciphertext associated_data) ;;
         ret (Some decrypted)
     else ret (Some remainder)) ;;
  match decoded with
  | None => ret tt
  | Some app_bytes =>
  inflated <-
    (if flag_set flags MESH_FLAG_COMPRESSED then
       match zlib_decompress ext app_bytes with
       | Some out => ret (Some out)
       | None =>
           LOG WARNING "Failed to decompress payload; dropping DATA" ;;
           ret None
       end
     else ret (Some app_bytes)) ;;
  match inflated with
  | None => ret tt
  | Some app_bytes =>
  (* Delivery or forwarding *)
  if decide (dest_id = _node_id) then
    match app_data_callback ext with
    | Some callback =>
        modify (set_delivered (fun d => d ++ [(origin_id, dest_id, data_seq, app_bytes)])) ;;
        match callback origin_id dest_id data_seq app_bytes with
        | None => ret tt
        | Some e => raise e
        end
    | None => LOG INFO "DATA delivered from origin %s seq %d: %r"
    end
  else
  (* Forward *)
  if ttl <=? 1 then ret tt
  else
  next_hop <- _lookup_best_next_hop dest_id ;;
  match next_hop with
  | None => ret tt
  | Some _ =>
      let fwd_ttl := ttl - 1 in
      mesh_header <- lift (_build_mesh_header MESH_MSG_DATA flags fwd_ttl origin_id seqno) ;;
      let fwd_payload := mesh_header ++ body in
      frame <- lift (_wrap_in_ax25_ui fwd_payload) ;;
      kiss_send frame
  end
  end end.

(** [MeshNode.send_application_data] *)
Definition send_application_data (entropy : bytes) (dest_node_id payload : bytes) : M unit :=
  if negb (len dest_node_id =? 8) then raise ValueError
  else
    seqno <- _next_seqno ;;
    mesh_payload <- lift (_build_data_payload entropy dest_node_id seqno payload) ;;
    frame <- lift (_wrap_in_ax25_ui mesh_payload) ;;
    kiss_send frame.

(** One iteration of [MeshNode._ogm_loop], up to its [sleep]. *)
Definition _ogm_loop_iteration : M unit :=
  payload <- _build_ogm_payload ;;
  frame <- lift (_wrap_in_ax25_ui payload) ;;
  kiss_send frame.

Fixpoint for_each {A} (l : list A) (body : A -> M unit) : M unit :=
  match l with
  | [] => ret tt
  | x :: l' => body x ;; for_each l' body
  end.

(** One iteration of [MeshNode._cleanup_loop], up to its [sleep]; [now]
    is the value of its [time.time()].  [del d[key]] is [delete]: every
    key deleted was collected from the same dictionary just before.
    The three differences are exact here and rounded in the code, which
    can matter for an age that exceeds the expiry by less than the
    rounding (see [beyond] below). *)
Definition _cleanup_loop_iteration (now : Q) : M unit :=
  let route_exp := route_expiry_seconds (routing_config cfg) in
  let neigh_exp := neighbor_expiry_seconds (routing_config cfg) in
  (* Originators cleanup *)
  touch res_originators Reads ;;
  s <- get ;;
  let dead_orig :=
    dead_keys (fun entry => Qgtb (now - last_seen entry) route_exp)
              (originators (_routing_state s)) in
  for_each dead_orig (fun key =>
    touch res_originators Mutates ;;
    modify (set_routing_state (set_originators (delete key)))) ;;
  (* Neighbors cleanup *)
  touch res_neighbors Reads ;;
  s <- get ;;
  let dead_nei :=
    dead_keys (fun entry => Qgtb (now - nei_last_seen entry) neigh_exp)
              (neighbors (_routing_state s)) in
  for_each dead_nei (fun key =>
    touch res_neighbors Mutates ;;
    modify (set_routing_state (set_neighbors (delete key)))) ;;
  (* DATA dedup cache cleanup *)
  touch res_data_seen Reads ;;
  s <- get ;;
  let dead_data :=
    dead_keys (fun ts => Qgtb (now - ts) (data_seen_expiry_seconds (routing_config cfg)))
              (_data_seen s) in
  with_lock data_seen_lock
    (for_each dead_data (fun key =>
       touch res_data_seen Mutates ;;
       modify (set_data_seen (delete key)))).

(** [MeshNode._find_info_start] *)
Definition _find_info_start (frame : bytes) : option nat :=
  if len frame <=? 16 then None else Some 16%nat.

(** [MeshNode._on_kiss_frame]; [now] is the clock value read by the
    handler the frame is dispatched to. *)
Definition _on_kiss_frame (now : Q) (frame : bytes) : M unit :=
  if len frame <=? 16 then ret tt
  else
  match _find_info_start frame with
  | None => ret tt
  | Some info_start =>
  let info := slice_from info_start frame in
  parsed <- try_except
              (h <- lift (_parse_mesh_header info) ;; ret (Some h))
              is_ValueError
              (ret None) ;;
  match parsed with
  | None => ret tt
  | Some h =>
  if negb (h_version h =? MESH_VERSION) then ret tt
  else
  let body := slice_from 16 info in
  if h_msg_type h =? MESH_MSG_OGM then
    if len body <? 9 then ret tt
    else
      let prev_hop := slice 0 8 body in
      let link_metric := getitem 8 body in
      _handle_ogm now (h_origin_id h) (h_seqno h) (h_ttl h) prev_hop link_metric
  else if h_msg_type h =? MESH_MSG_DATA then
    _handle_data_frame now (h_origin_id h) (h_seqno h) (h_ttl h) (h_flags h) body
  else ret tt
  end end.

(** [KISSClient._handle_rx_frame], with the node's [_on_kiss_frame] as
    the client's [_rx_callback] (the node passes it to the client
    factory). *)
Definition _handle_rx_frame (now : Q) (frame : bytes) : M unit :=
  try_except (_on_kiss_frame now frame)
             is_ValueError
             (LOG WARNING "Value error in RX callback; frame dropped").

End Node.

(** ** Reconnect loop of the KISS client *)

Module Kiss.

(** The outcome of one pass through the [try] block of
    [_connect_with_backoff]: the interface was created and started, or
    [OSError] was raised. *)
Inductive attempt : Type := Connects | Fails.

(** The [while] loop of [KISSClient._connect_with_backoff], run against
    the outcomes of its successive attempts; the value is the list of
    [time.sleep(delay)] calls in order.  The loop leaves when an attempt
    connects, and when [outcomes] is exhausted ([stop()] cleared
    [_running]). *)
Fixpoint backoff_loop (max_delay delay : Q) (outcomes : list attempt) : list Q :=
  match outcomes with
  | [] => []
  | Connects :: _ => []
  | Fails :: rest =>
      delay :: backoff_loop max_delay
                 (if Qltb delay max_delay then (delay * 2)%Q else delay) rest
  end.

(** [KISSClient._connect_with_backoff] *)
Definition _connect_with_backoff (config : KISSConnectionConfig)
    (outcomes : list attempt) : list Q :=
  let delay := reconnect_base_delay config in
  backoff_loop (reconnect_max_delay config) delay outcomes.

End Kiss.

(** ** The KISS client

    [KISSClient] of [kiss_link.py] with its TX worker.  The client's
    flags ([threading.Event]), its interface object and its queue are the
    state; three histories make effects observable: [written] holds the
    frames [iface.write] has accepted, [slept] the arguments of
    [time.sleep], [client_log] the records sent to [LOG].

    Code outside the repository is modelled by what the sources rely on:
    - [queue.Queue(maxsize)] is a FIFO that is full when [maxsize > 0]
      and it holds [maxsize] items; [put] on a full queue raises
      [queue.Full] when not blocking, waits for room when blocking
      without a timeout, and with a timeout raises [queue.Full] once the
      timeout has passed without room; [put] with a negative timeout
      raises [ValueError] when the queue is bounded; [get(timeout)] on
      an empty queue raises [queue.Empty];
    - the [kiss3] interface either does what it is asked or raises
      [OSError], the one exception the client handles; which of the two
      is an argument of the model.

    Each method and each pass of the TX loop is one atomic step; a run
    interleaves them in any order.  A step that waits is placed where
    its wait ends: a [send] that finds room after a while is a [send]
    after the pass that made the room, and a [stop] that comes while
    the reconnect loop sleeps is met by that loop at its next test.

    The RX worker, [_rx_loop], is not part of the model: what [kiss3]'s
    [read] does between two frames and with an exception of the
    callback is not in the sources.  A run is one of the methods and
    of the TX worker. *)

(** [TransportType] of [mesh_config.py], by its two members the sources
    name. *)
Inductive TransportType : Type := TCP | SERIAL.

Module Client.

(** What the [while] loop of [_connect_with_backoff] meets when it comes
    to its test.  Nothing has changed, and a pass through the [try]
    block follows: the interface is created and started; or
    [_create_kiss_iface] raises [OSError]; or [start()] raises it, the
    new interface object being already assigned to [_kiss_iface].  Or
    another thread has called [stop] since the last test, before the
    loop was entered or while it slept: the test sees what [stop] has
    left ([iface_stop_raises] as for [stop] below). *)
Inductive try_outcome : Type :=
| Started
| CreateFails
| StartFails
| StopCalled (iface_stop_raises : bool).


(** The empty frames the calls of [stop] among [outcomes] offer to the
    queue. *)
Definition sentinels (outcomes : list try_outcome) : list bytes :=
  flat_map (fun o => match o with
                     | StopCalled _ => [[]]
                     | _ => []
                     end) outcomes.

(** [_transport] is [self._config.transport]; the record
    [KISSConnectionConfig] above holds the other fields the client
    reads.  [_kiss_iface] is [None] or the interface object. *)
Record KISSClient : Type := {
  _config : KISSConnectionConfig;
  _transport : TransportType;
  _running : bool;
  _connected : bool;
  _kiss_iface : option unit;
  _tx_queue : list bytes;
  written : list bytes;
  slept : list Q;
  client_log : list (level * string);
}.

(** [KISSClient.__init__] *)
Definition new_client (config : KISSConnectionConfig) (transport : TransportType)
    : KISSClient :=
  {| _config := config; _transport := transport; _running := false; _connected := false;
     _kiss_iface := None; _tx_queue := []; written := []; slept := [];
     client_log := [] |}.

Definition set_running (b : bool) (c : KISSClient) : KISSClient :=
  {| _config := _config c; _transport := _transport c; _running := b; _connected := _connected c;
     _kiss_iface := _kiss_iface c; _tx_queue := _tx_queue c; written := written c;
     slept := slept c; client_log := client_log c |}.

Definition set_connected (b : bool) (c : KISSClient) : KISSClient :=
  {| _config := _config c; _transport := _transport c; _running := _running c; _connected := b;
     _kiss_iface := _kiss_iface c; _tx_queue := _tx_queue c; written := written c;
     slept := slept c; client_log := client_log c |}.

Definition set_kiss_iface (i : option unit) (c : KISSClient) : KISSClient :=
  {| _config := _config c; _transport := _transport c; _running := _running c; _connected := _connected c;
     _kiss_iface := i; _tx_queue := _tx_queue c; written := written c;
     slept := slept c; client_log := client_log c |}.

Definition set_tx_queue (q : list bytes) (c : KISSClient) : KISSClient :=
  {| _config := _config c; _transport := _transport c; _running := _running c; _connected := _connected c;
     _kiss_iface := _kiss_iface c; _tx_queue := q; written := written c;
     slept := slept c; client_log := client_log c |}.

Definition add_written (frame : bytes) (c : KISSClient) : KISSClient :=
  {| _config := _config c; _transport := _transport c; _running := _running c; _connected := _connected c;
     _kiss_iface := _kiss_iface c; _tx_queue := _tx_queue c;
     written := written c ++ [frame]; slept := slept c; client_log := client_log c |}.

(** [time.sleep(d)] *)
Definition sleep (d : Q) (c : KISSClient) : KISSClient :=
  {| _config := _config c; _transport := _transport c; _running := _running c; _connected := _connected c;
     _kiss_iface := _kiss_iface c; _tx_queue := _tx_queue c; written := written c;
     slept := slept c ++ [d]; client_log := client_log c |}.

Definition LOG (lv : level) (msg : string) (c : KISSClient) : KISSClient :=
  {| _config := _config c; _transport := _transport c; _running := _running c; _connected := _connected c;
     _kiss_iface := _kiss_iface c; _tx_queue := _tx_queue c; written := written c;
     slept := slept c; client_log := client_log c ++ [(lv, msg)] |}.

(** [queue.Queue.qsize] and [queue.Queue.full] *)
Definition qsize (c : KISSClient) : Z := Z.of_nat (length (_tx_queue c)).

Definition full (c : KISSClient) : bool :=
  let maxsize := tx_queue_size (_config c) in
  (0 <? maxsize) && (maxsize <=? qsize c).

(** How a call of [send] ends when no other thread takes a frame off
    the queue in the meantime: it has enqueued the frame and returned,
    it has raised, or it waits for room and does not return. *)
Inductive send_outcome : Type :=
| Enqueued (c : KISSClient)
| Raised (e : exn)
| Waits.

(** [KISSClient.send], with [queue.Queue.put] written out.  On a full
    queue a [put] that does not block raises [queue.Full] at once, and
    one that blocks with a timeout raises it when the timeout has
    passed (at once for a timeout of zero); [send] turns [queue.Full]
    into [KISSClientError].  A [put] that blocks without a timeout
    waits. *)
Definition send (frame : bytes) (block : bool) (timeout : option Q) (c : KISSClient)
    : send_outcome :=
  if negb (_running c) then Raised KISSClientError
  else
    let put := Enqueued (set_tx_queue (_tx_queue c ++ [frame]) c) in
    if 0 <? tx_queue_size (_config c) then
      if negb block then
        if full c then Raised KISSClientError else put
      else
        match timeout with
        | None => if full c then Waits else put
        | Some t =>
            if Qltb t 0 then Raised ValueError
            else if full c then Raised KISSClientError else put
        end
    else put.


(** [KISSClient.start]; the two worker threads it starts are the callers
    of the loop passes below. *)
Definition start (c : KISSClient) : KISSClient :=
  if _running c then LOG WARNING "KISSClient %s already running" c
  else set_running true c.

(** [KISSClient.stop]; [iface_stop_raises] says whether
    [self._kiss_iface.stop()] raises [OSError].  The joins wait for the
    workers and change nothing themselves. *)
Definition stop (iface_stop_raises : bool) (c : KISSClient) : KISSClient :=
  if negb (_running c) then c
  else
    let c := set_running false c in
    (* Wake TX thread so it can exit: put_nowait(b"") *)
    let c := if full c
             then LOG WARNING "TX queue full while stopping; forcing shutdown" c
             else set_tx_queue (_tx_queue c ++ [[]]) c in
    match _kiss_iface c with
    | Some _ =>
        let c := if iface_stop_raises
                 then LOG WARNING "Error stopping KISS interface" c
                 else c in
        set_connected false (set_kiss_iface None c)
    | None => c
    end.

(** The record [KISSClient._create_kiss_iface] logs before it constructs
    the interface object.  [TransportType] has no third member, so its
    last line, which raises [KISSClientError], is not reached. *)
Definition _create_kiss_iface_log (c : KISSClient) : KISSClient :=
  match _transport c with
  | SERIAL => LOG INFO "Using SerialKISS on %s @ %d baud" c
  | TCP => LOG INFO "Using TCPKISS to %s:%d" c
  end.

(** The [while] loop of [KISSClient._connect_with_backoff] on the client
    state, run against what it meets at its successive tests.  The loop
    returns when its test fails: the client is connected, or [stop] has
    cleared [_running].  [None] when the outcomes are used up with the
    loop still going: it has not returned yet. *)
Fixpoint backoff_loop (max_delay delay : Q) (outcomes : list try_outcome)
    (c : KISSClient) : option KISSClient :=
  match outcomes with
  | StopCalled iface_stop_raises :: rest =>
      backoff_loop max_delay delay rest (stop iface_stop_raises c)
  | _ =>
      if _running c && negb (_connected c) then
        match outcomes with
        | Started :: rest =>
            backoff_loop max_delay delay rest
              (LOG INFO "KISS connection established"
                 (set_connected true (set_kiss_iface (Some tt) (_create_kiss_iface_log c))))
        | CreateFails :: rest =>
            backoff_loop max_delay
              (if Qltb delay max_delay then (delay * 2)%Q else delay) rest
              (sleep delay
                 (LOG WARNING "KISS connection failed; retrying in %.1f s"
                    (set_connected false (_create_kiss_iface_log c))))
        | StartFails :: rest =>
            backoff_loop max_delay
              (if Qltb delay max_delay then (delay * 2)%Q else delay) rest
              (sleep delay
                 (LOG WARNING "KISS connection failed; retrying in %.1f s"
                    (set_connected false
                       (set_kiss_iface (Some tt) (_create_kiss_iface_log c)))))
        | _ => None
        end
      else Some c
  end.

(** [KISSClient._connect_with_backoff] *)
Definition _connect_with_backoff (outcomes : list try_outcome) (c : KISSClient)
    : option KISSClient :=
  let delay := reconnect_base_delay (_config c) in
  backoff_loop (reconnect_max_delay (_config c)) delay outcomes c.

(** How a pass through the body of a worker loop ends. *)
Inductive control : Type := Continue | Break.

(** [(not self._connected.is_set()) or (self._kiss_iface is None)] *)
Definition link_down (c : KISSClient) : bool :=
  negb (_connected c) ||
  match _kiss_iface c with
  | None => true
  | Some _ => false
  end.

(** One pass through the body of the [while] loop of
    [KISSClient._tx_loop], from [get] on; [outcomes] is what the
    reconnect loop meets if the pass enters it, [write_raises] says
    whether [iface.write] raises [OSError]. *)
Definition _tx_loop_pass (outcomes : list try_outcome) (write_raises : bool)
    (c : KISSClient) : option (control * KISSClient) :=
  match _tx_queue c with
  | [] => Some (Continue, c)   (* queue.Empty after the timeout *)
  | frame :: rest =>
      let c := set_tx_queue rest c in
      if negb (_running c) then Some (Break, c)
      else if decide (frame = []) then Some (Continue, c)
      else
        match (if link_down c then _connect_with_backoff outcomes c else Some c) with
        | None => None
        | Some c =>
            if link_down c then
              Some (Continue,
                    LOG WARNING "Dropping TX frame: no KISS connection available" c)
            else if write_raises then
              Some (Continue,
                    sleep 1
                      (set_connected false
                         (set_kiss_iface None
                            (LOG WARNING
                               "Error writing frame; dropping connection and retrying" c))))
            else Some (Continue, add_written frame c)
        end
  end.

(** [KISSClient._tx_loop] over the passes its oracle provides for. *)
Fixpoint _tx_loop (passes : list (list try_outcome * bool)) (c : KISSClient)
    : option KISSClient :=
  if _running c then
    match passes with
    | [] => Some c
    | (outcomes, write_raises) :: rest =>
        match _tx_loop_pass outcomes write_raises c with
        | None => None
        | Some (Break, c') => Some c'
        | Some (Continue, c') => _tx_loop rest c'
        end
    end
  else Some c.

(** What happens to a client: calls of its public methods, and passes of
    its TX worker. *)
Inductive op : Type :=
| Start
| Stop (iface_stop_raises : bool)
| Send (frame : bytes) (block : bool) (timeout : option Q)
| TxPass (outcomes : list try_outcome) (write_raises : bool).

(** One operation, when it returns; a [send] that raises leaves the
    client as it was.  [None]: the operation does not return at this
    point (a [send] that waits for room, a pass whose reconnect loop is
    still going). *)
Definition step (c : KISSClient) (o : op) : option KISSClient :=
  match o with
  | Start => Some (start c)
  | Stop iface_stop_raises => Some (stop iface_stop_raises c)
  | Send frame block timeout =>
      match send frame block timeout c with
      | Enqueued c' => Some c'
      | Raised _ => Some c
      | Waits => None
      end
  | TxPass outcomes write_raises =>
      match _tx_loop_pass outcomes write_raises c with
      | Some (_, c') => Some c'
      | None => None
      end
  end.

(** A run: operations one after the other, each returning before the
    next starts. *)
Fixpoint run (ops : list op) (c : KISSClient) : option KISSClient :=
  match ops with
  | [] => Some c
  | o :: ops' =>
      match step c o with
      | Some c' => run ops' c'
      | None => None
      end
  end.

(** The frames a run offers to the queue, in order: those of its [send]
    calls and the empty sentinel of each [stop], also of one that comes
    during a pass of the TX loop. *)
Definition offered (ops : list op) : list bytes :=
  flat_map (fun o => match o with
                     | Send frame _ _ => [frame]
                     | Stop _ => [[]]
                     | TxPass outcomes _ => sentinels outcomes
                     | Start => []
                     end) ops.

End Client.

(** ** Loading the configuration

    [config_loader.py].  The value [yaml.safe_load] returns is an
    argument of the model.  Its universe is the core of YAML: null,
    booleans, integers, finite floats (rationals, as the delays above),
    strings of Latin-1 characters, sequences and mappings; a mapping is
    the association list of its items in order, with distinct keys.
    Timestamps, binary scalars and sets are left out.

    The builtins [float] and [int] on a string and [str] on a value
    that is not a string are interface functions, [Builtins]. *)

Module Config.

#[warnings="-register-all"]
Inductive yaml : Type :=
| YNone
| YBool (b : bool)
| YInt (n : Z)
| YFloat (q : Q)
| YStr (s : string)
| YList (l : list yaml)
| YMap (items : list (yaml * yaml)).

(** The exception classes the loader raises or lets through.
    [binascii.Error] derives from [ValueError]. *)
Inductive error : Type :=
| KeyError
| ValueError
| BinasciiError
| TypeError
| AttributeError.

Inductive loaded (A : Type) : Type :=
| Loaded (a : A)
| Fails (e : error).
Arguments Loaded {A} a.
Arguments Fails {A} e.

Definition bind {A B} (m : loaded A) (k : A -> loaded B) : loaded B :=
  match m with
  | Loaded a => k a
  | Fails e => Fails e
  end.

Declare Scope config_scope.
Delimit Scope config_scope with config.
Notation "x <- m ;; k" := (bind m (fun x => k))
  (at level 100, m at next level, right associativity) : config_scope.

Record Builtins : Type := {
  float_of_str : string -> option Q;   (* [float(s)], [None] for [ValueError] *)
  int_of_str : string -> option Z;     (* [int(s)], [None] for [ValueError] *)
  repr : yaml -> string;               (* [str(v)] for [v] not a string *)
}.

(** The transport fields of the dataclass [KISSConnectionConfig]; its
    other three fields are the record [KISSConnectionConfig] above.
    [serial_port] and [tcp_host] are stored as loaded, unconverted. *)
Record KISSTransportConfig : Type := {
  transport : TransportType;
  serial_port : yaml;
  serial_baud : Z;
  tcp_host : yaml;
  tcp_port : Z;
}.

Record MeshSecurityConfig : Type := {
  enable_encryption : bool;
  key : option bytes;
}.

(** What [load_mesh_node_config] builds: the dataclass [MeshNodeConfig],
    as the record [MeshNodeConfig] above, the transport fields of its
    [kiss_config] and its [security_config]. *)
Record LoadedNodeConfig : Type := {
  node_config : MeshNodeConfig;
  kiss_transport : KISSTransportConfig;
  security_config : MeshSecurityConfig;
}.

(** [ChatPeer] and [MeshChatConfig] of [chat_client.py], by the keyword
    arguments the loader constructs them with; [peers] is the dictionary
    as the list of its items in insertion order. *)
Record ChatPeer : Type := {
  node_id : bytes;
  nick : string;
}.

Record MeshChatConfig : Type := {
  mesh_node_config : LoadedNodeConfig;
  db_path : string;
  peers : list (yaml * ChatPeer);
}.

(** [d[key]] for a string key, [None] when the key is absent. *)
Fixpoint lookup (items : list (yaml * yaml)) (key : string) : option yaml :=
  match items with
  | [] => None
  | (YStr k, v) :: rest => if String.eqb k key then Some v else lookup rest key
  | _ :: rest => lookup rest key
  end.

(** [d.get(key, default)] on a dictionary *)
Definition get (items : list (yaml * yaml)) (key : string) (default : yaml) : yaml :=
  match lookup items key with
  | Some v => v
  | None => default
  end.

(** [v.get(key, default)] on any value: only a mapping has [get]. *)
Definition get_attr (v : yaml) (key : string) (default : yaml) : loaded yaml :=
  match v with
  | YMap items => Loaded (get items key default)
  | _ => Fails AttributeError
  end.

(** [sub in s] on strings *)
Fixpoint contains (s sub : string) : bool :=
  if String.prefix sub s then true
  else match s with
       | EmptyString => false
       | String _ s' => contains s' sub
       end.

(** [_get_required].  [key not in mapping] is the key test of a
    dictionary, the substring test of a string and the membership test
    of a list, and raises [TypeError] on a value that is not a
    container; [mapping[key]] raises [TypeError] on a string and on a
    list. *)
Definition _get_required (mapping : yaml) (key : string) : loaded yaml :=
  match mapping with
  | YMap items =>
      match lookup items key with
      | Some v => Loaded v
      | None => Fails KeyError
      end
  | YStr s => if contains s key then Fails TypeError else Fails KeyError
  | YList l =>
      if existsb (fun v => match v with
                           | YStr k => String.eqb k key
                           | _ => false
                           end) l
      then Fails TypeError else Fails KeyError
  | YNone | YBool _ | YInt _ | YFloat _ => Fails TypeError
  end.

(** [str.lower] on one Latin-1 character *)
Definition lower_char (c : ascii) : ascii :=
  let n := N_of_ascii c in
  if ((65 <=? n) && (n <=? 90))%N then ascii_of_N (n + 32)
  else if ((192 <=? n) && (n <=? 222) && negb (n =? 215))%N then ascii_of_N (n + 32)
  else c.

Definition lower (s : string) : string :=
  string_of_list_ascii (map lower_char (list_ascii_of_string s)).

(** [_load_transport] *)
Definition _load_transport (cfg : yaml) : loaded TransportType :=
  bind (get_attr cfg "transport" (YStr "tcp")) (fun v =>
  match v with
  | YStr s =>
      let value := lower s in
      if String.eqb value "tcp" then Loaded TCP
      else if String.eqb value "serial" then Loaded SERIAL
      else Fails ValueError
  | _ => Fails AttributeError   (* no method [lower] *)
  end).

Section Loader.

Context (py : Builtins).

Local Open Scope config_scope.

(** [float(v)] *)
Definition py_float (v : yaml) : loaded Q :=
  match v with
  | YBool b => Loaded (if b then 1 else 0)%Q
  | YInt n => Loaded (inject_Z n)
  | YFloat q => Loaded q
  | YStr s => match float_of_str py s with
              | Some q => Loaded q
              | None => Fails ValueError
              end
  | YNone | YList _ | YMap _ => Fails TypeError
  end.

(** [int(v)]: a float is truncated towards zero. *)
Definition py_int (v : yaml) : loaded Z :=
  match v with
  | YBool b => Loaded (if b then 1 else 0)
  | YInt n => Loaded n
  | YFloat q => Loaded (Z.quot (Qnum q) (Z.pos (Qden q)))
  | YStr s => match int_of_str py s with
              | Some n => Loaded n
              | None => Fails ValueError
              end
  | YNone | YList _ | YMap _ => Fails TypeError
  end.

(** [bool(v)] *)
Definition py_bool (v : yaml) : bool :=
  match v with
  | YNone => false
  | YBool b => b
  | YInt n => negb (n =? 0)
  | YFloat q => negb (Qeq_bool q 0)
  | YStr s => negb (String.eqb s "")
  | YList l => match l with [] => false | _ => true end
  | YMap items => match items with [] => false | _ => true end
  end.

(** [str(v)] *)
Definition py_str (v : yaml) : string :=
  match v with
  | YStr s => s
  | _ => repr py v
  end.

Definition hex_value (c : ascii) : option Z :=
  let n := N_of_ascii c in
  if ((48 <=? n) && (n <=? 57))%N then Some (Z.of_N (n - 48))
  else if ((97 <=? n) && (n <=? 102))%N then Some (Z.of_N (n - 87))
  else if ((65 <=? n) && (n <=? 70))%N then Some (Z.of_N (n - 55))
  else None.

Fixpoint unhex (s : list ascii) : option bytes :=
  match s with
  | [] => Some []
  | [_] => None                                  (* odd length *)
  | hi :: lo :: rest =>
      match hex_value hi, hex_value lo, unhex rest with
      | Some h, Some l, Some out => Some (byte_of_Z (16 * h + l) :: out)
      | _, _, _ => None                          (* not a hexadecimal digit *)
      end
  end.

(** [binascii.unhexlify(v)] *)
Definition unhexlify (v : yaml) : loaded bytes :=
  match v with
  | YStr s =>
      let cs := list_ascii_of_string s in
      if negb (forallb is_ascii cs) then Fails ValueError
      else match unhex cs with
           | Some out => Loaded out
           | None => Fails BinasciiError
           end
  | _ => Fails TypeError
  end.

(** [load_kiss_config] *)
Definition load_kiss_config (root : list (yaml * yaml))
    : loaded (KISSTransportConfig * KISSConnectionConfig) :=
  let kiss_cfg := get root "kiss" (YMap []) in
  transport <- _load_transport kiss_cfg ;;
  serial_port <- get_attr kiss_cfg "serial_port" (YStr "/dev/ttyUSB0") ;;
  v <- get_attr kiss_cfg "serial_baud" (YInt 1200) ;;
  serial_baud <- py_int v ;;
  tcp_host <- get_attr kiss_cfg "tcp_host" (YStr "127.0.0.1") ;;
  v <- get_attr kiss_cfg "tcp_port" (YInt 8001) ;;
  tcp_port <- py_int v ;;
  v <- get_attr kiss_cfg "reconnect_base_delay" (YFloat 5) ;;
  reconnect_base_delay <- py_float v ;;
  v <- get_attr kiss_cfg "reconnect_max_delay" (YFloat 60) ;;
  reconnect_max_delay <- py_float v ;;
  v <- get_attr kiss_cfg "tx_queue_size" (YInt 1000) ;;
  tx_queue_size <- py_int v ;;
  Loaded ({| transport := transport; serial_port := serial_port;
             serial_baud := serial_baud; tcp_host := tcp_host; tcp_port := tcp_port |},
          {| reconnect_base_delay := reconnect_base_delay;
             reconnect_max_delay := reconnect_max_delay;
             tx_queue_size := tx_queue_size |}).

(** [load_routing_config] *)
Definition load_routing_config (root : list (yaml * yaml)) : loaded MeshRoutingConfig :=
  let routing_cfg := get root "routing" (YMap []) in
  v <- get_attr routing_cfg "ogm_interval_seconds" (YFloat 10) ;;
  ogm_interval <- py_float v ;;
  v <- get_attr routing_cfg "ogm_ttl" (YInt 5) ;;
  ogm_ttl <- py_int v ;;
  v <- get_attr routing_cfg "route_expiry_seconds" (YFloat 120) ;;
  route_expiry <- py_float v ;;
  v <- get_attr routing_cfg "neighbor_expiry_seconds" (YFloat 60) ;;
  neighbor_expiry <- py_float v ;;
  v <- get_attr routing_cfg "data_seen_expiry_seconds" (YFloat 30) ;;
  data_seen_expiry <- py_float v ;;
  Loaded {| ogm_interval_seconds := ogm_interval; ogm_ttl := ogm_ttl;
            route_expiry_seconds := route_expiry;
            neighbor_expiry_seconds := neighbor_expiry;
            data_seen_expiry_seconds := data_seen_expiry |}.

(** [load_security_config] *)
Definition load_security_config (root : list (yaml * yaml)) : loaded MeshSecurityConfig :=
  let sec_cfg := get root "security" (YMap []) in
  v <- get_attr sec_cfg "enable_encryption" (YBool false) ;;
  let enable_encryption := py_bool v in
  key_hex <- get_attr sec_cfg "key_hex" YNone ;;
  key_bytes <- match key_hex with
               | YNone => Loaded None
               | _ => out <- unhexlify key_hex ;; Loaded (Some out)
               end ;;
  Loaded {| enable_encryption := enable_encryption; key := key_bytes |}.

(** [load_mesh_node_config] *)
Definition load_mesh_node_config (root : list (yaml * yaml)) : loaded LoadedNodeConfig :=
  let mesh_cfg := get root "mesh" (YMap []) in
  v <- _get_required mesh_cfg "callsign" ;;
  let callsign := py_str v in
  v <- get_attr mesh_cfg "mesh_dest_callsign" (YStr "QMESH-0") ;;
  let mesh_dest_callsign := py_str v in
  kiss_cfg <- load_kiss_config root ;;
  routing_cfg <- load_routing_config root ;;
  security_cfg <- load_security_config root ;;
  Loaded {| node_config :=
              {| callsign := callsign; mesh_dest_callsign := mesh_dest_callsign;
                 kiss_config := snd kiss_cfg; routing_config := routing_cfg |};
            kiss_transport := fst kiss_cfg;
            security_config := security_cfg |}.

(** The body of the loop over [peers_raw.items()] of
    [load_chat_config_from_yaml], for the items left; [peers] holds the
    peers accepted so far. *)
Fixpoint load_peers (items : list (yaml * yaml)) (peers : list (yaml * ChatPeer))
    : loaded (list (yaml * ChatPeer)) :=
  match items with
  | [] => Loaded peers
  | (nickname, peer_data_any) :: rest =>
      match peer_data_any with
      | YMap peer_data =>
          node_id_hex <- _get_required peer_data_any "node_id_hex" ;;
          let peer_nick := py_str (get peer_data "nick" nickname) in
          node_id_bytes <- unhexlify node_id_hex ;;
          if negb (len node_id_bytes =? 8) then Fails ValueError
          else load_peers rest
                 (peers ++ [(nickname, {| node_id := node_id_bytes; nick := peer_nick |})])
      | _ => load_peers rest peers   (* not a dict: continue *)
      end
  end.

(** [load_chat_config_from_yaml], from the value [yaml.safe_load] has
    returned for the file. *)
Definition load_chat_config_from_yaml (root : yaml) : loaded MeshChatConfig :=
  match root with
  | YMap root =>
      mesh_node_cfg <- load_mesh_node_config root ;;
      let chat_cfg_raw := get root "chat" (YMap []) in
      v <- _get_required chat_cfg_raw "db_path" ;;
      let db_path := py_str v in
      peers_raw <- get_attr chat_cfg_raw "peers" (YMap []) ;;
      match peers_raw with
      | YMap items =>
          peers <- load_peers items [] ;;
          Loaded {| mesh_node_config := mesh_node_cfg; db_path := db_path;
                    peers := peers |}
      | _ => Fails AttributeError   (* no method [items] *)
      end
  | _ => Fails ValueError
  end.

End Loader.

(** The items of [peers_raw] that the loop does not skip. *)
Definition is_mapping (v : yaml) : bool :=
  match v with
  | YMap _ => true
  | _ => false
  end.

(** [peer] is what the loop makes of the item [(nickname, data)]: the
    node ID is spelled by sixteen hexadecimal digits. *)
Definition peer_of_item (py : Builtins) (item : yaml * yaml) (peer : yaml * ChatPeer)
    : Prop :=
  fst peer = fst item /\
  exists peer_data hex,
    snd item = YMap peer_data /\
    lookup peer_data "node_id_hex" = Some (YStr hex) /\
    String.length hex = 16%nat /\
    unhex (list_ascii_of_string hex) = Some (node_id (snd peer)) /\
    length (node_id (snd peer)) = 8%nat /\
    nick (snd peer) = py_str py (get peer_data "nick" (fst item)).

End Config.

(** ** Runs of a node *)

(** What the node's threads do, one atomic step each: the RX worker hands
    a frame to [_handle_rx_frame]; the cleanup and OGM loops run one
    iteration; the application sends.  A step keeps the state its code
    leaves, also when the code raises: what an escaped exception does to
    the thread that ran it is not part of a run. *)
Inductive event : Type :=
| RxFrame (now : Q) (frame : bytes)
| CleanupTick (now : Q)
| OgmTick
| AppSend (entropy dest_node_id payload : bytes).

Definition step (ext : Externals) (cfg : MeshNodeConfig) (s : MeshNode) (ev : event) : MeshNode :=
  match ev with
  | RxFrame now frame => snd (_handle_rx_frame ext cfg now frame s)
  | CleanupTick now => snd (_cleanup_loop_iteration cfg now s)
  | OgmTick => snd (_ogm_loop_iteration ext cfg s)
  | AppSend entropy dest payload => snd (send_application_data ext cfg entropy dest payload s)
  end.

Definition run (ext : Externals) (cfg : MeshNodeConfig) (s : MeshNode) (evs : list event) : MeshNode :=
  fold_left (step ext cfg) evs s.

(** A node just constructed and started: empty tables, counter at zero,
    KISS client running, no lock held. *)
Definition fresh_node : MeshNode :=
  {| _routing_state := {| originators := ∅; neighbors := ∅ |};
     _seqno := 0; _data_seen := ∅; kiss_running := true;
     tx_queue := []; delivered := []; log := []; held := []; accesses := [] |}.

(** ** What a received frame carries

    The fields [_on_kiss_frame] and [_handle_data_frame] slice out of a
    frame, named so that statements can refer to them. *)

Definition frame_info (frame : bytes) : bytes := slice_from 16 frame.
Definition frame_body (frame : bytes) : bytes := slice_from 16 (frame_info frame).
Definition body_dest_id (body : bytes) : bytes := slice 0 8 body.
Definition body_remainder (body : bytes) : bytes := slice_from 12 body.
Definition body_nonce (body : bytes) : bytes := slice 0 12 (body_remainder body).
Definition body_ciphertext (body : bytes) : bytes := slice_from 12 (body_remainder body).

(** The associated data of a DATA frame: [origin_id + dest_id +
    pack(">I", data_seq)], which is the origin followed by the first
    twelve bytes of the body. *)
Definition body_associated_data (origin_id body : bytes) : bytes :=
  origin_id ++ slice 0 12 body.

(** [frame] is dispatched by [_on_kiss_frame] with parsed header [h]. *)
Definition dispatched (frame : bytes) (h : header) : Prop :=
  16 < len frame /\
  _parse_mesh_header (frame_info frame) = Ok h /\
  h_version h = MESH_VERSION.

Definition data_frame (frame : bytes) (h : header) : Prop :=
  dispatched frame h /\ h_msg_type h = MESH_MSG_DATA.

Definition ogm_frame (frame : bytes) (h : header) : Prop :=
  dispatched frame h /\ h_msg_type h = MESH_MSG_OGM.

(** The dedup gate lets a frame with header [h] through. *)
Definition fresh_key (s : MeshNode) (h : header) : bool :=
  match _data_seen s !! (h_origin_id h, h_seqno h) with
  | None => true
  | Some _ => false
  end.

(** A DATA frame with the ENCRYPTED flag gets as far as the call of
    [decrypt]: it passes the dedup gate and is long enough. *)
Definition reaches_decrypt (s : MeshNode) (h : header) (body : bytes) : bool :=
  fresh_key s h && (12 <=? len body) && (13 <=? len (body_remainder body)).

(** The payload of a DATA body after the decrypt step of
    [_handle_data_frame]: [None] when the step drops the frame or raises. *)
Definition decrypt_step (ext : Externals) (flags : Z) (origin_id body : bytes) : option bytes :=
  if flag_set flags MESH_FLAG_ENCRYPTED then
    if len (body_remainder body) <? 13 then None
    else match decrypt (encryptor ext) (body_nonce body) (body_ciphertext body)
                 (body_associated_data origin_id body) with
         | Ok plain => Some plain
         | Raise _ => None
         end
  else Some (body_remainder body).

(** ... and after the decompress step. *)
Definition decode_steps (ext : Externals) (flags : Z) (origin_id body : bytes) : option bytes :=
  match decrypt_step ext flags origin_id body with
  | None => None
  | Some app_bytes =>
      if flag_set flags MESH_FLAG_COMPRESSED then zlib_decompress ext app_bytes
      else Some app_bytes
  end.

(** Every cleanup iteration of [evs] runs at a time [t] with
    [t - since <= expiry]: nothing inserted at [since] has expired yet. *)
Definition cleanups_within (since expiry : Q) (evs : list event) : Prop :=
  Forall (fun ev => match ev with
                    | CleanupTick t => (t - since <= expiry)%Q
                    | _ => True
                    end) evs.

(** Every cleanup iteration of [evs] runs no later than [by_time]. *)
Definition cleanups_by (by_time : Q) (evs : list event) : Prop :=
  Forall (fun ev => match ev with
                    | CleanupTick t => (t <= by_time)%Q
                    | _ => True
                    end) evs.

(** Python floats are binary64 numbers.  The cleanup loop compares the
    difference [now - timestamp] as the float subtraction returns it,
    the exact difference rounded to nearest, which differs from it by a
    factor of [1 - 2^-53] at most.  [age] is [beyond] [expiry] when it
    exceeds it by this margin: the rounded age then exceeds the expiry
    too.  (An age of at most the expiry is at most the expiry after
    rounding as well: rounding is monotone and the expiry is a float.) *)
Definition beyond (age expiry : Q) : Prop :=
  (0 <= expiry)%Q /\ (expiry < age * (1 - (1 # 9007199254740992)))%Q.

(** What a cleanup iteration does to the entry under one key, [before]
    and [after] it: [age] is the exact time since the timestamp of an
    entry.  An entry is kept as it is or evicted; it is kept when its
    age is at most the expiry, evicted when its age is beyond it; no
    entry appears. *)
Definition evicted_by_age {V} (age : V -> Q) (expiry : Q) (before after : option V) : Prop :=
  match before with
  | None => after = None
  | Some v =>
      (after = Some v \/ after = None) /\
      ((age v <= expiry)%Q -> after = Some v) /\
      (beyond (age v) expiry -> after = None)
  end.





(** The events that allocate a sequence number: an iteration of the OGM
    loop, and an application send that passes the length check on its
    destination. *)
Definition consumes_seqno (ev : event) : bool :=
  match ev with
  | OgmTick => true
  | AppSend _ dest_node_id _ => len dest_node_id =? 8
  | _ => false
  end.


(** ** Concrete instances, to evaluate the model on *)

Module Bench.

(** The builtin [int] on a string of Latin-1 characters, in base ten:
    white space around the number is skipped, a sign may come first,
    and the digits may be separated by single underscores.  The white
    space of [int] is tab to carriage return and space, and beyond
    ASCII the next-line and no-break-space characters. *)
Definition digit_value (c : ascii) : option Z :=
  let n := N_of_ascii c in
  if ((48 <=? n) && (n <=? 57))%N then Some (Z.of_N (n - 48)) else None.

Definition is_space (c : ascii) : bool :=
  let n := N_of_ascii c in
  (((9 <=? n) && (n <=? 13)) || (n =? 32) || (n =? 133) || (n =? 160))%N.

Fixpoint lstrip (s : list ascii) : list ascii :=
  match s with
  | [] => []
  | c :: s' => if is_space c then lstrip s' else s
  end.

(** The digits after the first one: [acc] is the value read so far,
    [sep] says whether the last character was an underscore. *)
Fixpoint digits_value (acc : Z) (sep : bool) (s : list ascii) : option Z :=
  match s with
  | [] => if sep then None else Some acc
  | c :: s' =>
      if Ascii.eqb c "_"%char then
        if sep then None else digits_value acc true s'
      else
        match digit_value c with
        | Some d => digits_value (acc * 10 + d) false s'
        | None => None
        end
  end.

Definition unsigned_value (s : list ascii) : option Z :=
  match s with
  | [] => None
  | c :: s' =>
      match digit_value c with
      | Some d => digits_value d false s'
      | None => None
      end
  end.

Definition int_decimal (s : string) : option Z :=
  match rev (lstrip (rev (lstrip (list_ascii_of_string s)))) with
  | [] => None
  | c :: cs =>
      if Ascii.eqb c "+"%char then unsigned_value cs
      else if Ascii.eqb c "-"%char then option_map Z.opp (unsigned_value cs)
      else unsigned_value (c :: cs)
  end.

(** Adler-32 (RFC 1950). *)
Definition adler32 (data : bytes) : Z :=
  let '(a, b) :=
    fold_left (fun '(a, b) x =>
                 let a' := (a + Z_of_byte x) mod 65521 in
                 (a', (b + a') mod 65521))
              data (1, 0) in
  b * 65536 + a.

Definition le16 (n : Z) : bytes := [byte_of_Z (n mod 256); byte_of_Z (n / 256)].

(** The zlib stream that holds [data] in one stored block (what
    [zlib.compress(data, 0)] gives for short inputs). *)
Definition zlib_store (data : bytes) : bytes :=
  let n := len data in
  match pack_be32 (adler32 data) with
  | Ok check => [x78; x01] ++ [x01] ++ le16 n ++ le16 (65535 - n) ++ data ++ check
  | Raise _ => []
  end.

(** Stored DEFLATE blocks, byte aligned: header byte (BFINAL in bit 0,
    BTYPE in bits 1-2, which must be 0), LEN, NLEN, LEN bytes. *)
Fixpoint inflate_stored (fuel : nat) (input : bytes) : option (bytes * bytes) :=
  match fuel with
  | O => None
  | S fuel' =>
      match input with
      | hd :: l0 :: l1 :: n0 :: n1 :: rest =>
          let block_len := Z_of_byte l0 + 256 * Z_of_byte l1 in
          let nlen := Z_of_byte n0 + 256 * Z_of_byte n1 in
          if negb (Z.land (Z_of_byte hd) 6 =? 0) then None
          else if negb (block_len + nlen =? 65535) then None
          else if len rest <? block_len then None
          else
            let data := take (Z.to_nat block_len) rest in
            let rest' := drop (Z.to_nat block_len) rest in
            if Z.land (Z_of_byte hd) 1 =? 1 then Some (data, rest')
            else match inflate_stored fuel' rest' with
                 | Some (more, rest'') => Some (data ++ more, rest'')
                 | None => None
                 end
      | _ => None
      end
  end.

(** [zlib.decompress] on streams made of stored blocks.  The two header
    bytes are checked as RFC 1950 prescribes (method 8, window at most
    32K, check bits, no preset dictionary), then the Adler-32 trailer.
    Huffman-coded blocks are outside this instance and are reported as
    errors. *)
Definition zlib_decompress_stored (data : bytes) : option bytes :=
  match data with
  | cmf :: flg :: rest =>
      let c := Z_of_byte cmf in
      let f := Z_of_byte flg in
      if negb (Z.land c 15 =? 8) then None
      else if 7 <? Z.shiftr c 4 then None
      else if negb ((c * 256 + f) mod 31 =? 0) then None
      else if negb (Z.land f 32 =? 0) then None
      else
        match inflate_stored (length rest) rest with
        | Some (out, trailer) =>
            match pack_be32 (adler32 out) with
            | Ok check => if decide (take 4 trailer = check) then Some out else None
            | Raise _ => None
            end
        | None => None
        end
  | _ => None
  end.

(** A node without a key: encryption is off.  What the absent adapter
    does when asked to decrypt all the same is not known; here it
    raises an exception foreign to the sources. *)
Definition no_encryption : MeshEncryptor :=
  {| encryption_enabled := false;
     encrypt := fun _ _ _ => Raise (Foreign false);
     decrypt := fun _ _ _ => Raise (Foreign false) |}.

(** An adapter whose [decrypt] fails on every input with [e], as for a
    node that holds another key than the sender; [encrypt] takes the
    nonce from the entropy and appends an all-zero tag. *)
Definition rejecting_encryptor (e : exn) : MeshEncryptor :=
  {| encryption_enabled := true;
     encrypt := fun entropy plain _ =>
                  Ok (take 12 (ljust 12 x00 entropy), plain ++ replicate 16 x00);
     decrypt := fun _ _ _ => Raise e |}.

(** The application callback of the instances: it returns. *)
Definition quiet_callback : bytes -> bytes -> Z -> bytes -> option exn :=
  fun _ _ _ _ => None.

Definition plain_ext : Externals :=
  {| zlib_compress := zlib_store;
     zlib_decompress := zlib_decompress_stored;
     py_int := int_decimal;
     encryptor := no_encryption;
     app_data_callback := Some quiet_callback |}.

Definition rejecting_ext (e : exn) : Externals :=
  {| zlib_compress := zlib_store;
     zlib_decompress := zlib_decompress_stored;
     py_int := int_decimal;
     encryptor := rejecting_encryptor e;
     app_data_callback := Some quiet_callback |}.

(** Node [BBBBBBBB] with the defaults of [config_loader.py]. *)
Definition cfg_B : MeshNodeConfig :=
  {| callsign := "BBBBBBBB"; mesh_dest_callsign := "QMESH-0";
     kiss_config := default_kiss_config;
     routing_config := default_routing_config |}.

Definition ascii_bytes (s : string) : bytes :=
  map byte_of_ascii (list_ascii_of_string s).

(** The AX.25 addressing of a frame sent by station [N0CALL] to
    [QMESH-0], with control and PID. *)
Definition ax25_prefix : bytes :=
  [xa2; x9a; x8a; xa6; x90; x40; x60;
   x9c; x60; x86; x82; x98; x98; x61; x03; xf0].

(** The same for a frame sent by node [BBBBBBBB]. *)
Definition ax25_prefix_B : bytes :=
  [xa2; x9a; x8a; xa6; x90; x40; x60;
   x84; x84; x84; x84; x84; x84; x61; x03; xf0].

(** A DATA frame: origin [AAAAAAAA], the given flags, TTL, sequence
    number (below 256), destination and payload bytes. *)
Definition data_frame_of (flags ttl seqno : byte) (dest : string) (payload : bytes) : bytes :=
  ax25_prefix ++ [x01; x00; flags; ttl] ++ ascii_bytes "AAAAAAAA" ++ [x00; x00; x00; seqno]
    ++ ascii_bytes dest ++ [x00; x00; x00; seqno] ++ payload.

(** An OGM frame of origin [AAAAAAAA] relayed by [CCCCCCCC]. *)
Definition ogm_frame_of (ttl seqno metric : byte) : bytes :=
  ax25_prefix ++ [x01; x01; x00; ttl] ++ ascii_bytes "AAAAAAAA" ++ [x00; x00; x00; seqno]
    ++ ascii_bytes "CCCCCCCC" ++ [metric].

(** A started node that knows a route to [CCCCCCCC]. *)
Definition node_with_route : MeshNode :=
  set_routing_state
    (set_originators
       (insert (ascii_bytes "CCCCCCCC")
               {| best_next_hop := ascii_bytes "CCCCCCCC"; last_seqno := 7;
                  metric := 255; last_seen := 0 |}))
    fresh_node.

Definition xor_byte (k b : byte) : byte :=
  byte_of_Z (Z.lxor (Z_of_byte k) (Z_of_byte b)).

(** A stand-in for the AEAD adapter, to evaluate the encrypted path on
    (it is not AES-GCM and protects nothing): the nonce is the first
    twelve bytes of the entropy, the ciphertext is the plaintext XORed
    with a constant followed by a sixteen-byte tag, the Adler-32 of
    associated data, nonce and ciphertext padded with zero bytes;
    [decrypt] checks the tag and undoes the XOR. *)
Definition toy_tag (aad nonce body : bytes) : bytes :=
  ljust 16 x00 (be32_bytes (adler32 (aad ++ nonce ++ body))).

Definition toy_encryptor : MeshEncryptor :=
  {| encryption_enabled := true;
     encrypt := fun entropy plain aad =>
       let nonce := take 12 (ljust 12 x00 entropy) in
       let body := map (xor_byte x5a) plain in
       Ok (nonce, body ++ toy_tag aad nonce body);
     decrypt := fun nonce ct aad =>
       let n := (length ct - 16)%nat in
       if (length ct <? 16)%nat then Raise (Foreign false)
       else if decide (drop n ct = toy_tag aad nonce (take n ct))
            then Ok (map (xor_byte x5a) (take n ct))
            else Raise (Foreign false) |}.

Definition toy_ext : Externals :=
  {| zlib_compress := zlib_store;
     zlib_decompress := zlib_decompress_stored;
     py_int := int_decimal;
     encryptor := toy_encryptor;
     app_data_callback := Some quiet_callback |}.

(** Node [AAAAAAAA] with the defaults of [config_loader.py]. *)
Definition cfg_A : MeshNodeConfig :=
  {| callsign := "AAAAAAAA"; mesh_dest_callsign := "QMESH-0";
     kiss_config := default_kiss_config;
     routing_config := default_routing_config |}.

(** Node [CCCCCCCC] with the defaults of [config_loader.py]. *)
Definition cfg_C : MeshNodeConfig :=
  {| callsign := "CCCCCCCC"; mesh_dest_callsign := "QMESH-0";
     kiss_config := default_kiss_config;
     routing_config := default_routing_config |}.

(** A started node that has seen the DATA key [(AAAAAAAA, 1)] at time 0. *)
Definition node_with_seen_key : MeshNode :=
  set_data_seen (insert (ascii_bytes "AAAAAAAA", 1) 0%Q) fresh_node.

(** A node whose callsign starts with a non-ASCII letter (e acute). *)
Definition cfg_accent : MeshNodeConfig :=
  {| callsign := String (ascii_of_N 233) "1ABC"; mesh_dest_callsign := "QMESH-0";
     kiss_config := default_kiss_config;
     routing_config := default_routing_config |}.

(** A node constructed but not started: the KISS client is not running. *)
Definition stopped_node : MeshNode :=
  {| _routing_state := {| originators := ∅; neighbors := ∅ |};
     _seqno := 0; _data_seen := ∅; kiss_running := false;
     tx_queue := []; delivered := []; log := []; held := []; accesses := [] |}.

(** A client with room for two frames in its queue. *)
Definition small_queue_config : KISSConnectionConfig :=
  {| reconnect_base_delay := 5; reconnect_max_delay := 60; tx_queue_size := 2 |}.

(** A started client with the link up and three frames queued, the
    second of them empty. *)
Definition busy_client : Client.KISSClient :=
  {| Client._config := default_kiss_config; Client._transport := TCP;
     Client._running := true;
     Client._connected := true; Client._kiss_iface := Some tt;
     Client._tx_queue := [[x01]; []; [x02; x03]];
     Client.written := []; Client.slept := []; Client.client_log := [] |}.

(** Builtins for evaluation: [int] as above, no [float] on strings, an
    empty [str] of values that are not strings. *)
Definition simple_builtins : Config.Builtins :=
  {| Config.float_of_str := fun _ => None;
     Config.int_of_str := int_decimal;
     Config.repr := fun _ => EmptyString |}.

(** A configuration file that sets the callsign and the chat section
    only; one peer entry is not a mapping. *)
Definition minimal_root : list (Config.yaml * Config.yaml) :=
  [ (Config.YStr "mesh", Config.YMap [(Config.YStr "callsign", Config.YStr "KD9YQK-1")]);
    (Config.YStr "chat",
     Config.YMap
       [ (Config.YStr "db_path", Config.YStr "chat.db");
         (Config.YStr "peers",
          Config.YMap
            [ (Config.YStr "alice",
               Config.YMap [(Config.YStr "node_id_hex", Config.YStr "4142434445464748")]);
              (Config.YStr "note", Config.YStr "not a peer");
              (Config.YStr "bob",
               Config.YMap [(Config.YStr "node_id_hex", Config.YStr "00ff00FF00ff00Ff");
                            (Config.YStr "nick", Config.YStr "Bob")]) ]) ]) ].

End Bench.

(** * Properties *)

(** ** The model on concrete inputs *)

Section Examples.

Import Bench.

(** [zlib.compress(b"hi", 0)] *)
Example zlib_store_hi :
  zlib_store (ascii_bytes "hi")
  = [x78; x01; x01; x02; x00; xfd; xff; x68; x69; x01; x3b; x00; xd2].
Proof. reflexivity. Qed.

Example zlib_decompress_stored_hi :
  zlib_decompress_stored (zlib_store (ascii_bytes "hi")) = Some (ascii_bytes "hi").
Proof. reflexivity. Qed.

(** [zlib.decompress(b"hi")] fails the header check. *)
Example zlib_decompress_rejects_plain_text :
  zlib_decompress_stored (ascii_bytes "hi") = None.
Proof. reflexivity. Qed.

Example encode_ax25_address_dest :
  _encode_ax25_address int_decimal "QMESH-0" false
  = Ok [xa2; x9a; x8a; xa6; x90; x40; x60].
Proof. reflexivity. Qed.

Example encode_ax25_address_lower_case_ssid :
  _encode_ax25_address int_decimal "kd9yqk-7" true
  = Ok [x96; x88; x72; xb2; xa2; x96; x6f].
Proof. reflexivity. Qed.

Example encode_ax25_address_non_ascii :
  _encode_ax25_address int_decimal (String (ascii_of_N 233) "A") false
  = Raise UnicodeEncodeError.
Proof. reflexivity. Qed.

Example derive_node_id_short : _derive_node_id "KD9YQK" = ascii_bytes "KD9YQK" ++ [x00; x00].
Proof. reflexivity. Qed.

Example wrap_in_ax25_ui_empty : _wrap_in_ax25_ui plain_ext cfg_B [] = Ok ax25_prefix_B.
Proof. reflexivity. Qed.

Example build_mesh_header_ogm :
  _build_mesh_header MESH_MSG_OGM 0 5 (ascii_bytes "AAAAAAAA") 258
  = Ok ([x01; x01; x00; x05] ++ ascii_bytes "AAAAAAAA" ++ [x00; x00; x01; x02]).
Proof. reflexivity. Qed.

Example build_mesh_header_ttl_out_of_range :
  _build_mesh_header MESH_MSG_OGM 0 256 (ascii_bytes "AAAAAAAA") 258 = Raise ValueError.
Proof. reflexivity. Qed.

(** A DATA frame for the node itself is delivered. *)
Example data_frame_delivered :
  delivered (snd (_handle_rx_frame plain_ext cfg_B 0
                    (data_frame_of x00 x05 x01 "BBBBBBBB" (ascii_bytes "hi")) fresh_node))
  = [(ascii_bytes "AAAAAAAA", ascii_bytes "BBBBBBBB", 1, ascii_bytes "hi")].
Proof. vm_compute. reflexivity. Qed.

(** An OGM with TTL 5 is forwarded with TTL 4 and the node as previous
    hop; one with TTL 1 is not forwarded. *)
Example ogm_frame_forwarded :
  tx_queue (snd (_handle_rx_frame plain_ext cfg_B 0 (ogm_frame_of x05 x09 xff) fresh_node))
  = [ax25_prefix_B ++ [x01; x01; x00; x04] ++ ascii_bytes "AAAAAAAA" ++ [x00; x00; x00; x09]
       ++ ascii_bytes "BBBBBBBB" ++ [xff]].
Proof. vm_compute. reflexivity. Qed.

Example ogm_frame_ttl_one_not_forwarded :
  tx_queue (snd (_handle_rx_frame plain_ext cfg_B 0 (ogm_frame_of x01 x09 xff) fresh_node))
  = [].
Proof. vm_compute. reflexivity. Qed.

Example connect_with_backoff_connects :
  Kiss._connect_with_backoff default_kiss_config
    [Kiss.Fails; Kiss.Fails; Kiss.Connects; Kiss.Fails] = [5; 10]%Q.
Proof. reflexivity. Qed.

End Examples.

Section PyFacts.

Lemma Z_of_byte_range (b : byte) : 0 <= Z_of_byte b < 256.
Proof.
  unfold Z_of_byte. pose proof (Byte.to_N_bounded b) as H. lia.
Qed.

Lemma Z_of_byte_of_Z (z : Z) : 0 <= z < 256 -> Z_of_byte (byte_of_Z z) = z.
Proof.
  intros Hz. unfold Z_of_byte, byte_of_Z.
  destruct (Byte.of_N (Z.to_N z)) as [b|] eqn:E.
  - apply Byte.to_of_N in E. rewrite E. lia.
  - pose proof (Byte.to_of_N_option_map (Z.to_N z)) as H.
    rewrite E in H. cbn in H.
    destruct (N.leb_spec (Z.to_N z) 255); [discriminate | lia].
Qed.

Lemma byte_of_Z_of_byte (b : byte) : byte_of_Z (Z_of_byte b) = b.
Proof.
  unfold Z_of_byte, byte_of_Z. rewrite N2Z.id, Byte.of_to_N. reflexivity.
Qed.

Lemma unpack_pack_be32 (n : Z) :
  0 <= n < 2 ^ 32 ->
  exists p, pack_be32 n = Ok p /\ length p = 4%nat /\ unpack_be32 p = Ok n.
Proof.
  intros Hn. unfold pack_be32, be32_bytes.
  replace ((0 <=? n) && (n <? 2 ^ 32)) with true
    by (symmetry; apply andb_true_iff; split; [apply Z.leb_le | apply Z.ltb_lt]; lia).
  eexists; split; [reflexivity | split; [reflexivity |]].
  unfold unpack_be32.
  rewrite !Z_of_byte_of_Z.
  - f_equal. change (2 ^ 24) with 16777216. change (2 ^ 16) with 65536.
    change (2 ^ 8) with 256. change (2 ^ 32) with 4294967296 in Hn.
    Z.to_euclidean_division_equations. lia.
  - apply Z.mod_pos_bound; lia.
  - apply Z.mod_pos_bound; lia.
  - apply Z.mod_pos_bound; lia.
  - change (2 ^ 24) with 16777216. change (2 ^ 32) with 4294967296 in Hn.
    split; [apply Z.div_pos; lia | apply Z.div_lt_upper_bound; lia].
Qed.

End PyFacts.

Section CodecFacts.

Lemma in_byte_range_true (z : Z) : 0 <= z < 256 -> in_byte_range z = true.
Proof.
  intros Hz. unfold in_byte_range.
  apply andb_true_iff; split; [apply Z.leb_le | apply Z.ltb_lt]; lia.
Qed.

Lemma length_8_inv (b : bytes) :
  length b = 8%nat ->
  exists b0 b1 b2 b3 b4 b5 b6 b7, b = [b0; b1; b2; b3; b4; b5; b6; b7].
Proof.
  intros H.
  do 8 (destruct b as [|? b]; [discriminate H|]).
  destruct b; [|discriminate H]. eauto 10.
Qed.

(** Building a header from in-range fields succeeds, gives 16 bytes, and
    parsing them gives the fields back. *)
Lemma parse_build_mesh_header (t f ttl : Z) (oid : bytes) (sn : Z) :
  0 <= t < 256 -> 0 <= f < 256 -> 0 <= ttl < 256 ->
  length oid = 8%nat -> 0 <= sn < 2 ^ 32 ->
  exists h,
    _build_mesh_header t f ttl oid sn = Ok h /\
    length h = 16%nat /\
    _parse_mesh_header h = Ok (Header MESH_VERSION t f ttl oid sn).
Proof.
  intros Ht Hf Httl Hoid Hsn.
  destruct (length_8_inv oid Hoid) as (b0 & b1 & b2 & b3 & b4 & b5 & b6 & b7 & ->).
  destruct (unpack_pack_be32 sn Hsn) as (p & Hp & Hlen & Hun).
  do 4 (destruct p as [|? p]; [discriminate Hlen|]).
  destruct p; [|discriminate Hlen].
  unfold _build_mesh_header, setitem.
  rewrite (in_byte_range_true t Ht), (in_byte_range_true f Hf),
    (in_byte_range_true ttl Httl).
  change (in_byte_range MESH_VERSION) with true. cbv iota.
  rewrite Hp. cbn -[byte_of_Z].
  eexists; split; [reflexivity | split; [reflexivity |]].
  unfold _parse_mesh_header. cbn -[byte_of_Z Z_of_byte unpack_be32].
  change (slice 12 16 ?l) with (take 4 (drop 12 l)).
  cbn -[byte_of_Z Z_of_byte unpack_be32].
  rewrite Hun. unfold getitem. cbn -[byte_of_Z Z_of_byte].
  rewrite !Z_of_byte_of_Z by (unfold MESH_VERSION; lia).
  reflexivity.
Qed.

Lemma parse_mesh_header_short (info : bytes) :
  (length info < 16)%nat -> _parse_mesh_header info = Raise ValueError.
Proof.
  intros H. unfold _parse_mesh_header, len.
  destruct (Z.ltb_spec (Z.of_nat (length info)) 16); [reflexivity | lia].
Qed.

Lemma pack_unpack_be32 (b : bytes) :
  length b = 4%nat ->
  exists n, unpack_be32 b = Ok n /\ 0 <= n < 2 ^ 32 /\ pack_be32 n = Ok b.
Proof.
  intros H.
  do 4 (destruct b as [|? b]; [discriminate H|]).
  destruct b; [|discriminate H].
  eexists; split; [reflexivity|].
  pose proof (Z_of_byte_range b0) as H0. pose proof (Z_of_byte_range b1) as H1.
  pose proof (Z_of_byte_range b2) as H2. pose proof (Z_of_byte_range b3) as H3.
  set (n := ((Z_of_byte b0 * 256 + Z_of_byte b1) * 256 + Z_of_byte b2) * 256
            + Z_of_byte b3).
  assert (Hn : 0 <= n < 2 ^ 32) by (change (2 ^ 32) with 4294967296; subst n; lia).
  split; [exact Hn|].
  unfold pack_be32, be32_bytes.
  replace ((0 <=? n) && (n <? 2 ^ 32)) with true
    by (symmetry; apply andb_true_iff; split; [apply Z.leb_le | apply Z.ltb_lt]; lia).
  change (2 ^ 24) with 16777216. change (2 ^ 16) with 65536. change (2 ^ 8) with 256.
  replace (n / 16777216) with (Z_of_byte b0)
    by (subst n; Z.to_euclidean_division_equations; lia).
  replace ((n / 65536) mod 256) with (Z_of_byte b1)
    by (subst n; Z.to_euclidean_division_equations; lia).
  replace ((n / 256) mod 256) with (Z_of_byte b2)
    by (subst n; Z.to_euclidean_division_equations; lia).
  replace (n mod 256) with (Z_of_byte b3)
    by (subst n; Z.to_euclidean_division_equations; lia).
  rewrite !byte_of_Z_of_byte. reflexivity.
Qed.

Lemma getitem_range (i : nat) (b : bytes) : 0 <= getitem i b < 256.
Proof.
  unfold getitem. destruct (b !! i); [apply Z_of_byte_range | lia].
Qed.

Lemma length_slice (i j : nat) (b : bytes) :
  (j <= length b)%nat -> length (slice i j b) = (j - i)%nat.
Proof. intros H. unfold slice. rewrite length_take, length_drop. lia. Qed.

(** What a successful parse tells about its input and its fields. *)
Lemma parse_mesh_header_inv (info : bytes) (h : header) :
  _parse_mesh_header info = Ok h ->
  (16 <= length info)%nat /\
  0 <= h_version h < 256 /\ 0 <= h_msg_type h < 256 /\
  0 <= h_flags h < 256 /\ 0 <= h_ttl h < 256 /\
  length (h_origin_id h) = 8%nat /\ 0 <= h_seqno h < 2 ^ 32 /\
  h_origin_id h = slice 4 12 info.
Proof.
  unfold _parse_mesh_header, len.
  destruct (Z.ltb_spec (Z.of_nat (length info)) 16) as [|Hlen]; [discriminate|].
  assert (Hl : (16 <= length info)%nat) by lia.
  destruct (pack_unpack_be32 (slice 12 16 info)) as (n & Hu & Hn & _).
  { apply length_slice. lia. }
  rewrite Hu. intros [= <-]. cbn [h_version h_msg_type h_flags h_ttl h_origin_id h_seqno].
  repeat split; try apply getitem_range; try lia.
  apply length_slice. lia.
Qed.

(** Parsing reads the first sixteen bytes only. *)
Lemma parse_mesh_header_app (mh rest : bytes) :
  length mh = 16%nat -> _parse_mesh_header (mh ++ rest) = _parse_mesh_header mh.
Proof.
  intros H.
  do 16 (destruct mh as [|? mh]; [discriminate H|]).
  destruct mh; [|discriminate H].
  unfold _parse_mesh_header, len. rewrite length_app. cbn [length].
  destruct (Z.ltb_spec (Z.of_nat (16 + length rest)) 16); [lia|].
  reflexivity.
Qed.

(** A header built from in-range fields parses back, whatever follows. *)
Lemma build_mesh_header_parses (t f ttl : Z) (oid : bytes) (sn : Z) (mh : bytes) :
  0 <= t < 256 -> 0 <= f < 256 -> 0 <= ttl < 256 ->
  length oid = 8%nat -> 0 <= sn < 2 ^ 32 ->
  _build_mesh_header t f ttl oid sn = Ok mh ->
  length mh = 16%nat /\
  forall rest, _parse_mesh_header (mh ++ rest) = Ok (Header MESH_VERSION t f ttl oid sn).
Proof.
  intros Ht Hf Httl Hoid Hsn Hb.
  destruct (parse_build_mesh_header t f ttl oid sn Ht Hf Httl Hoid Hsn)
    as (mh' & Hb' & Hlen & Hp).
  rewrite Hb in Hb'. injection Hb' as ->.
  split; [exact Hlen|]. intros rest. rewrite parse_mesh_header_app; assumption.
Qed.

(** The sequence number of a DATA body survives unpacking and packing. *)
Lemma data_seq_roundtrip (body : bytes) :
  12 <= len body ->
  exists n, unpack_be32 (slice 8 12 body) = Ok n /\ 0 <= n < 2 ^ 32 /\
            pack_be32 n = Ok (slice 8 12 body).
Proof.
  intros H. apply pack_unpack_be32. apply length_slice. unfold len in H. lia.
Qed.

Lemma slice_0_12_split (body : bytes) :
  slice 0 8 body ++ slice 8 12 body = slice 0 12 body.
Proof.
  unfold slice. cbn [Nat.sub drop].
  change (12 - 8)%nat with 4%nat. rewrite take_take_drop. reflexivity.
Qed.

Lemma pack_be32_in_range (n : Z) : 0 <= n < 2 ^ 32 -> pack_be32 n = Ok (be32_bytes n).
Proof.
  intros Hn. unfold pack_be32.
  replace ((0 <=? n) && (n <? 2 ^ 32)) with true
    by (symmetry; apply andb_true_iff; split; [apply Z.leb_le | apply Z.ltb_lt]; lia).
  reflexivity.
Qed.

End CodecFacts.

Section Ax25Facts.

Lemma length_ljust (n : nat) (fill : byte) (b : bytes) :
  (length b <= n)%nat -> length (ljust n fill b) = n.
Proof. intros H. unfold ljust. rewrite length_app, length_replicate. lia. Qed.

Lemma encode_ascii_length (s : list ascii) (b : bytes) :
  encode_ascii s = Ok b -> length b = length s.
Proof.
  unfold encode_ascii. destruct (forallb is_ascii s); [|discriminate].
  intros [= <-]. apply length_map.
Qed.

(** An encoded AX.25 address has seven bytes. *)
Lemma encode_ax25_address_length int (callsign : string) (last : bool) (a : bytes) :
  _encode_ax25_address int callsign last = Ok a -> length a = 7%nat.
Proof.
  unfold _encode_ax25_address.
  destruct (match split_dash (list_ascii_of_string callsign) with
            | Some (base, ssid_str) => _ | None => _ end) as [base ssid_value].
  destruct (encode_ascii (take 6 (upper base))) as [encoded|] eqn:E; [|discriminate].
  intros [= <-]. apply encode_ascii_length in E.
  rewrite length_app, length_map, length_ljust; [reflexivity|].
  rewrite E, length_take. lia.
Qed.

(** The node ID has eight bytes. *)
Lemma derive_node_id_length (callsign : string) : length (_derive_node_id callsign) = 8%nat.
Proof.
  unfold _derive_node_id, ljust.
  rewrite length_take, length_app, length_replicate. lia.
Qed.

(** A wrapped frame is sixteen bytes of addressing, control and PID
    followed by the payload. *)
Lemma wrap_in_ax25_ui_inv ext cfg (p fr : bytes) :
  _wrap_in_ax25_ui ext cfg p = Ok fr ->
  exists pre, length pre = 16%nat /\ fr = pre ++ p.
Proof.
  unfold _wrap_in_ax25_ui.
  destruct (_encode_ax25_address _ (mesh_dest_callsign cfg) false) as [dest|] eqn:Ed;
    [|discriminate].
  destruct (_encode_ax25_address _ (callsign cfg) true) as [src|] eqn:Es; [|discriminate].
  intros [= <-]. apply encode_ax25_address_length in Ed, Es.
  exists (dest ++ src ++ [x03; xf0]). split.
  - rewrite !length_app, Ed, Es. reflexivity.
  - rewrite <- !app_assoc. reflexivity.
Qed.

Lemma frame_info_wrapped ext cfg (p fr : bytes) :
  _wrap_in_ax25_ui ext cfg p = Ok fr -> frame_info fr = p.
Proof.
  intros H. destruct (wrap_in_ax25_ui_inv _ _ _ _ H) as (pre & Hlen & ->).
  unfold frame_info, slice_from. rewrite drop_app_length'; [reflexivity | symmetry; exact Hlen].
Qed.

End Ax25Facts.

(** ** Symbolic execution of node code *)

Ltac unfold_monad :=
  unfold with_lock, touch, LOG, try_except, bind, modify, get, ret, raise, lift in *.

Ltac unfold_setters :=
  unfold set_routing_state, set_originators, set_neighbors, set_seqno,
    set_data_seen, set_tx_queue, set_delivered, set_log, set_held,
    set_accesses in *.

Lemma release_head (l : lock) (hs : list lock) : release l (l :: hs) = hs.
Proof. cbn. destruct (decide (l = l)); congruence. Qed.

Ltac proj_simpl :=
  cbn [_routing_state _seqno _data_seen kiss_running tx_queue delivered log
       held accesses originators neighbors fst snd negb] in *;
  rewrite ?release_head in *.

(** Case analysis on an innermost [match] or [if] of the goal. *)
Ltac break_match :=
  match goal with
  | |- context [match ?x with _ => _ end] =>
      lazymatch x with
      | context [match _ with _ => _ end] => fail
      | _ => first [ is_var x; destruct x | destruct x eqn:? ]
      end
  end.

Section CleanupFacts.

Context (cfg : MeshNodeConfig).

(** A deletion loop of the cleanup iteration, as a fold over its keys. *)
Lemma for_each_mutate_spec {K} (r : resource) (upd : K -> MeshNode -> MeshNode)
    (keys : list K) (s : MeshNode) :
  for_each keys (fun key => bind (touch r Mutates) (fun _ => modify (upd key))) s =
  (Ok tt,
   fold_left (fun s key =>
                upd key (set_accesses (cons (Access r Mutates (held s))) s))
             keys s).
Proof.
  revert s. induction keys as [|k keys IH]; intros s; [reflexivity|].
  cbn [for_each fold_left]. unfold bind at 1. unfold bind at 1.
  unfold touch at 1. unfold modify at 1 2. apply IH.
Qed.

(** What such a loop does when [upd] only edits one table. *)
Lemma fold_mutate_frame {K} (r : resource) (upd : K -> MeshNode -> MeshNode)
    (keys : list K) (s : MeshNode) :
  (forall k s, held (upd k s) = held s /\ accesses (upd k s) = accesses s /\
               delivered (upd k s) = delivered s /\ tx_queue (upd k s) = tx_queue s /\
               log (upd k s) = log s /\ _seqno (upd k s) = _seqno s /\
               kiss_running (upd k s) = kiss_running s) ->
  let s' := fold_left (fun s key =>
              upd key (set_accesses (cons (Access r Mutates (held s))) s))
              keys s in
  held s' = held s /\
  accesses s' = map (fun _ => Access r Mutates (held s)) keys ++ accesses s /\
  delivered s' = delivered s /\ tx_queue s' = tx_queue s /\ log s' = log s /\
  _seqno s' = _seqno s /\ kiss_running s' = kiss_running s.
Proof.
  intros Hupd. revert s. induction keys as [|k keys IH]; intros s; cbn [fold_left map].
  - repeat split; reflexivity.
  - specialize (IH (upd k (set_accesses (cons (Access r Mutates (held s))) s))).
    destruct (Hupd k (set_accesses (cons (Access r Mutates (held s))) s))
      as (Hh & Ha & Hd & Ht & Hl & Hq & Hr).
    cbn zeta in IH. destruct IH as (IHh & IHa & IHd & IHt & IHl & IHq & IHr).
    rewrite IHh, IHa, IHd, IHt, IHl, IHq, IHr, Hh, Ha, Hd, Ht, Hl, Hq, Hr.
    destruct s; cbn. repeat split; try reflexivity.
    clear. induction keys as [|k' keys IHk]; cbn; [reflexivity|].
    rewrite IHk. reflexivity.
Qed.

(** A projection of the state through such a loop. *)
Lemma fold_mutate_proj {K A} (proj : MeshNode -> A) (r : resource)
    (upd : K -> MeshNode -> MeshNode) (g : K -> A -> A) (keys : list K) (s : MeshNode) :
  (forall k s, proj (upd k s) = g k (proj s)) ->
  (forall f s, proj (set_accesses f s) = proj s) ->
  proj (fold_left (fun s key =>
          upd key (set_accesses (cons (Access r Mutates (held s))) s)) keys s)
  = fold_left (fun a k => g k a) keys (proj s).
Proof.
  intros Hupd Hacc. revert s.
  induction keys as [|k keys IH]; intros s; cbn [fold_left]; [reflexivity|].
  rewrite IH, Hupd, Hacc. reflexivity.
Qed.

Lemma fold_left_const {K A} (keys : list K) (a : A) :
  fold_left (fun a _ => a) keys a = a.
Proof. induction keys; cbn; auto. Qed.

Lemma lookup_fold_delete {K V} `{Countable K} (keys : list K) (m : gmap K V) (k : K) :
  ~ In k keys -> fold_left (fun m k => delete k m) keys m !! k = m !! k.
Proof.
  revert m. induction keys as [|k' keys IH]; intros m Hk; cbn [fold_left]; [reflexivity|].
  rewrite IH by (intros Hin; apply Hk; right; exact Hin).
  apply lookup_delete_ne. intros ->. apply Hk. left. reflexivity.
Qed.

Lemma in_dead_keys {K V} `{Countable K} (expired : V -> bool) (d : gmap K V) (k : K) :
  In k (dead_keys expired d) -> exists v, d !! k = Some v /\ expired v = true.
Proof.
  unfold dead_keys. rewrite in_map_iff. intros ([k' v] & <- & Hin).
  apply filter_In in Hin as [Hin Hexp]. exists v. split; [|exact Hexp].
  apply elem_of_map_to_list. apply list_elem_of_In. exact Hin.
Qed.

Lemma Qgtb_false (a b : Q) : (a <= b)%Q -> Qgtb a b = false.
Proof.
  intros H. unfold Qgtb. apply Qle_bool_iff in H. rewrite H. reflexivity.
Qed.

(** One cleanup iteration: it returns; it leaves histories, counter and
    locks alone; a dedup key that has not expired survives it. *)
Lemma cleanup_loop_iteration_spec (now : Q) (s : MeshNode) :
  exists s',
    _cleanup_loop_iteration cfg now s = (Ok tt, s') /\
    delivered s' = delivered s /\ tx_queue s' = tx_queue s /\ log s' = log s /\
    held s' = held s /\ _seqno s' = _seqno s /\ kiss_running s' = kiss_running s /\
    (forall k ts, _data_seen s !! k = Some ts ->
                  (now - ts <= data_seen_expiry_seconds (routing_config cfg))%Q ->
                  _data_seen s' !! k = Some ts) /\
    (forall k, _data_seen s !! k = None -> _data_seen s' !! k = None) /\
    (exists ko kn kd : list unit,
       accesses s' =
         map (fun _ => Access res_data_seen Mutates (data_seen_lock :: held s)) kd
         ++ Access res_data_seen Reads (held s)
         :: map (fun _ => Access res_neighbors Mutates (held s)) kn
         ++ Access res_neighbors Reads (held s)
         :: map (fun _ => Access res_originators Mutates (held s)) ko
         ++ Access res_originators Reads (held s) :: accesses s).
Proof.
  unfold _cleanup_loop_iteration.
  set (upd_o := fun key : bytes => set_routing_state (set_originators (delete key))).
  set (upd_n := fun key : bytes => set_routing_state (set_neighbors (delete key))).
  set (upd_d := fun key : bytes * Z => set_data_seen (delete key)).
  cbn zeta. unfold bind at 1. unfold touch at 1. unfold modify at 1.
  unfold bind at 1. unfold get at 1.
  unfold bind at 1. rewrite (for_each_mutate_spec res_originators upd_o).
  match goal with |- context [fold_left ?f ?keys ?s0] =>
    set (s2 := fold_left f keys s0);
    destruct (fold_mutate_frame res_originators upd_o keys s0)
      as (Hh2 & Ha2 & Hd2 & Ht2 & Hl2 & Hq2 & Hr2);
    [intros k0 [] ; cbn; repeat split; reflexivity|];
    pose proof (fold_mutate_proj _data_seen res_originators upd_o (fun _ a => a) keys s0
                  (fun _ _ => eq_refl) (fun _ _ => eq_refl)) as Hs2;
    rewrite fold_left_const in Hs2;
    fold s2 in Hh2, Ha2, Hd2, Ht2, Hl2, Hq2, Hr2, Hs2
  end.
  unfold bind at 1. unfold touch at 1. unfold modify at 1.
  unfold bind at 1. unfold get at 1.
  unfold bind at 1. rewrite (for_each_mutate_spec res_neighbors upd_n).
  match goal with |- context [fold_left ?f ?keys ?s0] =>
    set (s4 := fold_left f keys s0);
    destruct (fold_mutate_frame res_neighbors upd_n keys s0)
      as (Hh4 & Ha4 & Hd4 & Ht4 & Hl4 & Hq4 & Hr4);
    [intros k0 [] ; cbn; repeat split; reflexivity|];
    pose proof (fold_mutate_proj _data_seen res_neighbors upd_n (fun _ a => a) keys s0
                  (fun _ _ => eq_refl) (fun _ _ => eq_refl)) as Hs4;
    rewrite fold_left_const in Hs4;
    fold s4 in Hh4, Ha4, Hd4, Ht4, Hl4, Hq4, Hr4, Hs4
  end.
  unfold bind at 1. unfold touch at 1. unfold modify at 1.
  unfold bind at 1. unfold get at 1.
  unfold with_lock. rewrite (for_each_mutate_spec res_data_seen upd_d).
  match goal with |- context [fold_left ?f ?keys ?s0] =>
    set (s6 := fold_left f keys s0);
    destruct (fold_mutate_frame res_data_seen upd_d keys s0)
      as (Hh6 & Ha6 & Hd6 & Ht6 & Hl6 & Hq6 & Hr6);
    [intros k0 [] ; cbn; repeat split; reflexivity|];
    pose proof (fold_mutate_proj _data_seen res_data_seen upd_d (fun k a => delete k a)
                  keys s0 (fun _ _ => eq_refl) (fun _ _ => eq_refl)) as Hs6;
    fold s6 in Hh6, Ha6, Hd6, Ht6, Hl6, Hq6, Hr6, Hs6
  end.
  eexists; split; [reflexivity|].
  destruct s6 as [rs6 sq6 ds6 kr6 tq6 dl6 lg6 hd6 ac6]; cbn in *.
  destruct s4 as [rs4 sq4 ds4 kr4 tq4 dl4 lg4 hd4 ac4]; cbn in *.
  destruct s2 as [rs2 sq2 ds2 kr2 tq2 dl2 lg2 hd2 ac2]; cbn in *.
  destruct s as [rs sq ds kr tq dl lg hd ac]; cbn in *.
  subst. repeat split; try reflexivity.
  - intros k ts Hk Hexp. apply eq_trans with (ds !! k); [|exact Hk].
    apply lookup_fold_delete. intros Hin.
    apply in_dead_keys in Hin as (v & Hv & Hx).
    rewrite Hk in Hv. injection Hv as <-.
    rewrite Qgtb_false in Hx by exact Hexp. discriminate.
  - intros k Hk.
    match goal with |- fold_left _ ?keys _ !! _ = _ =>
      destruct (in_dec (fun a b => decide (a = b)) k keys) as [Hin|Hnin] end.
    + apply in_dead_keys in Hin as (v & Hv & _). congruence.
    + apply eq_trans with (ds !! k); [apply lookup_fold_delete; exact Hnin | exact Hk].
  - match goal with
    |- context [map _ ?kd ++ _ :: map _ ?kn ++ _ :: map _ ?ko ++ _] =>
      exists (map (fun _ => tt) ko), (map (fun _ => tt) kn), (map (fun _ => tt) kd)
    end.
    rewrite !map_map. reflexivity.
Qed.

End CleanupFacts.

(** Run a handler on a state given by its fields, along every path. *)
Ltac node_eval :=
  cbv beta iota zeta delta
    [_handle_rx_frame _on_kiss_frame send_application_data
     _ogm_loop_iteration _build_ogm_payload _handle_ogm _handle_data_frame
     dedup_gate _lookup_best_next_hop kiss_send _next_seqno _find_info_start
     with_lock touch LOG try_except bind modify get ret raise lift
     set_routing_state set_originators set_neighbors set_seqno
     set_data_seen set_tx_queue set_delivered set_log set_held set_accesses
     _routing_state _seqno _data_seen kiss_running tx_queue delivered log
     held accesses originators neighbors fst snd negb].

Ltac exec_node :=
  node_eval; rewrite ?release_head;
  repeat (break_match; node_eval; rewrite ?release_head).

Section NodeFacts.

Context (ext : Externals) (cfg : MeshNodeConfig).

(** The dedup gate on a key already present: the frame stops there, and
    only the access history changes. *)
Lemma dedup_gate_present now key ts s :
  _data_seen s !! key = Some ts ->
  exists s',
    dedup_gate now key s = (Ok false, s') /\
    _data_seen s' = _data_seen s /\ delivered s' = delivered s /\
    tx_queue s' = tx_queue s /\ log s' = log s /\ held s' = held s /\
    _routing_state s' = _routing_state s /\ _seqno s' = _seqno s /\
    kiss_running s' = kiss_running s /\
    accesses s' = Access res_data_seen Reads (data_seen_lock :: held s) :: accesses s.
Proof.
  intros Hk. destruct s as [rs sq ds kr tq dl lg hd ac]. cbn in *.
  unfold dedup_gate. unfold_monad. cbn. rewrite Hk.
  eexists; split; [reflexivity|]. cbn. repeat split; reflexivity.
Qed.

(** The dedup gate on an absent key: the key is inserted with the
    current timestamp and the frame goes on. *)
Lemma dedup_gate_absent now key s :
  _data_seen s !! key = None ->
  exists s',
    dedup_gate now key s = (Ok true, s') /\
    _data_seen s' = <[key := now]> (_data_seen s) /\ delivered s' = delivered s /\
    tx_queue s' = tx_queue s /\ log s' = log s /\ held s' = held s /\
    _routing_state s' = _routing_state s /\ _seqno s' = _seqno s /\
    kiss_running s' = kiss_running s /\
    accesses s' =
      Access res_data_seen Mutates (data_seen_lock :: held s)
        :: Access res_data_seen Reads (data_seen_lock :: held s) :: accesses s.
Proof.
  intros Hk. destruct s as [rs sq ds kr tq dl lg hd ac]. cbn in *.
  unfold dedup_gate. unfold_monad. cbn. rewrite Hk.
  eexists; split; [reflexivity|]. cbn. repeat split; reflexivity.
Qed.


Lemma on_kiss_frame_data now frame h s :
  data_frame frame h ->
  _on_kiss_frame ext cfg now frame s =
  _handle_data_frame ext cfg now (h_origin_id h) (h_seqno h) (h_ttl h) (h_flags h)
    (frame_body frame) s.
Proof.
  intros [(Hlen & Hp & Hv) Ht].
  unfold _on_kiss_frame, _find_info_start.
  destruct (Z.leb_spec (len frame) 16); [lia|].
  unfold frame_info in Hp. unfold_monad. rewrite Hp.
  rewrite Hv, Ht. reflexivity.
Qed.

Lemma on_kiss_frame_ogm now frame h s :
  ogm_frame frame h ->
  _on_kiss_frame ext cfg now frame s =
  if len (frame_body frame) <? 9 then (Ok tt, s)
  else _handle_ogm ext cfg now (h_origin_id h) (h_seqno h) (h_ttl h)
         (slice 0 8 (frame_body frame)) (getitem 8 (frame_body frame)) s.
Proof.
  intros [(Hlen & Hp & Hv) Ht].
  unfold _on_kiss_frame, _find_info_start.
  destruct (Z.leb_spec (len frame) 16); [lia|].
  unfold frame_info in Hp. unfold_monad. rewrite Hp.
  rewrite Hv, Ht. cbn [negb Z.eqb MESH_VERSION MESH_MSG_OGM Pos.eqb].
  unfold frame_body, frame_info. destruct (_ <? 9); reflexivity.
Qed.

Lemma aad_of_body (o body seq_be : bytes) :
  seq_be = slice 8 12 body ->
  o ++ slice 0 8 body ++ seq_be = body_associated_data o body.
Proof. intros ->. unfold body_associated_data. rewrite slice_0_12_split. reflexivity. Qed.

(** An ENCRYPTED DATA frame whose [decrypt] raises: the exception leaves
    [_handle_data_frame] once the frame has got that far; nothing is
    delivered or enqueued either way. *)
Lemma handle_data_decrypt_raises now o sn ttl fl body e s :
  flag_set fl MESH_FLAG_ENCRYPTED = true ->
  decrypt (encryptor ext) (body_nonce body) (body_ciphertext body)
    (body_associated_data o body) = Raise e ->
  exists s',
    _handle_data_frame ext cfg now o sn ttl fl body s =
      (if fresh_key s (Header MESH_VERSION MESH_MSG_DATA fl ttl o sn)
          && (12 <=? len body) && (13 <=? len (body_remainder body))
       then Raise e else Ok tt, s') /\
    delivered s' = delivered s /\ tx_queue s' = tx_queue s /\ log s' = log s.
Proof.
  intros Hfl Hdec. destruct s as [rs sq ds kr tq dl lg hd ac].
  unfold fresh_key. proj_simpl. cbn [h_origin_id h_seqno].
  unfold _handle_data_frame, dedup_gate. unfold_monad. unfold_setters. proj_simpl.
  destruct (ds !! (o, sn)) eqn:Hk; proj_simpl.
  { eexists; split; [reflexivity|]. proj_simpl. auto. }
  destruct (Z.ltb_spec (len body) 12) as [Hb|Hb].
  { destruct (Z.leb_spec 12 (len body)); [lia|].
    eexists; split; [reflexivity|]. proj_simpl. auto. }
  destruct (Z.leb_spec 12 (len body)); [|lia].
  destruct (data_seq_roundtrip body Hb) as (n & Hu & Hn & Hpk).
  rewrite Hu, Hpk, Hfl. fold (body_remainder body).
  destruct (Z.ltb_spec (len (body_remainder body)) 13) as [Hr|Hr].
  { destruct (Z.leb_spec 13 (len (body_remainder body))); [lia|].
    eexists; split; [reflexivity|]. proj_simpl. auto. }
  destruct (Z.leb_spec 13 (len (body_remainder body))); [|lia].
  rewrite (aad_of_body o body _ eq_refl).
  fold (body_nonce body). fold (body_ciphertext body). rewrite Hdec.
  eexists; split; [reflexivity|]. proj_simpl. auto.
Qed.

(** The RX wrapper changes nothing but the log. *)
Lemma handle_rx_frame_state now frame s :
  let s1 := snd (_on_kiss_frame ext cfg now frame s) in
  let s2 := snd (_handle_rx_frame ext cfg now frame s) in
  s2 = s1 \/
  s2 = set_log (fun l => l ++ [(WARNING, "Value error in RX callback; frame dropped"%string)]) s1.
Proof.
  unfold _handle_rx_frame, try_except, LOG, modify.
  destruct (_on_kiss_frame ext cfg now frame s) as [[u|e] s1]; cbn [snd]; auto.
  destruct (is_ValueError e); cbn [snd]; auto.
Qed.

Lemma handle_rx_frame_fields now frame s :
  let s1 := snd (_on_kiss_frame ext cfg now frame s) in
  let s2 := snd (_handle_rx_frame ext cfg now frame s) in
  tx_queue s2 = tx_queue s1 /\ delivered s2 = delivered s1 /\
  _data_seen s2 = _data_seen s1 /\ _routing_state s2 = _routing_state s1 /\
  held s2 = held s1 /\ accesses s2 = accesses s1 /\ _seqno s2 = _seqno s1 /\
  kiss_running s2 = kiss_running s1.
Proof.
  intros s1 s2. destruct (handle_rx_frame_state now frame s) as [H|H];
    fold s1 s2 in H; rewrite H; destruct s1; cbn; repeat split; reflexivity.
Qed.

(** A DATA frame for another node.  Nothing is delivered.  Nothing is
    enqueued unless the frame passes the gate, is long enough, passes
    the decrypt and decompress steps, has a TTL above one and a route;
    the frame enqueued then carries the received body.  When all that
    holds and the handler returns, the frame has been enqueued. *)
Lemma handle_data_other_node now o sn ttl fl body s :
  body_dest_id body <> _node_id cfg ->
  let r := _handle_data_frame ext cfg now o sn ttl fl body s in
  delivered (snd r) = delivered s /\
  (tx_queue (snd r) = tx_queue s \/
   exists p entry mh fr,
     _data_seen s !! (o, sn) = None /\ 12 <= len body /\
     decode_steps ext fl o body = Some p /\ 1 < ttl /\
     originators (_routing_state s) !! body_dest_id body = Some entry /\
     _build_mesh_header MESH_MSG_DATA fl (ttl - 1) o sn = Ok mh /\
     _wrap_in_ax25_ui ext cfg (mh ++ body) = Ok fr /\
     tx_queue (snd r) = tx_queue s ++ [fr]) /\
  (forall p entry,
     _data_seen s !! (o, sn) = None -> 12 <= len body ->
     decode_steps ext fl o body = Some p -> 1 < ttl ->
     originators (_routing_state s) !! body_dest_id body = Some entry ->
     fst r = Ok tt ->
     exists mh fr,
       _build_mesh_header MESH_MSG_DATA fl (ttl - 1) o sn = Ok mh /\
       _wrap_in_ax25_ui ext cfg (mh ++ body) = Ok fr /\
       tx_queue (snd r) = tx_queue s ++ [fr]).
Proof.
  intros Hdest. cbv zeta.
  destruct s as [rs sq ds kr tq dl lg hd ac]. proj_simpl.
  unfold _handle_data_frame, dedup_gate, _lookup_best_next_hop, kiss_send.
  unfold_monad. unfold_setters. proj_simpl.
  destruct (ds !! (o, sn)) eqn:Hk; proj_simpl.
  { split; [reflexivity|]. split; [left; reflexivity|]. intros; discriminate. }
  destruct (Z.ltb_spec (len body) 12) as [Hb|Hb].
  { proj_simpl. split; [reflexivity|]. split; [left; reflexivity|]. intros; lia. }
  destruct (data_seq_roundtrip body Hb) as (n & Hu & Hn & Hpk).
  rewrite Hu, Hpk. rewrite (aad_of_body o body _ eq_refl).
  unfold decode_steps, decrypt_step.
  fold (body_remainder body). fold (body_nonce body). fold (body_ciphertext body).
  fold (body_dest_id body).
  assert (Hne : forall A (x y : A),
            (if decide (body_dest_id body = _node_id cfg) is left _ then x else y) = y).
  { intros A x y. destruct (decide _); [contradiction|reflexivity]. }
  rewrite ?Hne.
  destruct (flag_set fl MESH_FLAG_ENCRYPTED);
    [destruct (len (body_remainder body) <? 13);
       [|destruct (decrypt _ _ _ _) as [plain|e]]|];
    proj_simpl;
    try (split; [reflexivity|]; split; [left; reflexivity|]; intros; discriminate).
  all: destruct (flag_set fl MESH_FLAG_COMPRESSED);
    [match goal with |- context [zlib_decompress ext ?x] =>
       destruct (zlib_decompress ext x) as [out|] end|];
    proj_simpl; rewrite ?Hne;
    try (split; [reflexivity|]; split; [left; reflexivity|]; intros; discriminate).
  all: destruct (Z.leb_spec ttl 1) as [Httl|Httl]; proj_simpl;
    [split; [reflexivity|]; split; [left; reflexivity|]; intros; lia|].
  all: destruct (originators rs !! body_dest_id body) as [entry|] eqn:Hroute; proj_simpl;
    [|split; [reflexivity|]; split; [left; reflexivity|]; intros; discriminate].
  all: match goal with |- context [_build_mesh_header ?t ?f ?l ?i ?q] =>
         destruct (_build_mesh_header t f l i q) as [mh|e1] eqn:Hmh end;
    proj_simpl;
    [|split; [reflexivity|]; split; [left; reflexivity|]; intros; discriminate].
  all: destruct (_wrap_in_ax25_ui ext cfg (mh ++ body)) as [fr|e2] eqn:Hwrap; proj_simpl;
    [|split; [reflexivity|]; split; [left; reflexivity|]; intros; discriminate].
  all: destruct kr; proj_simpl;
    [|split; [reflexivity|]; split; [left; reflexivity|]; intros; discriminate].
  all: split; [reflexivity|]; split;
    [right; eexists _, entry, mh, fr; repeat split; try reflexivity; assumption
    |intros; exists mh, fr; repeat split; try reflexivity; assumption].
Qed.

(** A duplicate DATA frame stops at the gate: the handler returns and
    only the access history has changed. *)
Lemma handle_data_duplicate now o sn ttl fl body ts s :
  _data_seen s !! (o, sn) = Some ts ->
  exists s',
    _handle_data_frame ext cfg now o sn ttl fl body s = (Ok tt, s') /\
    _data_seen s' = _data_seen s /\ delivered s' = delivered s /\
    tx_queue s' = tx_queue s /\ log s' = log s /\ held s' = held s /\
    _routing_state s' = _routing_state s /\ _seqno s' = _seqno s /\
    kiss_running s' = kiss_running s /\
    accesses s' = Access res_data_seen Reads (data_seen_lock :: held s) :: accesses s.
Proof.
  intros Hk. destruct (dedup_gate_present now (o, sn) ts s Hk)
    as (s' & Hg & H1 & H2 & H3 & H4 & H5 & H6 & H7 & H8 & H9).
  exists s'. unfold _handle_data_frame, bind. rewrite Hg. cbn [negb].
  unfold ret. repeat split; assumption.
Qed.

(** A DATA frame that passes the gate: its key is in the cache
    afterwards whatever happens to the frame then (drop, exception,
    delivery, forwarding); at most one callback invocation and at most
    one enqueued frame are added. *)
Lemma handle_data_fresh now o sn ttl fl body s :
  _data_seen s !! (o, sn) = None ->
  let s' := snd (_handle_data_frame ext cfg now o sn ttl fl body s) in
  _data_seen s' = <[(o, sn) := now]> (_data_seen s) /\
  _routing_state s' = _routing_state s /\ held s' = held s /\
  _seqno s' = _seqno s /\ kiss_running s' = kiss_running s /\
  (exists d, delivered s' = delivered s ++ d /\ (length d <= 1)%nat) /\
  (exists q, tx_queue s' = tx_queue s ++ q /\ (length q <= 1)%nat).
Proof.
  intros Hk. destruct s as [rs sq ds kr tq dl lg hd ac]. proj_simpl.
  unfold _handle_data_frame, dedup_gate, _lookup_best_next_hop, kiss_send.
  unfold_monad. unfold_setters. proj_simpl. rewrite Hk. proj_simpl.
  repeat (break_match; proj_simpl).
  all: repeat split; try reflexivity.
  all: try (exists []; rewrite app_nil_r; split; [reflexivity | cbn; lia]).
  all: try (eexists [_]; split; [reflexivity | cbn; lia]).
Qed.

(** [_handle_ogm] does not touch the dedup cache or the callback. *)
Lemma handle_ogm_frame now o sn ttl prev lm s :
  let s' := snd (_handle_ogm ext cfg now o sn ttl prev lm s) in
  _data_seen s' = _data_seen s /\ delivered s' = delivered s /\
  held s' = held s /\ _seqno s' = _seqno s /\ kiss_running s' = kiss_running s.
Proof.
  destruct s as [rs sq ds kr tq dl lg hd ac].
  exec_node. all: repeat split; reflexivity.
Qed.

(** No frame removes or overwrites an entry of the dedup cache. *)
Lemma on_kiss_frame_keeps_seen now frame k ts s :
  _data_seen s !! k = Some ts ->
  _data_seen (snd (_on_kiss_frame ext cfg now frame s)) !! k = Some ts.
Proof.
  intros Hk. destruct s as [rs sq ds kr tq dl lg hd ac]. proj_simpl.
  exec_node. all: try exact Hk.
  all: rewrite lookup_insert_ne; [exact Hk | congruence].
Qed.

Lemma ogm_loop_iteration_frame s :
  let s' := snd (_ogm_loop_iteration ext cfg s) in
  _data_seen s' = _data_seen s /\ delivered s' = delivered s /\
  _routing_state s' = _routing_state s.
Proof.
  destruct s as [rs sq ds kr tq dl lg hd ac].
  exec_node. all: repeat split; reflexivity.
Qed.

Lemma send_application_data_frame entropy dest payload s :
  let s' := snd (send_application_data ext cfg entropy dest payload s) in
  _data_seen s' = _data_seen s /\ delivered s' = delivered s /\
  _routing_state s' = _routing_state s.
Proof.
  destruct s as [rs sq ds kr tq dl lg hd ac].
  exec_node. all: repeat split; reflexivity.
Qed.

(** A step of the node keeps a dedup entry, a cleanup step provided the
    entry has not expired. *)
Lemma step_keeps_seen ev k ts s :
  _data_seen s !! k = Some ts ->
  match ev with
  | CleanupTick t => (t - ts <= data_seen_expiry_seconds (routing_config cfg))%Q
  | _ => True
  end ->
  _data_seen (step ext cfg s ev) !! k = Some ts.
Proof.
  intros Hk Hev. destruct ev as [now frame|now| |entropy dest payload]; cbn [step].
  - destruct (handle_rx_frame_fields now frame s) as (_ & _ & -> & _).
    apply on_kiss_frame_keeps_seen. exact Hk.
  - destruct (cleanup_loop_iteration_spec cfg now s)
      as (s' & -> & _ & _ & _ & _ & _ & _ & Hkeep & _).
    cbn [snd]. apply Hkeep; assumption.
  - destruct (ogm_loop_iteration_frame s) as (-> & _). exact Hk.
  - destruct (send_application_data_frame entropy dest payload s) as (-> & _). exact Hk.
Qed.

Lemma run_keeps_seen evs k ts s :
  _data_seen s !! k = Some ts ->
  cleanups_within ts (data_seen_expiry_seconds (routing_config cfg)) evs ->
  _data_seen (run ext cfg s evs) !! k = Some ts.
Proof.
  intros Hk Hevs. revert s Hk.
  induction Hevs as [|ev evs Hev _ IH]; intros s Hk; [exact Hk|].
  cbn [run fold_left]. apply IH. apply step_keeps_seen; assumption.
Qed.

Lemma cleanups_by_within now1 now2 expiry evs :
  (now2 - now1 <= expiry)%Q -> cleanups_by now2 evs -> cleanups_within now1 expiry evs.
Proof.
  intros Hexp Hevs. unfold cleanups_within, cleanups_by in *.
  eapply Forall_impl; [exact Hevs|]. intros [] H; cbn in *; try exact I. lra.
Qed.

(** A DATA frame whose key is cached: the RX step changes no table, no
    history and no log. *)
Lemma rx_data_duplicate now frame h ts s :
  data_frame frame h ->
  _data_seen s !! (h_origin_id h, h_seqno h) = Some ts ->
  let s' := step ext cfg s (RxFrame now frame) in
  delivered s' = delivered s /\ tx_queue s' = tx_queue s /\ log s' = log s /\
  _data_seen s' = _data_seen s /\ _routing_state s' = _routing_state s /\
  accesses s' = Access res_data_seen Reads (data_seen_lock :: held s) :: accesses s.
Proof.
  intros Hd Hk. cbn [step]. unfold _handle_rx_frame, try_except.
  rewrite (on_kiss_frame_data now frame h s Hd).
  destruct (handle_data_duplicate now (h_origin_id h) (h_seqno h) (h_ttl h) (h_flags h)
              (frame_body frame) ts s Hk)
    as (s' & -> & H1 & H2 & H3 & H4 & _ & H6 & _ & _ & H9).
  cbn [snd]. auto 10.
Qed.

(** A DATA frame whose key is not cached: after the RX step the key is
    cached with the time of arrival, and at most one callback
    invocation has been added. *)
Lemma rx_data_fresh now frame h s :
  data_frame frame h ->
  _data_seen s !! (h_origin_id h, h_seqno h) = None ->
  let s' := step ext cfg s (RxFrame now frame) in
  _data_seen s' = <[(h_origin_id h, h_seqno h) := now]> (_data_seen s) /\
  exists d, delivered s' = delivered s ++ d /\ (length d <= 1)%nat.
Proof.
  intros Hd Hk. cbn [step]. cbn zeta.
  destruct (handle_rx_frame_fields now frame s) as (_ & -> & -> & _).
  rewrite (on_kiss_frame_data now frame h s Hd).
  destruct (handle_data_fresh now (h_origin_id h) (h_seqno h) (h_ttl h) (h_flags h)
              (frame_body frame) s Hk) as (H1 & _ & _ & _ & _ & H2 & _).
  auto.
Qed.

(** What [_on_kiss_frame] does with a frame: nothing, or it hands an OGM
    to [_handle_ogm], or a DATA frame to [_handle_data_frame]. *)
Lemma on_kiss_frame_cases now frame s :
  _on_kiss_frame ext cfg now frame s = (Ok tt, s) \/
  (exists h, ogm_frame frame h /\ 9 <= len (frame_body frame) /\
     _on_kiss_frame ext cfg now frame s =
     _handle_ogm ext cfg now (h_origin_id h) (h_seqno h) (h_ttl h)
       (slice 0 8 (frame_body frame)) (getitem 8 (frame_body frame)) s) \/
  (exists h, data_frame frame h /\
     _on_kiss_frame ext cfg now frame s =
     _handle_data_frame ext cfg now (h_origin_id h) (h_seqno h) (h_ttl h) (h_flags h)
       (frame_body frame) s).
Proof.
  destruct (Z.leb_spec (len frame) 16) as [Hlen|Hlen].
  { left. unfold _on_kiss_frame. destruct (Z.leb_spec (len frame) 16); [reflexivity|lia]. }
  destruct (_parse_mesh_header (frame_info frame)) as [h|e] eqn:Hp.
  2:{ left. unfold _on_kiss_frame, _find_info_start.
      destruct (Z.leb_spec (len frame) 16); [lia|].
      unfold frame_info in Hp. unfold_monad. rewrite Hp.
      destruct (is_ValueError e) eqn:He.
      - reflexivity.
      - exfalso. unfold _parse_mesh_header in Hp.
        destruct (len (slice_from 16 frame) <? 16) eqn:Hb;
          [injection Hp as <-; discriminate|].
        destruct (pack_unpack_be32 (slice 12 16 (slice_from 16 frame))) as (n & Hn & _).
        + apply length_slice. apply Z.ltb_ge in Hb. unfold len in Hb. lia.
        + rewrite Hn in Hp. discriminate. }
  destruct (Z.eqb_spec (h_version h) MESH_VERSION) as [Hv|Hv].
  2:{ left. unfold _on_kiss_frame, _find_info_start.
      destruct (Z.leb_spec (len frame) 16); [lia|].
      unfold frame_info in Hp. unfold_monad. rewrite Hp.
      destruct (Z.eqb_spec (h_version h) MESH_VERSION); [contradiction|reflexivity]. }
  destruct (Z.eqb_spec (h_msg_type h) MESH_MSG_OGM) as [Ht|Ht].
  { assert (Hogm : ogm_frame frame h) by (repeat split; assumption).
    rewrite (on_kiss_frame_ogm now frame h s Hogm).
    destruct (Z.ltb_spec (len (frame_body frame)) 9); [left; reflexivity|].
    right; left. exists h. auto. }
  destruct (Z.eqb_spec (h_msg_type h) MESH_MSG_DATA) as [Ht'|Ht'].
  { right; right. exists h. assert (Hd : data_frame frame h) by (repeat split; assumption).
    split; [exact Hd|]. apply on_kiss_frame_data. exact Hd. }
  left. unfold _on_kiss_frame, _find_info_start.
  destruct (Z.leb_spec (len frame) 16); [lia|].
  unfold frame_info in Hp. unfold_monad. rewrite Hp.
  destruct (Z.eqb_spec (h_version h) MESH_VERSION); [|contradiction]. cbn [negb].
  destruct (Z.eqb_spec (h_msg_type h) MESH_MSG_OGM); [contradiction|].
  destruct (Z.eqb_spec (h_msg_type h) MESH_MSG_DATA); [contradiction|]. reflexivity.
Qed.

(** [_handle_data_frame] never touches the routing tables. *)
Lemma handle_data_routing now o sn ttl fl body s :
  _routing_state (snd (_handle_data_frame ext cfg now o sn ttl fl body s)) = _routing_state s.
Proof.
  destruct (_data_seen s !! (o, sn)) as [ts|] eqn:Hk.
  - destruct (handle_data_duplicate now o sn ttl fl body ts s Hk) as (s' & -> & H).
    cbn [snd]. tauto.
  - destruct (handle_data_fresh now o sn ttl fl body s Hk) as (_ & H & _). exact H.
Qed.

(** The originator table after [_handle_ogm]: the entry of the origin is
    written when absent or when the sequence number is strictly
    greater than the stored one, and is left as it is otherwise. *)
Lemma handle_ogm_originators now o sn ttl prev lm s :
  let fresh := {| best_next_hop := prev; last_seqno := sn; metric := lm;
                  last_seen := now |} in
  originators (_routing_state (snd (_handle_ogm ext cfg now o sn ttl prev lm s))) =
  match originators (_routing_state s) !! o with
  | None => <[o := fresh]> (originators (_routing_state s))
  | Some entry =>
      if sn >? last_seqno entry then <[o := fresh]> (originators (_routing_state s))
      else originators (_routing_state s)
  end.
Proof.
  destruct s as [[orig nei] sq ds kr tq dl lg hd ac].
  exec_node. all: reflexivity.
Qed.

(** Receiving a frame never lowers a stored sequence number. *)
Lemma rx_frame_seqno_monotone now frame o e s :
  originators (_routing_state s) !! o = Some e ->
  exists e',
    originators (_routing_state (step ext cfg s (RxFrame now frame))) !! o = Some e' /\
    last_seqno e <= last_seqno e'.
Proof.
  intros He. cbn [step].
  destruct (handle_rx_frame_fields now frame s) as (_ & _ & _ & -> & _).
  destruct (on_kiss_frame_cases now frame s) as [->|[(h & _ & _ & ->)|(h & _ & ->)]].
  - exists e. split; [exact He | lia].
  - rewrite handle_ogm_originators.
    destruct (originators (_routing_state s) !! h_origin_id h) as [old|] eqn:Hold.
    + destruct (Z.gtb_spec (h_seqno h) (last_seqno old)) as [Hgt|Hle].
      * destruct (decide (h_origin_id h = o)) as [Heq|Hne].
        -- rewrite Heq in *. rewrite lookup_insert_eq. eexists; split; [reflexivity|].
           rewrite He in Hold. injection Hold as <-. cbn. lia.
        -- rewrite lookup_insert_ne by exact Hne. exists e. split; [exact He | lia].
      * exists e. split; [exact He | lia].
    + destruct (decide (h_origin_id h = o)) as [Heq|Hne]; [congruence|].
      rewrite lookup_insert_ne by exact Hne. exists e. split; [exact He | lia].
  - rewrite handle_data_routing. exists e. split; [exact He | lia].
Qed.

Lemma rx_frames_seqno_monotone (frames : list (Q * bytes)) o e s :
  originators (_routing_state s) !! o = Some e ->
  exists e',
    originators (_routing_state
      (run ext cfg s (map (fun tf => RxFrame (fst tf) (snd tf)) frames))) !! o = Some e' /\
    last_seqno e <= last_seqno e'.
Proof.
  revert s e. induction frames as [|[t f] frames IH]; intros s e He; cbn [map run fold_left].
  - exists e. split; [exact He | lia].
  - destruct (rx_frame_seqno_monotone t f o e s He) as (e1 & He1 & Hle1).
    destruct (IH _ e1 He1) as (e2 & He2 & Hle2).
    exists e2. split; [exact He2 | lia].
Qed.

(** What [_handle_ogm] enqueues: nothing, or, for a TTL above one, one
    wrapped payload that starts with the header rebuilt with the TTL
    lowered by one. *)
Lemma handle_ogm_tx now o sn ttl prev lm s :
  let s' := snd (_handle_ogm ext cfg now o sn ttl prev lm s) in
  tx_queue s' = tx_queue s \/
  (1 < ttl /\
   exists mh rest fr,
     _build_mesh_header MESH_MSG_OGM 0 (ttl - 1) o sn = Ok mh /\
     _wrap_in_ax25_ui ext cfg (mh ++ rest) = Ok fr /\
     tx_queue s' = tx_queue s ++ [fr]).
Proof.
  destruct s as [[orig nei] sq ds kr tq dl lg hd ac].
  exec_node.
  all: first
    [ left; reflexivity
    | right; split;
      [ match goal with H : (_ >? 1) = true |- _ => apply Z.gtb_lt in H; lia end
      | eauto 10 ] ].
Qed.

(** What [_handle_data_frame] enqueues: nothing, or, for a TTL above
    one, one wrapped payload made of the header rebuilt with the TTL
    lowered by one and of the received body. *)
Lemma handle_data_tx now o sn ttl fl body s :
  let s' := snd (_handle_data_frame ext cfg now o sn ttl fl body s) in
  tx_queue s' = tx_queue s \/
  (1 < ttl /\
   exists mh fr,
     _build_mesh_header MESH_MSG_DATA fl (ttl - 1) o sn = Ok mh /\
     _wrap_in_ax25_ui ext cfg (mh ++ body) = Ok fr /\
     tx_queue s' = tx_queue s ++ [fr]).
Proof.
  destruct s as [rs sq ds kr tq dl lg hd ac].
  exec_node.
  all: first
    [ left; reflexivity
    | right; split;
      [ match goal with H : (_ <=? 1) = false |- _ => apply Z.leb_gt in H; lia end
      | eauto 10 ] ].
Qed.


End NodeFacts.

(** * The claims *)

(** C2, as the code has it.  For a DATA frame addressed to another
    node the decrypt step (if ENCRYPTED) and the decompress step (if
    COMPRESSED) are not skipped: they run before the node decides
    between delivery and forwarding, so their outcome does bear on
    forwarding.  A frame that fails either step is not forwarded, and a
    frame that is forwarded has passed both.  What forwarding leaves
    out is the re-encoding: the decoded bytes go nowhere (nothing is
    delivered), and the frame enqueued is the mesh header rebuilt with
    the TTL lowered by one followed by the body as received, wrapped.
    A frame that passes both steps and is otherwise eligible (fresh
    dedup key, body of at least twelve bytes, TTL above one, a known
    next hop) has been enqueued in this form whenever [_on_kiss_frame]
    returns normally for it. *)
Theorem C2_forwarding_after_decode ext cfg now frame h s :
  data_frame frame h ->
  body_dest_id (frame_body frame) <> _node_id cfg ->
  let body := frame_body frame in
  let decoded := decode_steps ext (h_flags h) (h_origin_id h) body in
  let forwarded (s1 : MeshNode) : Prop :=
    exists mh fr,
      _build_mesh_header MESH_MSG_DATA (h_flags h) (h_ttl h - 1) (h_origin_id h) (h_seqno h)
        = Ok mh /\
      _wrap_in_ax25_ui ext cfg (mh ++ body) = Ok fr /\
      frame_body fr = body /\
      tx_queue s1 = tx_queue s ++ [fr] in
  let s' := snd (_handle_rx_frame ext cfg now frame s) in
  delivered s' = delivered s /\
  (decoded = None -> tx_queue s' = tx_queue s) /\
  (tx_queue s' = tx_queue s \/ (decoded <> None /\ forwarded s')) /\
  (forall entry,
     decoded <> None ->
     fresh_key s h = true -> 12 <= len body -> 1 < h_ttl h ->
     originators (_routing_state s) !! body_dest_id body = Some entry ->
     fst (_on_kiss_frame ext cfg now frame s) = Ok tt ->
     forwarded s').
Proof.
  intros Hd Hdest body decoded forwarded s'. subst s' forwarded. cbv beta.
  destruct (handle_rx_frame_fields ext cfg now frame s) as (-> & -> & _).
  rewrite (on_kiss_frame_data ext cfg now frame h s Hd).
  destruct (handle_data_other_node ext cfg now (h_origin_id h) (h_seqno h) (h_ttl h)
              (h_flags h) (frame_body frame) s Hdest) as (Hdl & Htx & Hret).
  pose proof Hd as [(_ & Hp & _) _].
  apply parse_mesh_header_inv in Hp as (_ & _ & _ & Hfl & Httl & Ho & Hsn & _).
  assert (Hbody : forall mh fr,
            1 < h_ttl h ->
            _build_mesh_header MESH_MSG_DATA (h_flags h) (h_ttl h - 1) (h_origin_id h)
              (h_seqno h) = Ok mh ->
            _wrap_in_ax25_ui ext cfg (mh ++ body) = Ok fr -> frame_body fr = body).
  { intros mh fr Hgt Hmh Hwrap.
    destruct (build_mesh_header_parses MESH_MSG_DATA (h_flags h) (h_ttl h - 1)
                (h_origin_id h) (h_seqno h) mh) as (Hlen & _);
      try assumption; try lia; [unfold MESH_MSG_DATA; lia|].
    unfold frame_body. rewrite (frame_info_wrapped _ _ _ _ Hwrap). unfold slice_from.
    rewrite drop_app_length'; [reflexivity | symmetry; exact Hlen]. }
  split; [exact Hdl|].
  split.
  { intros Hnone. destruct Htx as [Htx|(p & entry & mh & fr & _ & _ & Hdec & _)];
      [exact Htx|]. subst decoded body. congruence. }
  split.
  { destruct Htx as [Htx|(p & entry & mh & fr & _ & _ & Hdec & Hgt & _ & Hmh & Hwrap & Htx)];
      [left; exact Htx|right].
    split; [subst decoded body; congruence|].
    exists mh, fr. split; [exact Hmh|]. split; [exact Hwrap|].
    split; [apply (Hbody mh fr Hgt Hmh Hwrap)|exact Htx]. }
  intros entry Hdec Hfresh Hlen Hgt Hroute Hok.
  assert (Hk : _data_seen s !! (h_origin_id h, h_seqno h) = None).
  { unfold fresh_key in Hfresh. destruct (_data_seen s !! _); [discriminate|reflexivity]. }
  destruct decoded as [p|] eqn:Hp; [|contradiction].
  destruct (Hret p entry Hk Hlen Hp Hgt Hroute Hok) as (mh & fr & Hmh & Hwrap & Htx').
  exists mh, fr. split; [exact Hmh|]. split; [exact Hwrap|].
  split; [apply (Hbody mh fr Hgt Hmh Hwrap)|exact Htx'].
Qed.

(** C2 at node [BBBBBBBB], which knows a next hop for [CCCCCCCC]: a
    stored-deflate payload for [CCCCCCCC] passes the decompress step and
    the frame is forwarded. *)
Lemma C2_forwarding_after_decode_witness :
  let frame := Bench.data_frame_of x01 x05 x01 "CCCCCCCC"
                 (Bench.zlib_store (Bench.ascii_bytes "hi")) in
  let s := Bench.node_with_route in
  let s' := snd (_handle_rx_frame Bench.plain_ext Bench.cfg_B 0 frame s) in
  decode_steps Bench.plain_ext 1 (Bench.ascii_bytes "AAAAAAAA") (frame_body frame)
    = Some (Bench.ascii_bytes "hi") /\
  fst (_on_kiss_frame Bench.plain_ext Bench.cfg_B 0 frame s) = Ok tt /\
  delivered s' = [] /\
  exists mh fr,
    _build_mesh_header MESH_MSG_DATA 1 (5 - 1) (Bench.ascii_bytes "AAAAAAAA") 1 = Ok mh /\
    _wrap_in_ax25_ui Bench.plain_ext Bench.cfg_B (mh ++ frame_body frame) = Ok fr /\
    frame_body fr = frame_body frame /\
    tx_queue s' = [] ++ [fr].
Proof.
  intros frame s s'.
  split; [vm_compute; reflexivity|]. split; [vm_compute; reflexivity|].
  destruct (C2_forwarding_after_decode Bench.plain_ext Bench.cfg_B 0 frame
              (Header 1 0 1 5 (Bench.ascii_bytes "AAAAAAAA") 1) s)
    as (Hdl & _ & _ & Hfwd).
  - repeat split; vm_compute; reflexivity.
  - vm_compute. discriminate.
  - split; [exact Hdl|].
    apply (Hfwd {| best_next_hop := Bench.ascii_bytes "CCCCCCCC"; last_seqno := 7;
                   metric := 255; last_seen := 0 |}).
    + vm_compute. discriminate.
    + reflexivity.
    + vm_compute. discriminate.
    + vm_compute. reflexivity.
    + vm_compute. reflexivity.
    + vm_compute. reflexivity.
Defined.

(** C2 as stated fails.  Two DATA frames for [CCCCCCCC] arrive at node
    [BBBBBBBB], which knows a next hop; they carry the COMPRESSED flag,
    TTL 5, and agree on every byte up to the payload.  The one whose
    payload is a zlib stream is forwarded; the one whose payload is not
    is dropped with the decompression warning: the decompress step runs
    at the forwarding node and decides. *)
Lemma C2_counterexample :
  let good := Bench.data_frame_of x01 x05 x01 "CCCCCCCC"
                (Bench.zlib_store (Bench.ascii_bytes "hi")) in
  let bad := Bench.data_frame_of x01 x05 x01 "CCCCCCCC" (Bench.ascii_bytes "hi") in
  let after f := snd (_handle_rx_frame Bench.plain_ext Bench.cfg_B 0 f Bench.node_with_route) in
  take 44 good = take 44 bad /\
  body_dest_id (frame_body bad) <> _node_id Bench.cfg_B /\
  tx_queue (after good) =
    [Bench.ax25_prefix_B ++ [x01; x00; x01; x04] ++ drop 20 good] /\
  tx_queue (after bad) = [] /\
  log (after bad) = [(WARNING, "Failed to decompress payload; dropping DATA"%string)].
Proof.
  vm_compute. repeat split; try reflexivity. discriminate.
Qed.

(** C3, as the code has it.  The same DATA frame is handed to the RX path
    at [now1] and again at [now2], within [data_seen_expiry_seconds] of
    each other, with any events in between (cleanup iterations no later
    than [now2]).  The two receptions add at most one invocation of the
    application callback.  When the first reception is the one that
    inserts the key (it is absent on arrival and is cached with [now1]),
    the second stops at the dedup gate, whose membership test, made under
    the dedup lock, is all it does: no delivery, no frame enqueued, no
    log record, tables unchanged. *)
Theorem C3_same_frame_twice ext cfg frame h now1 now2 evs s :
  data_frame frame h ->
  (now2 - now1 <= data_seen_expiry_seconds (routing_config cfg))%Q ->
  cleanups_by now2 evs ->
  let s1 := step ext cfg s (RxFrame now1 frame) in
  let s2 := run ext cfg s1 evs in
  let s3 := step ext cfg s2 (RxFrame now2 frame) in
  (exists d1 d3,
     delivered s1 = delivered s ++ d1 /\ delivered s3 = delivered s2 ++ d3 /\
     (length d1 + length d3 <= 1)%nat) /\
  (fresh_key s h = true ->
     _data_seen s1 !! (h_origin_id h, h_seqno h) = Some now1 /\
     delivered s3 = delivered s2 /\ tx_queue s3 = tx_queue s2 /\ log s3 = log s2 /\
     _data_seen s3 = _data_seen s2 /\ _routing_state s3 = _routing_state s2 /\
     accesses s3 = Access res_data_seen Reads (data_seen_lock :: held s2) :: accesses s2).
Proof.
  intros Hd Hexp Hevs s1 s2 s3.
  pose proof (cleanups_by_within now1 now2 _ evs Hexp Hevs) as Hwithin.
  assert (Hfresh : _data_seen s !! (h_origin_id h, h_seqno h) = None ->
            _data_seen s1 !! (h_origin_id h, h_seqno h) = Some now1 /\
            (exists d1, delivered s1 = delivered s ++ d1 /\ (length d1 <= 1)%nat) /\
            delivered s3 = delivered s2 /\ tx_queue s3 = tx_queue s2 /\ log s3 = log s2 /\
            _data_seen s3 = _data_seen s2 /\ _routing_state s3 = _routing_state s2 /\
            accesses s3 = Access res_data_seen Reads (data_seen_lock :: held s2)
                            :: accesses s2).
  { intros Hk.
    destruct (rx_data_fresh ext cfg now1 frame h s Hd Hk) as (Hseen & Hd1). fold s1 in Hseen, Hd1.
    assert (H1 : _data_seen s1 !! (h_origin_id h, h_seqno h) = Some now1)
      by (rewrite Hseen; apply lookup_insert_eq).
    pose proof (run_keeps_seen ext cfg evs _ _ s1 H1 Hwithin) as H2. fold s2 in H2.
    pose proof (rx_data_duplicate ext cfg now2 frame h now1 s2 Hd H2) as H3. fold s3 in H3.
    cbn zeta in H3. tauto. }
  split.
  - destruct (_data_seen s !! (h_origin_id h, h_seqno h)) as [ts|] eqn:Hk.
    + destruct (rx_data_duplicate ext cfg now1 frame h ts s Hd Hk) as (H1 & _). fold s1 in H1.
      exists [].
      destruct (_data_seen s2 !! (h_origin_id h, h_seqno h)) as [ts2|] eqn:Hk2.
      * destruct (rx_data_duplicate ext cfg now2 frame h ts2 s2 Hd Hk2) as (H3 & _).
        fold s3 in H3. exists []. rewrite !app_nil_r. cbn. auto.
      * destruct (rx_data_fresh ext cfg now2 frame h s2 Hd Hk2) as (_ & d3 & H3 & Hlen).
        fold s3 in H3. exists d3. rewrite app_nil_r. cbn. auto.
    + destruct (Hfresh eq_refl) as (_ & (d1 & H1 & Hlen) & H3 & _).
      exists d1, []. rewrite app_nil_r. cbn. split; [exact H1|]. split; [exact H3|]. lia.
  - intros Hf. unfold fresh_key in Hf.
    destruct (_data_seen s !! (h_origin_id h, h_seqno h)); [discriminate|].
    destruct (Hfresh eq_refl) as (? & _ & ?). auto.
Qed.

(** C3 at node [BBBBBBBB]: a frame for it, received at times 0 and 20 with
    a cleanup iteration at time 10 in between. *)
Lemma C3_same_frame_twice_witness :
  let frame := Bench.data_frame_of x00 x05 x01 "BBBBBBBB" (Bench.ascii_bytes "hi") in
  let s1 := step Bench.plain_ext Bench.cfg_B fresh_node (RxFrame 0 frame) in
  let s2 := run Bench.plain_ext Bench.cfg_B s1 [CleanupTick 10] in
  let s3 := step Bench.plain_ext Bench.cfg_B s2 (RxFrame 20 frame) in
  (exists d1 d3,
     delivered s1 = [] ++ d1 /\ delivered s3 = delivered s2 ++ d3 /\
     (length d1 + length d3 <= 1)%nat) /\
  (fresh_key fresh_node (Header 1 0 0 5 (Bench.ascii_bytes "AAAAAAAA") 1) = true ->
     _data_seen s1 !! (Bench.ascii_bytes "AAAAAAAA", 1) = Some 0%Q /\
     delivered s3 = delivered s2 /\ tx_queue s3 = tx_queue s2 /\ log s3 = log s2 /\
     _data_seen s3 = _data_seen s2 /\ _routing_state s3 = _routing_state s2 /\
     accesses s3 = Access res_data_seen Reads (data_seen_lock :: held s2) :: accesses s2).
Proof.
  intros frame.
  apply (C3_same_frame_twice Bench.plain_ext Bench.cfg_B frame
           (Header 1 0 0 5 (Bench.ascii_bytes "AAAAAAAA") 1) 0 20 [CleanupTick 10] fresh_node).
  - repeat split; vm_compute; reflexivity.
  - vm_compute. discriminate.
  - repeat constructor. vm_compute. discriminate.
Defined.

(** C3 as stated fails when the key of the frame is already cached on its
    first arrival.  Node [BBBBBBBB] (expiry 30 s) has received at time 0
    a frame with the same origin and sequence number and another
    payload.  The frame under test arrives at times 25 and 40, with a
    cleanup iteration at time 31 in between.  At 25 it is dropped at the
    gate, which leaves the timestamp 0 in place; the cleanup at 31 evicts
    the key; at 40, fifteen seconds after its first arrival, the frame is
    not dropped but delivered. *)
Lemma C3_counterexample :
  let older := Bench.data_frame_of x00 x05 x01 "BBBBBBBB" (Bench.ascii_bytes "old") in
  let frame := Bench.data_frame_of x00 x05 x01 "BBBBBBBB" (Bench.ascii_bytes "hi") in
  let s := step Bench.plain_ext Bench.cfg_B fresh_node (RxFrame 0 older) in
  let s1 := step Bench.plain_ext Bench.cfg_B s (RxFrame 25 frame) in
  let s2 := run Bench.plain_ext Bench.cfg_B s1 [CleanupTick 31] in
  let s3 := step Bench.plain_ext Bench.cfg_B s2 (RxFrame 40 frame) in
  (40 - 25 <= data_seen_expiry_seconds (routing_config Bench.cfg_B))%Q /\
  cleanups_by 40 [CleanupTick 31] /\
  delivered s1 = delivered s /\
  delivered s3 = delivered s2 ++
    [(Bench.ascii_bytes "AAAAAAAA", Bench.ascii_bytes "BBBBBBBB", 1, Bench.ascii_bytes "hi")].
Proof.
  split; [vm_compute; discriminate|].
  split; [repeat constructor; vm_compute; discriminate|].
  vm_compute. split; reflexivity.
Qed.

(** C4.  Whatever frame the RX path is given, it enqueues nothing or one
    frame.  A frame that arrived with TTL at most one is never forwarded.
    A forwarded frame carries a mesh header with the TTL lowered by one
    and still at least one, and with version, message type, origin and
    sequence number as received; a forwarded DATA frame moreover keeps
    its flags, and its body is byte for byte the received body. *)
Theorem C4_ttl_and_forward_opacity ext cfg now frame s :
  let s' := snd (_handle_rx_frame ext cfg now frame s) in
  (forall h, _parse_mesh_header (frame_info frame) = Ok h -> h_ttl h <= 1 ->
             tx_queue s' = tx_queue s) /\
  (tx_queue s' = tx_queue s \/
   exists h fr h',
     tx_queue s' = tx_queue s ++ [fr] /\
     _parse_mesh_header (frame_info frame) = Ok h /\
     _parse_mesh_header (frame_info fr) = Ok h' /\
     h_ttl h' = h_ttl h - 1 /\ 1 <= h_ttl h' /\
     h_version h' = h_version h /\ h_msg_type h' = h_msg_type h /\
     h_origin_id h' = h_origin_id h /\ h_seqno h' = h_seqno h /\
     (h_msg_type h = MESH_MSG_DATA ->
      h_flags h' = h_flags h /\ frame_body fr = frame_body frame)).
Proof.
  intros s'.
  assert (Hmain :
    tx_queue s' = tx_queue s \/
    exists h fr h',
      tx_queue s' = tx_queue s ++ [fr] /\
      _parse_mesh_header (frame_info frame) = Ok h /\
      _parse_mesh_header (frame_info fr) = Ok h' /\
      h_ttl h' = h_ttl h - 1 /\ 1 <= h_ttl h' /\
      h_version h' = h_version h /\ h_msg_type h' = h_msg_type h /\
      h_origin_id h' = h_origin_id h /\ h_seqno h' = h_seqno h /\
      (h_msg_type h = MESH_MSG_DATA ->
       h_flags h' = h_flags h /\ frame_body fr = frame_body frame)).
  { subst s'. destruct (handle_rx_frame_fields ext cfg now frame s) as (-> & _).
    destruct (on_kiss_frame_cases ext cfg now frame s)
      as [->|[(h & ((_ & Hp & Hv) & Ht) & _ & ->)|(h & ((_ & Hp & Hv) & Ht) & ->)]].
    - left. reflexivity.
    - destruct (handle_ogm_tx ext cfg now (h_origin_id h) (h_seqno h) (h_ttl h)
                  (slice 0 8 (frame_body frame)) (getitem 8 (frame_body frame)) s)
        as [Htx|(Hgt & mh & rest & fr & Hmh & Hwrap & Htx)]; [left; exact Htx|].
      right.
      pose proof (parse_mesh_header_inv _ _ Hp) as (_ & _ & _ & _ & Httl & Ho & Hsn & _).
      destruct (build_mesh_header_parses MESH_MSG_OGM 0 (h_ttl h - 1) (h_origin_id h)
                  (h_seqno h) mh) as (_ & Hparse);
        try assumption; try lia; [unfold MESH_MSG_OGM; lia|].
      exists h, fr, (Header MESH_VERSION MESH_MSG_OGM 0 (h_ttl h - 1) (h_origin_id h) (h_seqno h)).
      rewrite (frame_info_wrapped _ _ _ _ Hwrap), Hparse.
      cbn [h_version h_msg_type h_flags h_ttl h_origin_id h_seqno].
      repeat split; try assumption; try reflexivity; try lia; try congruence.
      all: exfalso;
        match goal with Hx : h_msg_type _ = MESH_MSG_DATA |- _ =>
          rewrite Ht in Hx; discriminate Hx end.
    - destruct (handle_data_tx ext cfg now (h_origin_id h) (h_seqno h) (h_ttl h)
                  (h_flags h) (frame_body frame) s)
        as [Htx|(Hgt & mh & fr & Hmh & Hwrap & Htx)]; [left; exact Htx|].
      right.
      pose proof (parse_mesh_header_inv _ _ Hp) as (_ & _ & _ & Hfl & Httl & Ho & Hsn & _).
      destruct (build_mesh_header_parses MESH_MSG_DATA (h_flags h) (h_ttl h - 1)
                  (h_origin_id h) (h_seqno h) mh) as (Hlen & Hparse);
        try assumption; try lia; [unfold MESH_MSG_DATA; lia|].
      exists h, fr, (Header MESH_VERSION MESH_MSG_DATA (h_flags h) (h_ttl h - 1)
                       (h_origin_id h) (h_seqno h)).
      pose proof (frame_info_wrapped _ _ _ _ Hwrap) as Hinfo.
      rewrite Hinfo, Hparse.
      cbn [h_version h_msg_type h_flags h_ttl h_origin_id h_seqno].
      repeat split; try assumption; try reflexivity; try lia; try congruence.
      unfold frame_body at 1. rewrite Hinfo. unfold slice_from.
      rewrite drop_app_length'; [reflexivity | symmetry; exact Hlen]. }
  split; [|exact Hmain].
  intros h Hp Httl.
  destruct Hmain as [H|(h0 & fr & h' & _ & Hp0 & _ & Hdec & Hge & _)]; [exact H|].
  rewrite Hp in Hp0. injection Hp0 as <-. lia.
Qed.

(** C5.  [_handle_ogm] writes the originator entry of [origin_id] (next
    hop, sequence number, metric, and the time as [last_seen]) when the
    entry is absent or the OGM's sequence number is strictly greater than
    the stored one; with a sequence number at most the stored one the
    entry is left as it is, in every field.  Hence over any sequence of
    received frames the stored [last_seqno] of an originator never
    decreases. *)
Theorem C5_originator_seqno_monotone ext cfg now origin_id seqno ttl prev_hop_id link_metric
    (frames : list (Q * bytes)) o e s :
  originators (_routing_state s) !! o = Some e ->
  let s' := snd (_handle_ogm ext cfg now origin_id seqno ttl prev_hop_id link_metric s) in
  let written := {| best_next_hop := prev_hop_id; last_seqno := seqno;
                    metric := link_metric; last_seen := now |} in
  originators (_routing_state s') !! origin_id =
    match originators (_routing_state s) !! origin_id with
    | None => Some written
    | Some stored => if seqno >? last_seqno stored then Some written else Some stored
    end /\
  exists e',
    originators (_routing_state
      (run ext cfg s (map (fun tf => RxFrame (fst tf) (snd tf)) frames))) !! o = Some e' /\
    last_seqno e <= last_seqno e'.
Proof.
  intros He s' written. split.
  - subst s'. rewrite handle_ogm_originators. fold written.
    destruct (originators (_routing_state s) !! origin_id) as [stored|] eqn:Hs.
    + destruct (seqno >? last_seqno stored); [apply lookup_insert_eq | exact Hs].
    + apply lookup_insert_eq.
  - apply rx_frames_seqno_monotone. exact He.
Qed.

(** C5 at node [BBBBBBBB], which has learnt [AAAAAAAA] with sequence
    number 9 from an OGM: an OGM of [AAAAAAAA] with sequence number 9
    again leaves the entry as it is, and after OGM frames of [AAAAAAAA]
    with sequence numbers 3 and 12 the stored number is at least 9. *)
Lemma C5_originator_seqno_monotone_witness :
  let s := step Bench.plain_ext Bench.cfg_B fresh_node
             (RxFrame 0 (Bench.ogm_frame_of x05 x09 xff)) in
  let stored := {| best_next_hop := Bench.ascii_bytes "CCCCCCCC"; last_seqno := 9;
                   metric := 255; last_seen := 0 |} in
  let s' := snd (_handle_ogm Bench.plain_ext Bench.cfg_B 50 (Bench.ascii_bytes "AAAAAAAA") 9 5
                   (Bench.ascii_bytes "DDDDDDDD") 100 s) in
  originators (_routing_state s') !! Bench.ascii_bytes "AAAAAAAA" = Some stored /\
  exists e',
    originators (_routing_state
      (run Bench.plain_ext Bench.cfg_B s
         [RxFrame 1 (Bench.ogm_frame_of x05 x03 xff);
          RxFrame 2 (Bench.ogm_frame_of x05 x0c xff)])) !! Bench.ascii_bytes "AAAAAAAA"
      = Some e' /\
    9 <= last_seqno e'.
Proof.
  intros s stored.
  apply (C5_originator_seqno_monotone Bench.plain_ext Bench.cfg_B 50
           (Bench.ascii_bytes "AAAAAAAA") 9 5 (Bench.ascii_bytes "DDDDDDDD") 100
           [(1%Q, Bench.ogm_frame_of x05 x03 xff); (2%Q, Bench.ogm_frame_of x05 x0c xff)]
           (Bench.ascii_bytes "AAAAAAAA") stored s).
  vm_compute. reflexivity.
Defined.

(** C6.  For in-range fields (message type, flags and TTL in [0, 255], an
    origin of exactly eight bytes, a sequence number below 2^32) the header
    builder returns sixteen bytes, and parsing them returns version 1
    with exactly those fields; parsing an input shorter than sixteen bytes
    raises [ValueError] (the spec's [Short]). *)
Theorem C6_mesh_header_roundtrip (msg_type flags ttl : Z) (origin_id : bytes) (seqno : Z)
    (short : bytes) :
  0 <= msg_type < 256 -> 0 <= flags < 256 -> 0 <= ttl < 256 ->
  length origin_id = 8%nat -> 0 <= seqno < 2 ^ 32 ->
  (length short < 16)%nat ->
  (exists header,
     _build_mesh_header msg_type flags ttl origin_id seqno = Ok header /\
     length header = 16%nat /\
     _parse_mesh_header header = Ok (Header 1 msg_type flags ttl origin_id seqno)) /\
  _parse_mesh_header short = Raise ValueError.
Proof.
  intros Ht Hf Httl Ho Hsn Hshort. split.
  - apply parse_build_mesh_header; assumption.
  - apply parse_mesh_header_short; assumption.
Qed.

(** C6 on an OGM header of origin [AAAAAAAA], and on a fifteen-byte
    input. *)
Lemma C6_mesh_header_roundtrip_witness :
  (exists header,
     _build_mesh_header 1 0 5 (Bench.ascii_bytes "AAAAAAAA") 4294967295 = Ok header /\
     length header = 16%nat /\
     _parse_mesh_header header
       = Ok (Header 1 1 0 5 (Bench.ascii_bytes "AAAAAAAA") 4294967295)) /\
  _parse_mesh_header (replicate 15 x01) = Raise ValueError.
Proof.
  apply (C6_mesh_header_roundtrip 1 0 5 (Bench.ascii_bytes "AAAAAAAA") 4294967295
           (replicate 15 x01)); try reflexivity; try (cbn; lia).
Defined.

(** C7.  [_build_data_payload] sets COMPRESSED exactly when the output of
    [zlib.compress] is strictly shorter than the application payload; the
    bytes it carries on are then the compressed ones, otherwise the
    original ones.  Without encryption they end the body as they are;
    with encryption they are the plaintext handed to [encrypt], whose
    nonce and ciphertext end the body. *)
Theorem C7_compression_discipline ext cfg (entropy dest_id : bytes) (data_seqno : Z)
    (app_payload nonce ciphertext : bytes) :
  let compressed := zlib_compress ext app_payload in
  let shorter := len compressed <? len app_payload in
  let carried := if shorter then compressed else app_payload in
  0 <= data_seqno < 2 ^ 32 ->
  0 <= ogm_ttl (routing_config cfg) < 256 ->
  (encryption_enabled (encryptor ext) = true ->
   encrypt (encryptor ext) entropy carried
     (_node_id cfg ++ dest_id ++ be32_bytes data_seqno) = Ok (nonce, ciphertext)) ->
  exists payload h,
    _build_data_payload ext cfg entropy dest_id data_seqno app_payload = Ok payload /\
    _parse_mesh_header payload = Ok h /\
    flag_set (h_flags h) MESH_FLAG_COMPRESSED = shorter /\
    flag_set (h_flags h) MESH_FLAG_ENCRYPTED = encryption_enabled (encryptor ext) /\
    slice_from 16 payload =
      dest_id ++ be32_bytes data_seqno ++
        (if encryption_enabled (encryptor ext) then nonce ++ ciphertext else carried).
Proof.
  intros compressed shorter carried Hsn Httl Henc.
  unfold _build_data_payload. fold compressed. fold shorter.
  rewrite (pack_be32_in_range data_seqno Hsn).
  assert (Hbuild : forall flags body, 0 <= flags < 256 ->
            exists mh,
              _build_mesh_header MESH_MSG_DATA flags (ogm_ttl (routing_config cfg))
                (_node_id cfg) data_seqno = Ok mh /\
              _parse_mesh_header (mh ++ body)
                = Ok (Header MESH_VERSION MESH_MSG_DATA flags
                        (ogm_ttl (routing_config cfg)) (_node_id cfg) data_seqno) /\
              slice_from 16 (mh ++ body) = body).
  { intros flags body Hflags.
    destruct (parse_build_mesh_header MESH_MSG_DATA flags (ogm_ttl (routing_config cfg))
                (_node_id cfg) data_seqno) as (mh & Hmh & Hlen & _);
      try assumption; [unfold MESH_MSG_DATA; lia | apply derive_node_id_length |].
    exists mh. split; [exact Hmh|].
    destruct (build_mesh_header_parses MESH_MSG_DATA flags (ogm_ttl (routing_config cfg))
                (_node_id cfg) data_seqno mh) as (_ & Hp);
      try assumption; [unfold MESH_MSG_DATA; lia | apply derive_node_id_length |].
    split; [apply Hp|].
    unfold slice_from. rewrite drop_app_length'; [reflexivity | symmetry; exact Hlen]. }
  destruct (encryption_enabled (encryptor ext)) eqn:Hen.
  - specialize (Henc eq_refl). subst carried.
    destruct shorter; rewrite Henc; cbv zeta iota beta.
    + destruct (Hbuild (Z.lor (Z.lor 0 MESH_FLAG_COMPRESSED) MESH_FLAG_ENCRYPTED)
                  (dest_id ++ be32_bytes data_seqno ++ nonce ++ ciphertext))
        as (mh & -> & Hp & Hbody); [vm_compute; split; congruence|].
      eexists _, _. split; [reflexivity|]. split; [exact Hp|].
      split; [reflexivity|]. split; [reflexivity|]. exact Hbody.
    + destruct (Hbuild (Z.lor 0 MESH_FLAG_ENCRYPTED)
                  (dest_id ++ be32_bytes data_seqno ++ nonce ++ ciphertext))
        as (mh & -> & Hp & Hbody); [vm_compute; split; congruence|].
      eexists _, _. split; [reflexivity|]. split; [exact Hp|].
      split; [reflexivity|]. split; [reflexivity|]. exact Hbody.
  - subst carried. destruct shorter; cbv zeta iota beta.
    + destruct (Hbuild (Z.lor 0 MESH_FLAG_COMPRESSED)
                  (dest_id ++ be32_bytes data_seqno ++ compressed))
        as (mh & -> & Hp & Hbody); [vm_compute; split; congruence|].
      eexists _, _. split; [reflexivity|]. split; [exact Hp|].
      split; [reflexivity|]. split; [reflexivity|]. exact Hbody.
    + destruct (Hbuild 0 (dest_id ++ be32_bytes data_seqno ++ app_payload))
        as (mh & -> & Hp & Hbody); [vm_compute; split; congruence|].
      eexists _, _. split; [reflexivity|]. split; [exact Hp|].
      split; [reflexivity|]. split; [reflexivity|]. exact Hbody.
Qed.

(** C7 at node [BBBBBBBB] without encryption: the stored form of a
    two-byte payload is longer, so the payload travels as it is and
    COMPRESSED stays clear. *)
Lemma C7_compression_discipline_witness :
  exists payload h,
    _build_data_payload Bench.plain_ext Bench.cfg_B [] (Bench.ascii_bytes "CCCCCCCC") 7
      (Bench.ascii_bytes "hi") = Ok payload /\
    _parse_mesh_header payload = Ok h /\
    flag_set (h_flags h) MESH_FLAG_COMPRESSED = false /\
    flag_set (h_flags h) MESH_FLAG_ENCRYPTED = false /\
    slice_from 16 payload =
      Bench.ascii_bytes "CCCCCCCC" ++ be32_bytes 7 ++ Bench.ascii_bytes "hi".
Proof.
  apply (C7_compression_discipline Bench.plain_ext Bench.cfg_B []
           (Bench.ascii_bytes "CCCCCCCC") 7 (Bench.ascii_bytes "hi") [] []).
  - cbn; lia.
  - cbn; lia.
  - cbn. discriminate.
Defined.

(** C8 fails on the code.  With the default configuration (base delay
    5 s, maximum 60 s) five failed connection attempts in a row sleep
    5, 10, 20, 40 and then 80 seconds: the delay is doubled whenever it
    is below the maximum and is never clamped to it. *)
Theorem C8_backoff_exceeds_max_delay :
  Kiss._connect_with_backoff default_kiss_config (replicate 5 Kiss.Fails)
    = [5; 10; 20; 40; 80]%Q /\
  (reconnect_max_delay default_kiss_config < 80)%Q.
Proof.
  split; [reflexivity | vm_compute; reflexivity].
Qed.




(** C10.  A DATA frame that passes the dedup gate has its key cached with
    the time of arrival before its body is looked at, so the key is
    consumed whatever becomes of the frame: dropped for a body under
    twelve bytes, for a failed decrypt (of any exception class) or a
    failed decompress, delivered, or forwarded.  A later DATA frame with
    the same origin and sequence number that arrives within
    [data_seen_expiry_seconds] is then dropped as a duplicate: it is
    neither delivered nor forwarded. *)
Theorem C10_dropped_frame_consumes_key ext cfg frame1 h1 frame2 h2 now1 now2 evs s :
  data_frame frame1 h1 ->
  data_frame frame2 h2 ->
  h_origin_id h2 = h_origin_id h1 ->
  h_seqno h2 = h_seqno h1 ->
  fresh_key s h1 = true ->
  (now2 - now1 <= data_seen_expiry_seconds (routing_config cfg))%Q ->
  cleanups_by now2 evs ->
  let s1 := step ext cfg s (RxFrame now1 frame1) in
  let s2 := run ext cfg s1 evs in
  let s3 := step ext cfg s2 (RxFrame now2 frame2) in
  _data_seen s1 = <[(h_origin_id h1, h_seqno h1) := now1]> (_data_seen s) /\
  delivered s3 = delivered s2 /\ tx_queue s3 = tx_queue s2.
Proof.
  intros Hd1 Hd2 Ho Hsn Hf Hexp Hevs s1 s2 s3.
  assert (Hk : _data_seen s !! (h_origin_id h1, h_seqno h1) = None).
  { unfold fresh_key in Hf. destruct (_data_seen s !! _); [discriminate|reflexivity]. }
  destruct (rx_data_fresh ext cfg now1 frame1 h1 s Hd1 Hk) as (Hseen & _). fold s1 in Hseen.
  split; [exact Hseen|].
  assert (H1 : _data_seen s1 !! (h_origin_id h1, h_seqno h1) = Some now1)
    by (rewrite Hseen; apply lookup_insert_eq).
  pose proof (run_keeps_seen ext cfg evs _ _ s1 H1
                (cleanups_by_within now1 now2 _ evs Hexp Hevs)) as H2.
  fold s2 in H2. rewrite <- Ho, <- Hsn in H2.
  destruct (rx_data_duplicate ext cfg now2 frame2 h2 now1 s2 Hd2 H2) as (H3 & H4 & _).
  auto.
Qed.

(** C10 at node [BBBBBBBB]: a frame with a four-byte body is dropped; the
    well-formed frame with the same origin and sequence number that
    comes five seconds later is not delivered. *)
Lemma C10_dropped_frame_consumes_key_witness :
  let short := Bench.ax25_prefix ++ [x01; x00; x00; x05] ++ Bench.ascii_bytes "AAAAAAAA"
                 ++ [x00; x00; x00; x01] ++ Bench.ascii_bytes "BBBB" in
  let good := Bench.data_frame_of x00 x05 x01 "BBBBBBBB" (Bench.ascii_bytes "hi") in
  let s1 := step Bench.plain_ext Bench.cfg_B fresh_node (RxFrame 0 short) in
  let s2 := run Bench.plain_ext Bench.cfg_B s1 [CleanupTick 3] in
  let s3 := step Bench.plain_ext Bench.cfg_B s2 (RxFrame 5 good) in
  _data_seen s1 = <[(Bench.ascii_bytes "AAAAAAAA", 1) := 0%Q]> ∅ /\
  delivered s3 = delivered s2 /\ tx_queue s3 = tx_queue s2.
Proof.
  intros short good.
  apply (C10_dropped_frame_consumes_key Bench.plain_ext Bench.cfg_B
           short (Header 1 0 0 5 (Bench.ascii_bytes "AAAAAAAA") 1)
           good (Header 1 0 0 5 (Bench.ascii_bytes "AAAAAAAA") 1)
           0 5 [CleanupTick 3] fresh_node).
  - repeat split; vm_compute; reflexivity.
  - repeat split; vm_compute; reflexivity.
  - reflexivity.
  - reflexivity.
  - reflexivity.
  - vm_compute. discriminate.
  - repeat constructor. vm_compute. discriminate.
Defined.

(** * Further properties of the code *)

(** X1.  A node ID has exactly eight bytes: an ASCII callsign of eight or
    more characters is cut to its first eight, a shorter one is padded
    with zero bytes. *)
Theorem X1_node_id_eight_bytes (callsign : string) :
  forallb is_ascii (list_ascii_of_string callsign) = true ->
  let encoded := map byte_of_ascii (list_ascii_of_string callsign) in
  length (_derive_node_id callsign) = 8%nat /\
  _derive_node_id callsign =
    if (8 <=? length encoded)%nat then take 8 encoded
    else encoded ++ replicate (8 - length encoded) x00.
Proof.
  intros Hascii encoded. split; [apply derive_node_id_length|].
  unfold _derive_node_id, encode_ascii_ignore, ljust.
  assert (Hf : List.filter is_ascii (list_ascii_of_string callsign)
               = list_ascii_of_string callsign).
  { clear encoded. induction (list_ascii_of_string callsign) as [|c l IH]; [reflexivity|].
    cbn in Hascii |- *. apply andb_true_iff in Hascii as [Hc Hl].
    rewrite Hc, IH by exact Hl. reflexivity. }
  rewrite Hf. fold encoded.
  destruct (Nat.leb_spec 8 (length encoded)) as [Hlen|Hlen].
  - rewrite take_app_le by exact Hlen. reflexivity.
  - rewrite take_ge; [reflexivity|]. rewrite length_app, length_replicate. lia.
Qed.

(** X1 on the callsigns [KD9YQK] and [LONGCALLSIGN]. *)
Lemma X1_node_id_eight_bytes_witness :
  (length (_derive_node_id "KD9YQK") = 8%nat /\
   _derive_node_id "KD9YQK" = Bench.ascii_bytes "KD9YQK" ++ [x00; x00]) /\
  (length (_derive_node_id "LONGCALLSIGN") = 8%nat /\
   _derive_node_id "LONGCALLSIGN" = Bench.ascii_bytes "LONGCALL").
Proof.
  split.
  - apply (X1_node_id_eight_bytes "KD9YQK"). reflexivity.
  - apply (X1_node_id_eight_bytes "LONGCALLSIGN"). reflexivity.
Defined.

Lemma Qltb_true_iff (a b : Q) : Qltb a b = true <-> (a < b)%Q.
Proof.
  unfold Qltb. destruct (Qle_bool b a) eqn:E; cbn.
  - apply Qle_bool_iff in E. split; [discriminate | lra].
  - split; [|reflexivity]. intros _.
    destruct (Qlt_le_dec a b) as [H|H]; [exact H|].
    apply Qle_bool_iff in H. congruence.
Qed.

Lemma backoff_loop_bounded (base max_delay delay : Q) (outcomes : list Kiss.attempt) :
  (0 < base)%Q -> (base <= delay)%Q -> (delay < 2 * max_delay)%Q ->
  Forall (fun d => (base <= d)%Q /\ (d < 2 * max_delay)%Q)
         (Kiss.backoff_loop max_delay delay outcomes).
Proof.
  intros Hbase. revert delay.
  induction outcomes as [|[|] rest IH]; intros delay Hlo Hhi; cbn [Kiss.backoff_loop];
    try constructor; [split; assumption|].
  destruct (Qltb delay max_delay) eqn:E.
  - apply Qltb_true_iff in E. apply IH; lra.
  - apply IH; assumption.
Qed.

(** X2.  What the reconnect loop does guarantee: with a positive base
    delay that is at most the maximum, every sleep is at least the base
    delay and less than twice the maximum. *)
Theorem X2_backoff_sleeps_bounded (config : KISSConnectionConfig)
    (outcomes : list Kiss.attempt) :
  (0 < reconnect_base_delay config)%Q ->
  (reconnect_base_delay config <= reconnect_max_delay config)%Q ->
  Forall (fun d => (reconnect_base_delay config <= d)%Q /\
                   (d < 2 * reconnect_max_delay config)%Q)
         (Kiss._connect_with_backoff config outcomes).
Proof.
  intros Hpos Hle. unfold Kiss._connect_with_backoff.
  apply backoff_loop_bounded; lra.
Qed.

(** X2 with the default configuration and seven failures. *)
Lemma X2_backoff_sleeps_bounded_witness :
  Forall (fun d => (5 <= d)%Q /\ (d < 2 * 60)%Q)
         (Kiss._connect_with_backoff default_kiss_config (replicate 7 Kiss.Fails)).
Proof.
  apply (X2_backoff_sleeps_bounded default_kiss_config (replicate 7 Kiss.Fails));
    vm_compute; congruence.
Defined.

(** X3.  The sequence counter wraps modulo 2^32: [_next_seqno] returns
    and stores the successor of the counter modulo 2^32, whatever the
    node is doing, and takes and releases the counter's lock. *)
Theorem X3_next_seqno_wraps (s : MeshNode) :
  let next := (_seqno s + 1) mod 2 ^ 32 in
  fst (_next_seqno s) = Ok next /\
  _seqno (snd (_next_seqno s)) = next /\
  0 <= next < 2 ^ 32 /\
  held (snd (_next_seqno s)) = held s.
Proof.
  intros next.
  assert (Hland : Z.land (_seqno s + 1) 4294967295 = next).
  { change 4294967295 with (Z.ones 32). rewrite Z.land_ones by lia. reflexivity. }
  destruct s as [rs sq ds kr tq dl lg hd ac].
  unfold _next_seqno. unfold_monad. cbn in *. rewrite Hland.
  repeat split; try reflexivity; apply Z.mod_pos_bound; lia.
Qed.

(** X4.  OGMs are not deduplicated: an OGM frame leaves the dedup cache
    and the callback history as they are. *)
Theorem X4_ogm_bypasses_dedup ext cfg now frame h s :
  ogm_frame frame h ->
  let s' := snd (_handle_rx_frame ext cfg now frame s) in
  _data_seen s' = _data_seen s /\ delivered s' = delivered s.
Proof.
  intros Hogm s'. subst s'.
  destruct (handle_rx_frame_fields ext cfg now frame s) as (_ & -> & -> & _).
  rewrite (on_kiss_frame_ogm ext cfg now frame h s Hogm).
  destruct (len (frame_body frame) <? 9); [split; reflexivity|].
  destruct (handle_ogm_frame ext cfg now (h_origin_id h) (h_seqno h) (h_ttl h)
              (slice 0 8 (frame_body frame)) (getitem 8 (frame_body frame)) s)
    as (H1 & H2 & _).
  auto.
Qed.

(** X4 at node [BBBBBBBB]. *)
Lemma X4_ogm_bypasses_dedup_witness :
  let s' := snd (_handle_rx_frame Bench.plain_ext Bench.cfg_B 0
                   (Bench.ogm_frame_of x05 x09 xff) fresh_node) in
  _data_seen s' = ∅ /\ delivered s' = [].
Proof.
  apply (X4_ogm_bypasses_dedup Bench.plain_ext Bench.cfg_B 0
           (Bench.ogm_frame_of x05 x09 xff)
           (Header 1 1 0 5 (Bench.ascii_bytes "AAAAAAAA") 9) fresh_node).
  repeat split; vm_compute; reflexivity.
Defined.

(** X5.  Frames of at most sixteen bytes, frames too short for a mesh
    header and frames of another version than 1 are dropped silently:
    the RX path returns and the node is exactly as before. *)
Theorem X5_malformed_frames_dropped ext cfg now frame s :
  (len frame <= 16 \/
   len (frame_info frame) < 16 \/
   (exists h, _parse_mesh_header (frame_info frame) = Ok h /\ h_version h <> MESH_VERSION)) ->
  _handle_rx_frame ext cfg now frame s = (Ok tt, s).
Proof.
  intros H. unfold _handle_rx_frame, try_except.
  assert (Hk : _on_kiss_frame ext cfg now frame s = (Ok tt, s)).
  { unfold _on_kiss_frame, _find_info_start. unfold_monad.
    destruct (Z.leb_spec (len frame) 16) as [|Hlen]; [reflexivity|].
    destruct H as [H|[H|(h & Hp & Hv)]]; [lia| |].
    - unfold _parse_mesh_header. fold (frame_info frame).
      destruct (Z.ltb_spec (len (frame_info frame)) 16); [reflexivity|lia].
    - unfold frame_info in Hp. rewrite Hp.
      destruct (Z.eqb_spec (h_version h) MESH_VERSION); [contradiction|reflexivity]. }
  rewrite Hk. reflexivity.
Qed.

(** X5 on a frame that announces version 2. *)
Lemma X5_malformed_frames_dropped_witness :
  _handle_rx_frame Bench.plain_ext Bench.cfg_B 0
    (Bench.ax25_prefix ++ [x02; x00; x00; x05] ++ replicate 20 x00) fresh_node
  = (Ok tt, fresh_node).
Proof.
  apply (X5_malformed_frames_dropped Bench.plain_ext Bench.cfg_B 0).
  right; right. eexists. split; [vm_compute; reflexivity|]. cbn. discriminate.
Defined.

(** X6.  When [decrypt] fails with an exception whose class does not
    derive from [ValueError], the exception leaves [_handle_rx_frame]
    (nothing between the call and the RX worker catches it), with
    nothing delivered and nothing enqueued. *)
Theorem X6_aead_failure_of_other_class_escapes ext cfg now frame h e s :
  data_frame frame h ->
  flag_set (h_flags h) MESH_FLAG_ENCRYPTED = true ->
  decrypt (encryptor ext) (body_nonce (frame_body frame))
    (body_ciphertext (frame_body frame))
    (body_associated_data (h_origin_id h) (frame_body frame)) = Raise e ->
  is_ValueError e = false ->
  reaches_decrypt s h (frame_body frame) = true ->
  exists s',
    _handle_rx_frame ext cfg now frame s = (Raise e, s') /\
    delivered s' = delivered s /\ tx_queue s' = tx_queue s /\ log s' = log s.
Proof.
  intros Hd Hfl Hdec He Hreach.
  unfold _handle_rx_frame, try_except.
  rewrite (on_kiss_frame_data ext cfg now frame h s Hd).
  destruct (handle_data_decrypt_raises ext cfg now (h_origin_id h) (h_seqno h)
              (h_ttl h) (h_flags h) (frame_body frame) e s Hfl Hdec)
    as (s1 & Hrun & Hrest).
  rewrite Hrun. unfold reaches_decrypt in Hreach.
  change (fresh_key s (Header MESH_VERSION MESH_MSG_DATA (h_flags h) (h_ttl h)
                         (h_origin_id h) (h_seqno h))) with (fresh_key s h).
  rewrite Hreach, He. exists s1. auto.
Qed.

(** X6 at node [BBBBBBBB] holding another key, when the adapter raises an
    exception foreign to [ValueError]. *)
Lemma X6_aead_failure_of_other_class_escapes_witness :
  let frame := Bench.data_frame_of x02 x05 x01 "BBBBBBBB" (replicate 30 x2a) in
  exists s',
    _handle_rx_frame (Bench.rejecting_ext (Foreign false)) Bench.cfg_B 0 frame fresh_node
      = (Raise (Foreign false), s') /\
    delivered s' = [] /\ tx_queue s' = [] /\ log s' = [].
Proof.
  intros frame.
  apply (X6_aead_failure_of_other_class_escapes (Bench.rejecting_ext (Foreign false))
           Bench.cfg_B 0 frame (Header 1 0 2 5 (Bench.ascii_bytes "AAAAAAAA") 1)
           (Foreign false) fresh_node).
  - repeat split; vm_compute; reflexivity.
  - reflexivity.
  - reflexivity.
  - reflexivity.
  - reflexivity.
Defined.

Section DeliveryFacts.

Context (ext : Externals) (cfg : MeshNodeConfig).

(** A fresh DATA frame addressed to this node whose payload decodes: the
    callback is invoked once with the decoded payload (or, without a
    callback, the delivery is logged); nothing is enqueued.  The TTL
    plays no part. *)
Lemma handle_data_local now o sn ttl fl body p s :
  _data_seen s !! (o, sn) = None ->
  12 <= len body ->
  body_dest_id body = _node_id cfg ->
  decode_steps ext fl o body = Some p ->
  exists n s',
    unpack_be32 (slice 8 12 body) = Ok n /\
    _handle_data_frame ext cfg now o sn ttl fl body s =
      (match app_data_callback ext with
       | Some cb => match cb o (body_dest_id body) n p with
                    | None => Ok tt
                    | Some e => Raise e
                    end
       | None => Ok tt
       end, s') /\
    delivered s' = delivered s ++
      match app_data_callback ext with
      | Some _ => [(o, body_dest_id body, n, p)]
      | None => []
      end /\
    log s' = log s ++
      match app_data_callback ext with
      | Some _ => []
      | None => [(INFO, "DATA delivered from origin %s seq %d: %r"%string)]
      end /\
    tx_queue s' = tx_queue s /\
    _data_seen s' = <[(o, sn) := now]> (_data_seen s) /\
    _routing_state s' = _routing_state s /\ _seqno s' = _seqno s.
Proof.
  intros Hk Hb Hdest Hdec.
  destruct (data_seq_roundtrip body Hb) as (n & Hu & Hn & Hpk).
  exists n.
  destruct s as [rs sq ds kr tq dl lg hd ac]. proj_simpl.
  unfold _handle_data_frame, dedup_gate, _lookup_best_next_hop, kiss_send.
  unfold_monad. unfold_setters. proj_simpl.
  rewrite Hk. proj_simpl.
  destruct (Z.ltb_spec (len body) 12); [lia|].
  rewrite Hu, Hpk. rewrite (aad_of_body o body _ eq_refl).
  unfold decode_steps, decrypt_step in Hdec.
  fold (body_remainder body). fold (body_nonce body). fold (body_ciphertext body).
  fold (body_dest_id body).
  destruct (flag_set fl MESH_FLAG_ENCRYPTED).
  - destruct (len (body_remainder body) <? 13); [discriminate|].
    destruct (decrypt _ _ _ _) as [plain|e]; [|discriminate].
    destruct (flag_set fl MESH_FLAG_COMPRESSED).
    + rewrite Hdec.
      destruct (decide (body_dest_id body = _node_id cfg)); [|contradiction].
      destruct (app_data_callback ext) as [cb|].
      * destruct (cb o (body_dest_id body) n p);
          eexists; (split; [reflexivity|]); (split; [reflexivity|]);
          proj_simpl; rewrite ?app_nil_r; repeat split; reflexivity.
      * eexists; (split; [reflexivity|]); (split; [reflexivity|]);
          proj_simpl; rewrite ?app_nil_r; repeat split; reflexivity.
    + injection Hdec as ->.
      destruct (decide (body_dest_id body = _node_id cfg)); [|contradiction].
      destruct (app_data_callback ext) as [cb|].
      * destruct (cb o (body_dest_id body) n p);
          eexists; (split; [reflexivity|]); (split; [reflexivity|]);
          proj_simpl; rewrite ?app_nil_r; repeat split; reflexivity.
      * eexists; (split; [reflexivity|]); (split; [reflexivity|]);
          proj_simpl; rewrite ?app_nil_r; repeat split; reflexivity.
  - destruct (flag_set fl MESH_FLAG_COMPRESSED).
    + rewrite Hdec.
      destruct (decide (body_dest_id body = _node_id cfg)); [|contradiction].
      destruct (app_data_callback ext) as [cb|].
      * destruct (cb o (body_dest_id body) n p);
          eexists; (split; [reflexivity|]); (split; [reflexivity|]);
          proj_simpl; rewrite ?app_nil_r; repeat split; reflexivity.
      * eexists; (split; [reflexivity|]); (split; [reflexivity|]);
          proj_simpl; rewrite ?app_nil_r; repeat split; reflexivity.
    + injection Hdec as ->.
      destruct (decide (body_dest_id body = _node_id cfg)); [|contradiction].
      destruct (app_data_callback ext) as [cb|].
      * destruct (cb o (body_dest_id body) n p);
          eexists; (split; [reflexivity|]); (split; [reflexivity|]);
          proj_simpl; rewrite ?app_nil_r; repeat split; reflexivity.
      * eexists; (split; [reflexivity|]); (split; [reflexivity|]);
          proj_simpl; rewrite ?app_nil_r; repeat split; reflexivity.
Qed.

End DeliveryFacts.

Section BuildFacts.

Lemma in_byte_range_inv (z : Z) : in_byte_range z = true -> 0 <= z < 256.
Proof. unfold in_byte_range. intros H. apply andb_true_iff in H as [H1 H2]. lia. Qed.

(** A header is built only from fields that fit. *)
Lemma build_mesh_header_inv (t f ttl : Z) (oid : bytes) (sn : Z) (mh : bytes) :
  _build_mesh_header t f ttl oid sn = Ok mh ->
  0 <= t < 256 /\ 0 <= f < 256 /\ 0 <= ttl < 256 /\ 0 <= sn < 2 ^ 32.
Proof.
  unfold _build_mesh_header, setitem, pack_be32.
  change (in_byte_range MESH_VERSION) with true. cbv iota.
  destruct (in_byte_range t) eqn:Ht; [|discriminate].
  destruct (in_byte_range f) eqn:Hf; [|discriminate].
  destruct (in_byte_range ttl) eqn:Httl; [|discriminate].
  destruct ((0 <=? sn) && (sn <? 2 ^ 32)) eqn:Hsn; [|discriminate].
  intros _. apply in_byte_range_inv in Ht, Hf, Httl.
  apply andb_true_iff in Hsn as [H1 H2]. lia.
Qed.

Lemma slice_0_8_app (a rest : bytes) : length a = 8%nat -> slice 0 8 (a ++ rest) = a.
Proof. intros H. unfold slice. cbn [drop Nat.sub]. apply take_app_length'. lia. Qed.

Lemma slice_8_12_app (a b rest : bytes) :
  length a = 8%nat -> length b = 4%nat -> slice 8 12 (a ++ b ++ rest) = b.
Proof.
  intros Ha Hb. unfold slice. rewrite drop_app_length' by lia.
  change (12 - 8)%nat with 4%nat. apply take_app_length'. lia.
Qed.

Lemma slice_from_12_app (a b rest : bytes) :
  length a = 8%nat -> length b = 4%nat -> slice_from 12 (a ++ b ++ rest) = rest.
Proof.
  intros Ha Hb. unfold slice_from. rewrite app_assoc.
  apply drop_app_length'. rewrite length_app, Ha, Hb. reflexivity.
Qed.

Lemma slice_0_12_app (a rest : bytes) : length a = 12%nat -> slice 0 12 (a ++ rest) = a.
Proof. intros H. unfold slice. cbn [drop Nat.sub]. apply take_app_length'. lia. Qed.

Lemma length_be32_bytes (n : Z) : length (be32_bytes n) = 4%nat.
Proof. reflexivity. Qed.

Lemma unpack_be32_bytes (n : Z) : 0 <= n < 2 ^ 32 -> unpack_be32 (be32_bytes n) = Ok n.
Proof.
  intros Hn. destruct (unpack_pack_be32 n Hn) as (p & Hp & _ & Hu).
  rewrite pack_be32_in_range in Hp by exact Hn. injection Hp as <-. exact Hu.
Qed.

(** The frame a wrapped payload becomes, seen from the receiving side. *)
Lemma wrapped_frame_fields ext cfg (mh body fr : bytes) :
  _wrap_in_ax25_ui ext cfg (mh ++ body) = Ok fr ->
  length mh = 16%nat ->
  frame_info fr = mh ++ body /\ frame_body fr = body /\
  len fr = 32 + len body.
Proof.
  intros Hw Hmh. destruct (wrap_in_ax25_ui_inv _ _ _ _ Hw) as (pre & Hpre & ->).
  unfold frame_body, frame_info, slice_from, len.
  rewrite drop_app_length' by (symmetry; exact Hpre).
  rewrite drop_app_length' by (symmetry; exact Hmh).
  rewrite !length_app, Hpre, Hmh. repeat split; lia.
Qed.

(** What [_build_data_payload] returns when it returns: a header that
    parses to the fields it was built from, then destination, sequence
    number and the payload as carried. *)
Lemma build_data_payload_inv ext cfg (entropy dest : bytes) (sn : Z) (payload mp : bytes) :
  _build_data_payload ext cfg entropy dest sn payload = Ok mp ->
  let compressed := zlib_compress ext payload in
  let shorter := len compressed <? len payload in
  let carried := if shorter then compressed else payload in
  exists fl mh rem,
    mp = mh ++ dest ++ be32_bytes sn ++ rem /\
    length mh = 16%nat /\
    0 <= sn < 2 ^ 32 /\
    (forall rest, _parse_mesh_header (mh ++ rest) =
       Ok (Header MESH_VERSION MESH_MSG_DATA fl (ogm_ttl (routing_config cfg))
             (_node_id cfg) sn)) /\
    flag_set fl MESH_FLAG_COMPRESSED = shorter /\
    flag_set fl MESH_FLAG_ENCRYPTED = encryption_enabled (encryptor ext) /\
    if encryption_enabled (encryptor ext) then
      exists nonce ct,
        encrypt (encryptor ext) entropy carried (_node_id cfg ++ dest ++ be32_bytes sn)
          = Ok (nonce, ct) /\
        rem = nonce ++ ct
    else rem = carried.
Proof.
  intros Hb compressed shorter carried.
  unfold _build_data_payload in Hb. fold compressed in Hb.
  subst shorter carried.
  assert (Hparse : forall fl mh,
            _build_mesh_header MESH_MSG_DATA fl (ogm_ttl (routing_config cfg))
              (_node_id cfg) sn = Ok mh ->
            length mh = 16%nat /\ 0 <= sn < 2 ^ 32 /\
            forall rest, _parse_mesh_header (mh ++ rest) =
              Ok (Header MESH_VERSION MESH_MSG_DATA fl (ogm_ttl (routing_config cfg))
                    (_node_id cfg) sn)).
  { intros fl mh Hmh.
    destruct (build_mesh_header_inv _ _ _ _ _ _ Hmh) as (Ht & Hf & Httl & Hsn).
    split; [|split; [exact Hsn|]];
      apply (build_mesh_header_parses MESH_MSG_DATA fl (ogm_ttl (routing_config cfg))
               (_node_id cfg) sn mh); try assumption; apply derive_node_id_length. }
  destruct (len compressed <? len payload) eqn:Hsh; cbv beta iota zeta in Hb;
    (destruct (pack_be32 sn) as [seq_be|] eqn:Hpk; [|discriminate Hb]);
    destruct (encryption_enabled (encryptor ext)) eqn:Hen.
  all: try (destruct (encrypt _ _ _ _) as [[nonce ct]|e] eqn:He; [|discriminate Hb]).
  all: destruct (_build_mesh_header _ _ _ _ _) as [mh|e] eqn:Hmh; [|discriminate Hb].
  all: injection Hb as <-; destruct (Hparse _ _ Hmh) as (Hlen & Hsn & Hp).
  all: rewrite (pack_be32_in_range _ Hsn) in Hpk; injection Hpk as <-.
  all: eexists _, mh, _; split; [reflexivity|].
  all: split; [exact Hlen|]; split; [exact Hsn|]; split; [exact Hp|].
  all: split; [reflexivity|]; split; [reflexivity|]; eauto.
Qed.

(** What a successful [send_application_data] has done. *)
Lemma send_application_data_inv ext cfg (entropy dest payload : bytes) (s s' : MeshNode) :
  send_application_data ext cfg entropy dest payload s = (Ok tt, s') ->
  let sn := (_seqno s + 1) mod 2 ^ 32 in
  exists mp fr,
    length dest = 8%nat /\
    _build_data_payload ext cfg entropy dest sn payload = Ok mp /\
    _wrap_in_ax25_ui ext cfg mp = Ok fr /\
    tx_queue s' = tx_queue s ++ [fr] /\ _seqno s' = sn /\
    delivered s' = delivered s /\ kiss_running s = true.
Proof.
  intros H sn.
  assert (Hland : Z.land (_seqno s + 1) 4294967295 = sn).
  { change 4294967295 with (Z.ones 32). rewrite Z.land_ones by lia. reflexivity. }
  destruct s as [rs sq ds kr tq dl lg hd ac]. cbn [_seqno] in *.
  revert H. exec_node.
  all: intros H; try discriminate H.
  rewrite Hland in *. injection H; intros; subst.
  match goal with H : (len dest =? 8) = true |- _ => apply Z.eqb_eq in H; unfold len in H end.
  eexists _, _. cbn. repeat split; try eassumption; try reflexivity. lia.
Qed.

End BuildFacts.

Section RoundTripFacts.

(** A DATA payload built at one node, as the body another node decodes:
    destination, sequence number and decoded payload. *)
Lemma built_body_decodes extB (fl : Z) (o dest : bytes) (sn : Z)
    (rem carried payload : bytes) (enc short : bool) :
  length dest = 8%nat -> 0 <= sn < 2 ^ 32 ->
  flag_set fl MESH_FLAG_COMPRESSED = short ->
  flag_set fl MESH_FLAG_ENCRYPTED = enc ->
  (if enc then
     exists nonce ct,
       rem = nonce ++ ct /\ length nonce = 12%nat /\ ct <> [] /\
       decrypt (encryptor extB) nonce ct (o ++ dest ++ be32_bytes sn) = Ok carried
   else rem = carried) ->
  (if short then zlib_decompress extB carried = Some payload else carried = payload) ->
  let body := dest ++ be32_bytes sn ++ rem in
  12 <= len body /\ body_dest_id body = dest /\
  unpack_be32 (slice 8 12 body) = Ok sn /\
  decode_steps extB fl o body = Some payload.
Proof.
  intros Hdest Hsn Hshort Henc Hrem Hz body.
  assert (Hrest : body_remainder body = rem).
  { apply slice_from_12_app; [exact Hdest | reflexivity]. }
  assert (Haad : body_associated_data o body = o ++ dest ++ be32_bytes sn).
  { unfold body_associated_data, body. rewrite app_assoc.
    rewrite slice_0_12_app by (rewrite length_app, Hdest; reflexivity).
    reflexivity. }
  split. { unfold body, len. rewrite !length_app, Hdest. cbn [length be32_bytes]. lia. }
  split. { apply slice_0_8_app. exact Hdest. }
  split. { unfold body. rewrite slice_8_12_app by (exact Hdest || reflexivity).
           apply unpack_be32_bytes. exact Hsn. }
  unfold decode_steps, decrypt_step. rewrite Henc, Hshort.
  unfold body_nonce, body_ciphertext. rewrite Hrest, Haad.
  destruct enc.
  - destruct Hrem as (nonce & ct & -> & Hn & Hct & Hdec).
    assert (Hlen : (len (nonce ++ ct) <? 13) = false).
    { apply Z.ltb_ge. unfold len. rewrite length_app, Hn.
      destruct ct; [contradiction|]. cbn [length]. lia. }
    rewrite Hlen. rewrite slice_0_12_app by exact Hn.
    unfold slice_from. rewrite drop_app_length' by (symmetry; exact Hn).
    rewrite Hdec. destruct short; [exact Hz | rewrite Hz; reflexivity].
  - subst rem. destruct short; [exact Hz | rewrite Hz; reflexivity].
Qed.

End RoundTripFacts.

(** X7.  End to end: what one node sends with [send_application_data],
    the addressed node delivers.  When the send returns, one frame has
    been enqueued; a node whose ID is the destination and that has not
    seen the key yet invokes its callback once on that frame, with the
    sender's node ID, the sequence number the sender allocated and the
    payload as sent, and forwards nothing.  The receiver's [zlib] and
    [decrypt] are assumed to invert the sender's on what was carried. *)
Theorem X7_send_receive_roundtrip extA cfgA extB cfgB cb
    (entropy payload : bytes) (now : Q) (sA sA' sB : MeshNode) :
  let dest := _node_id cfgB in
  let sn := (_seqno sA + 1) mod 2 ^ 32 in
  let compressed := zlib_compress extA payload in
  let carried := if len compressed <? len payload then compressed else payload in
  let aad := _node_id cfgA ++ dest ++ be32_bytes sn in
  send_application_data extA cfgA entropy dest payload sA = (Ok tt, sA') ->
  (len compressed < len payload -> zlib_decompress extB compressed = Some payload) ->
  (forall nonce ct,
     encrypt (encryptor extA) entropy carried aad = Ok (nonce, ct) ->
     length nonce = 12%nat /\ ct <> [] /\
     decrypt (encryptor extB) nonce ct aad = Ok carried) ->
  app_data_callback extB = Some cb ->
  _data_seen sB !! (_node_id cfgA, sn) = None ->
  exists fr,
    tx_queue sA' = tx_queue sA ++ [fr] /\
    let sB' := snd (_handle_rx_frame extB cfgB now fr sB) in
    delivered sB' = delivered sB ++ [(_node_id cfgA, dest, sn, payload)] /\
    tx_queue sB' = tx_queue sB.
Proof.
  intros dest sn compressed carried aad Hsend Hz Hcrypt Hcb Hfresh.
  destruct (send_application_data_inv _ _ _ _ _ _ _ Hsend)
    as (mp & fr & Hdest & Hbuild & Hwrap & Htx & _).
  fold sn in Hbuild.
  destruct (build_data_payload_inv _ _ _ _ _ _ _ Hbuild)
    as (fl & mh & rem & -> & Hmh & Hsn & Hparse & Hsh & Hen & Hrem).
  fold compressed in Hsh, Hrem. fold carried in Hrem. fold aad in Hrem.
  exists fr. split; [exact Htx|].
  destruct (wrapped_frame_fields _ _ _ _ _ Hwrap Hmh) as (Hinfo & Hbody & Hlen).
  destruct (built_body_decodes extB fl (_node_id cfgA) dest sn rem carried payload
              (encryption_enabled (encryptor extA)) (len compressed <? len payload)
              Hdest Hsn Hsh Hen) as (Hb12 & Hd & Hun & Hdecode).
  { destruct (encryption_enabled (encryptor extA)); [|exact Hrem].
    destruct Hrem as (nonce & ct & He & ->).
    destruct (Hcrypt nonce ct He) as (Hn & Hct & Hdec). eauto 10. }
  { subst carried. destruct (Z.ltb_spec (len compressed) (len payload));
      [apply Hz; assumption | reflexivity]. }
  set (h := Header MESH_VERSION MESH_MSG_DATA fl (ogm_ttl (routing_config cfgA))
              (_node_id cfgA) sn).
  assert (Hframe : data_frame fr h).
  { split; [|reflexivity]. split; [lia|]. split; [|reflexivity].
    rewrite Hinfo. apply Hparse. }
  cbn zeta.
  destruct (handle_rx_frame_fields extB cfgB now fr sB) as (-> & -> & _).
  rewrite (on_kiss_frame_data extB cfgB now fr h sB Hframe). rewrite Hbody.
  cbn [h h_origin_id h_seqno h_ttl h_flags].
  destruct (handle_data_local extB cfgB now (_node_id cfgA) sn
              (ogm_ttl (routing_config cfgA)) fl _ payload sB Hfresh Hb12 Hd Hdecode)
    as (n & s' & Hn & -> & Hdel & _ & Htq & _).
  rewrite Hun in Hn. injection Hn as <-.
  rewrite Hcb, Hd in Hdel. cbn [snd]. split; assumption.
Qed.

(** X7 between nodes [AAAAAAAA] and [BBBBBBBB], with encryption on. *)
Lemma X7_send_receive_roundtrip_witness :
  let sA' := snd (send_application_data Bench.toy_ext Bench.cfg_A [x07]
                    (Bench.ascii_bytes "BBBBBBBB") (Bench.ascii_bytes "hi") fresh_node) in
  exists fr,
    tx_queue sA' = [] ++ [fr] /\
    let sB' := snd (_handle_rx_frame Bench.toy_ext Bench.cfg_B 0 fr fresh_node) in
    delivered sB' =
      [] ++ [(Bench.ascii_bytes "AAAAAAAA", Bench.ascii_bytes "BBBBBBBB", 1,
              Bench.ascii_bytes "hi")] /\
    tx_queue sB' = [].
Proof.
  intros sA'.
  apply (X7_send_receive_roundtrip Bench.toy_ext Bench.cfg_A Bench.toy_ext Bench.cfg_B
           Bench.quiet_callback [x07] (Bench.ascii_bytes "hi") 0 fresh_node sA' fresh_node).
  - vm_compute. reflexivity.
  - intros _. vm_compute. reflexivity.
  - intros nonce ct H. vm_compute in H. injection H as <- <-.
    split; [reflexivity|]. split; [discriminate|]. vm_compute. reflexivity.
  - reflexivity.
  - vm_compute. reflexivity.
Defined.

Section OgmFacts.

Lemma bytes_of_int_inv (m : Z) (mb : bytes) :
  bytes_of_int m = Ok mb -> mb = [byte_of_Z m] /\ 0 <= m < 256.
Proof.
  unfold bytes_of_int. destruct (in_byte_range m) eqn:E; [|discriminate].
  intros [= <-]. split; [reflexivity | apply in_byte_range_inv; exact E].
Qed.

(** The body of an OGM, as [_on_kiss_frame] slices it. *)
Lemma ogm_body_fields (p : bytes) (m : Z) :
  length p = 8%nat -> 0 <= m < 256 ->
  let body := p ++ [byte_of_Z m] in
  len body = 9 /\ slice 0 8 body = p /\ getitem 8 body = m.
Proof.
  intros Hp Hm body. split; [|split].
  - unfold body, len. rewrite length_app, Hp. reflexivity.
  - apply slice_0_8_app. exact Hp.
  - unfold getitem, body. rewrite lookup_app_r by lia. rewrite Hp. cbn.
    apply Z_of_byte_of_Z. exact Hm.
Qed.

(** [_handle_ogm] always writes the neighbor entry of the previous hop. *)
Lemma handle_ogm_neighbors ext cfg now o sn ttl prev lm s :
  neighbors (_routing_state (snd (_handle_ogm ext cfg now o sn ttl prev lm s))) =
  <[prev := {| nei_last_seen := now; link_metric := lm |}]> (neighbors (_routing_state s)).
Proof.
  destruct s as [[orig nei] sq ds kr tq dl lg hd ac].
  exec_node. all: reflexivity.
Qed.

(** What [_handle_ogm] enqueues, exactly: for a TTL above one, the header
    rebuilt with the TTL lowered by one, then this node's ID as previous
    hop and the link metric as received. *)
Lemma handle_ogm_tx_exact ext cfg now o sn ttl prev lm s :
  let s' := snd (_handle_ogm ext cfg now o sn ttl prev lm s) in
  tx_queue s' = tx_queue s \/
  (1 < ttl /\
   exists mh fr,
     _build_mesh_header MESH_MSG_OGM 0 (ttl - 1) o sn = Ok mh /\
     0 <= lm < 256 /\
     _wrap_in_ax25_ui ext cfg (mh ++ _node_id cfg ++ [byte_of_Z lm]) = Ok fr /\
     tx_queue s' = tx_queue s ++ [fr]).
Proof.
  destruct s as [[orig nei] sq ds kr tq dl lg hd ac].
  exec_node.
  all: first
    [ left; reflexivity
    | right; split;
      [ match goal with H : (_ >? 1) = true |- _ => apply Z.gtb_lt in H; lia end
      | match goal with H : bytes_of_int _ = Ok _ |- _ =>
          apply bytes_of_int_inv in H; destruct H as [-> ?] end;
        eauto 10 ] ].
Qed.

(** What a successful OGM iteration has done. *)
Lemma ogm_loop_iteration_inv ext cfg (s s' : MeshNode) :
  _ogm_loop_iteration ext cfg s = (Ok tt, s') ->
  let sn := (_seqno s + 1) mod 2 ^ 32 in
  exists mh fr,
    _build_mesh_header MESH_MSG_OGM 0 (ogm_ttl (routing_config cfg)) (_node_id cfg) sn
      = Ok mh /\
    _wrap_in_ax25_ui ext cfg (mh ++ _node_id cfg ++ [byte_of_Z 255]) = Ok fr /\
    tx_queue s' = tx_queue s ++ [fr] /\ _seqno s' = sn /\ kiss_running s = true.
Proof.
  intros H sn.
  assert (Hland : Z.land (_seqno s + 1) 4294967295 = sn).
  { change 4294967295 with (Z.ones 32). rewrite Z.land_ones by lia. reflexivity. }
  destruct s as [rs sq ds kr tq dl lg hd ac]. cbn [_seqno] in *.
  revert H. exec_node.
  all: intros H; try discriminate H.
  rewrite Hland in *. injection H; intros; subst.
  match goal with H : bytes_of_int _ = Ok _ |- _ =>
    apply bytes_of_int_inv in H; destruct H as [-> ?] end.
  eexists _, _. cbn. repeat split; try eassumption; reflexivity.
Qed.

(** An OGM payload wrapped at one node, seen from the receiving side. *)
Lemma wrapped_ogm_frame ext cfg (ttl : Z) (o : bytes) (sn : Z) (p : bytes) (m : Z)
    (mh fr : bytes) :
  _build_mesh_header MESH_MSG_OGM 0 ttl o sn = Ok mh ->
  length o = 8%nat -> length p = 8%nat -> 0 <= m < 256 ->
  _wrap_in_ax25_ui ext cfg (mh ++ p ++ [byte_of_Z m]) = Ok fr ->
  ogm_frame fr (Header MESH_VERSION MESH_MSG_OGM 0 ttl o sn) /\
  len (frame_body fr) = 9 /\
  slice 0 8 (frame_body fr) = p /\ getitem 8 (frame_body fr) = m.
Proof.
  intros Hmh Ho Hp Hm Hw.
  destruct (build_mesh_header_inv _ _ _ _ _ _ Hmh) as (Ht & Hf & Httl & Hsn).
  destruct (build_mesh_header_parses _ _ _ _ _ _ Ht Hf Httl Ho Hsn Hmh) as (Hlen & Hparse).
  destruct (wrapped_frame_fields _ _ _ _ _ Hw Hlen) as (Hinfo & Hbody & Hfr).
  destruct (ogm_body_fields p m Hp Hm) as (Hb9 & Hprev & Hmet).
  rewrite Hbody. repeat split; try assumption; try reflexivity.
  - lia.
  - rewrite Hinfo. apply Hparse.
Qed.

(** The tables of a node after an OGM frame with a body of nine bytes. *)
Lemma rx_ogm_tables ext cfg now frame h s :
  ogm_frame frame h -> 9 <= len (frame_body frame) ->
  let prev := slice 0 8 (frame_body frame) in
  let lm := getitem 8 (frame_body frame) in
  let s' := snd (_handle_rx_frame ext cfg now frame s) in
  neighbors (_routing_state s') =
    <[prev := {| nei_last_seen := now; link_metric := lm |}]> (neighbors (_routing_state s)) /\
  originators (_routing_state s') =
    let fresh := {| best_next_hop := prev; last_seqno := h_seqno h; metric := lm;
                    last_seen := now |} in
    match originators (_routing_state s) !! h_origin_id h with
    | None => <[h_origin_id h := fresh]> (originators (_routing_state s))
    | Some entry =>
        if h_seqno h >? last_seqno entry
        then <[h_origin_id h := fresh]> (originators (_routing_state s))
        else originators (_routing_state s)
    end.
Proof.
  intros Hogm Hlen prev lm s'. subst s'.
  destruct (handle_rx_frame_fields ext cfg now frame s) as (_ & _ & _ & -> & _).
  rewrite (on_kiss_frame_ogm ext cfg now frame h s Hogm).
  destruct (Z.ltb_spec (len (frame_body frame)) 9); [lia|].
  split; [apply handle_ogm_neighbors | apply handle_ogm_originators].
Qed.

End OgmFacts.

(** X8.  An announcement is learned: the frame one iteration of the OGM
    loop enqueues makes every node that receives it record the sender as
    a neighbor with link metric 255 and, unless it already holds an
    entry for the sender with a sequence number at least as high, as an
    originator reached through the sender itself. *)
Theorem X8_ogm_announce_learned extA cfgA extB cfgB (now : Q) (sA sA' sB : MeshNode) :
  let idA := _node_id cfgA in
  let sn := (_seqno sA + 1) mod 2 ^ 32 in
  _ogm_loop_iteration extA cfgA sA = (Ok tt, sA') ->
  exists fr,
    tx_queue sA' = tx_queue sA ++ [fr] /\
    let sB' := snd (_handle_rx_frame extB cfgB now fr sB) in
    neighbors (_routing_state sB') !! idA
      = Some {| nei_last_seen := now; link_metric := 255 |} /\
    ((forall e, originators (_routing_state sB) !! idA = Some e -> last_seqno e < sn) ->
     originators (_routing_state sB') !! idA
       = Some {| best_next_hop := idA; last_seqno := sn; metric := 255;
                 last_seen := now |}).
Proof.
  intros idA sn Hit.
  destruct (ogm_loop_iteration_inv _ _ _ _ Hit) as (mh & fr & Hmh & Hw & Htx & _).
  fold sn in Hmh. fold idA in Hmh, Hw.
  exists fr. split; [exact Htx|].
  destruct (wrapped_ogm_frame extA cfgA _ idA sn idA 255 mh fr Hmh)
    as (Hogm & Hlen & Hprev & Hlm);
    try apply derive_node_id_length; [lia | exact Hw |].
  destruct (rx_ogm_tables extB cfgB now fr _ sB Hogm) as (Hnei & Horig); [lia|].
  cbn zeta in *. rewrite Hnei, Horig, Hprev, Hlm. cbn [h_origin_id h_seqno].
  split; [apply lookup_insert_eq|].
  intros Hnew. destruct (originators (_routing_state sB) !! idA) as [e|] eqn:He.
  - specialize (Hnew e eq_refl).
    destruct (Z.gtb_spec sn (last_seqno e)); [apply lookup_insert_eq | lia].
  - apply lookup_insert_eq.
Qed.

(** X8 between nodes [AAAAAAAA] and [BBBBBBBB]. *)
Lemma X8_ogm_announce_learned_witness :
  let idA := Bench.ascii_bytes "AAAAAAAA" in
  let sA' := snd (_ogm_loop_iteration Bench.plain_ext Bench.cfg_A fresh_node) in
  exists fr,
    tx_queue sA' = [] ++ [fr] /\
    let sB' := snd (_handle_rx_frame Bench.plain_ext Bench.cfg_B 3 fr fresh_node) in
    neighbors (_routing_state sB') !! idA
      = Some {| nei_last_seen := 3; link_metric := 255 |} /\
    ((forall e, (∅ : gmap bytes OriginatorEntry) !! idA = Some e -> last_seqno e < 1) ->
     originators (_routing_state sB') !! idA
       = Some {| best_next_hop := idA; last_seqno := 1; metric := 255; last_seen := 3 |}).
Proof.
  intros idA sA'.
  apply (X8_ogm_announce_learned Bench.plain_ext Bench.cfg_A Bench.plain_ext Bench.cfg_B
           3 fresh_node sA' fresh_node).
  vm_compute. reflexivity.
Defined.

Section RelayFacts.

Lemma app_singleton_inv {A} (l : list A) (x y : A) : l ++ [x] = l ++ [y] -> x = y.
Proof. intros H. apply app_inv_head in H. congruence. Qed.

Lemma app_singleton_neq {A} (l : list A) (x : A) : l <> l ++ [x].
Proof.
  intros H. apply (f_equal (@length A)) in H. rewrite length_app in H. cbn in H. lia.
Qed.

(** The TTL plays no part in the handling of a DATA frame addressed to
    this node. *)
Lemma handle_data_ttl_irrelevant ext cfg now o sn ttl ttl' fl body s :
  body_dest_id body = _node_id cfg ->
  _handle_data_frame ext cfg now o sn ttl fl body s =
  _handle_data_frame ext cfg now o sn ttl' fl body s.
Proof.
  intros Hdest. unfold body_dest_id in Hdest.
  destruct s as [rs sq ds kr tq dl lg hd ac].
  exec_node. all: try reflexivity. all: contradiction.
Qed.

(** The frame a node enqueues on a DATA frame, seen from the receiving
    side: the header differs in the TTL only, the body is the same. *)
Lemma rx_data_relayed ext cfg now frame h fr s :
  data_frame frame h ->
  tx_queue (snd (_handle_rx_frame ext cfg now frame s)) = tx_queue s ++ [fr] ->
  1 < h_ttl h /\
  data_frame fr (Header MESH_VERSION MESH_MSG_DATA (h_flags h) (h_ttl h - 1)
                   (h_origin_id h) (h_seqno h)) /\
  frame_body fr = frame_body frame.
Proof.
  intros Hd Htx.
  destruct (handle_rx_frame_fields ext cfg now frame s) as (Hq & _).
  cbn zeta in Hq. rewrite Hq in Htx. clear Hq.
  rewrite (on_kiss_frame_data ext cfg now frame h s Hd) in Htx.
  destruct (handle_data_tx ext cfg now (h_origin_id h) (h_seqno h) (h_ttl h) (h_flags h)
              (frame_body frame) s) as [Hsame|(Hgt & mh & fr0 & Hmh & Hw & Hq)].
  { cbn zeta in Hsame. rewrite Hsame in Htx. exfalso. exact (app_singleton_neq _ _ Htx). }
  cbn zeta in Hq. rewrite Hq in Htx. apply app_singleton_inv in Htx. subst fr0.
  destruct Hd as [(_ & Hp & _) _].
  destruct (parse_mesh_header_inv _ _ Hp) as (_ & _ & _ & _ & _ & Ho & _).
  destruct (build_mesh_header_inv _ _ _ _ _ _ Hmh) as (Ht & Hf & Httl & Hsn).
  destruct (build_mesh_header_parses _ _ _ _ _ _ Ht Hf Httl Ho Hsn Hmh) as (Hlen & Hparse).
  destruct (wrapped_frame_fields _ _ _ _ _ Hw Hlen) as (Hinfo & Hbody & Hfr).
  split; [exact Hgt|]. split; [|exact Hbody].
  split; [|reflexivity]. split; [|split; [|reflexivity]].
  - unfold len in *. lia.
  - rewrite Hinfo. apply Hparse.
Qed.

(** The frame a node enqueues on an OGM frame, seen from the receiving
    side: TTL lowered by one, the node as previous hop, the metric as
    received. *)
Lemma rx_ogm_relayed ext cfg now frame h fr s :
  ogm_frame frame h ->
  tx_queue (snd (_handle_rx_frame ext cfg now frame s)) = tx_queue s ++ [fr] ->
  1 < h_ttl h /\
  ogm_frame fr (Header MESH_VERSION MESH_MSG_OGM 0 (h_ttl h - 1)
                  (h_origin_id h) (h_seqno h)) /\
  len (frame_body fr) = 9 /\
  slice 0 8 (frame_body fr) = _node_id cfg /\
  getitem 8 (frame_body fr) = getitem 8 (frame_body frame).
Proof.
  intros Hogm Htx.
  destruct (handle_rx_frame_fields ext cfg now frame s) as (Hq & _).
  cbn zeta in Hq. rewrite Hq in Htx. clear Hq.
  rewrite (on_kiss_frame_ogm ext cfg now frame h s Hogm) in Htx.
  destruct (len (frame_body frame) <? 9).
  { exfalso. exact (app_singleton_neq _ _ Htx). }
  destruct (handle_ogm_tx_exact ext cfg now (h_origin_id h) (h_seqno h) (h_ttl h)
              (slice 0 8 (frame_body frame)) (getitem 8 (frame_body frame)) s)
    as [Hsame|(Hgt & mh & fr0 & Hmh & Hlm & Hw & Hq)].
  { cbn zeta in Hsame. rewrite Hsame in Htx. exfalso. exact (app_singleton_neq _ _ Htx). }
  cbn zeta in Hq. rewrite Hq in Htx. apply app_singleton_inv in Htx. subst fr0.
  destruct Hogm as [(_ & Hp & _) _].
  destruct (parse_mesh_header_inv _ _ Hp) as (_ & _ & _ & _ & _ & Ho & _).
  split; [exact Hgt|].
  apply (wrapped_ogm_frame ext cfg _ _ _ _ _ mh fr Hmh Ho (derive_node_id_length _) Hlm Hw).
Qed.

End RelayFacts.

(** X9.  Relaying is transparent for the destination: the frame a node
    enqueues in response to a DATA frame is handled by the node it is
    addressed to exactly as the original frame would be, in result and
    in state, whatever the payload holds. *)
Theorem X9_relayed_data_handled_alike extB cfgB extC cfgC (now now' : Q)
    (frame fr : bytes) (h : header) (sB sC : MeshNode) :
  data_frame frame h ->
  tx_queue (snd (_handle_rx_frame extB cfgB now frame sB)) = tx_queue sB ++ [fr] ->
  body_dest_id (frame_body frame) = _node_id cfgC ->
  _handle_rx_frame extC cfgC now' fr sC = _handle_rx_frame extC cfgC now' frame sC.
Proof.
  intros Hd Htx Hdest.
  destruct (rx_data_relayed extB cfgB now frame h fr sB Hd Htx) as (_ & Hd' & Hbody).
  unfold _handle_rx_frame, try_except.
  rewrite (on_kiss_frame_data extC cfgC now' frame h sC Hd).
  rewrite (on_kiss_frame_data extC cfgC now' fr _ sC Hd').
  cbn [h_origin_id h_seqno h_ttl h_flags]. rewrite Hbody.
  rewrite (handle_data_ttl_irrelevant extC cfgC now' (h_origin_id h) (h_seqno h)
             (h_ttl h - 1) (h_ttl h) (h_flags h) (frame_body frame) sC Hdest).
  reflexivity.
Qed.

(** X9 for a frame from [AAAAAAAA] to [CCCCCCCC] relayed by [BBBBBBBB]. *)
Lemma X9_relayed_data_handled_alike_witness :
  let frame := Bench.data_frame_of x00 x05 x01 "CCCCCCCC" (Bench.ascii_bytes "hi") in
  let fr := Bench.ax25_prefix_B ++ [x01; x00; x00; x04] ++ Bench.ascii_bytes "AAAAAAAA"
              ++ [x00; x00; x00; x01] ++ Bench.ascii_bytes "CCCCCCCC"
              ++ [x00; x00; x00; x01] ++ Bench.ascii_bytes "hi" in
  _handle_rx_frame Bench.plain_ext Bench.cfg_C 9 fr fresh_node
  = _handle_rx_frame Bench.plain_ext Bench.cfg_C 9 frame fresh_node.
Proof.
  intros frame fr.
  apply (X9_relayed_data_handled_alike Bench.plain_ext Bench.cfg_B Bench.plain_ext
           Bench.cfg_C 0 9 frame fr (Header 1 0 0 5 (Bench.ascii_bytes "AAAAAAAA") 1)
           Bench.node_with_route fresh_node).
  - repeat split; vm_compute; reflexivity.
  - vm_compute. reflexivity.
  - reflexivity.
Defined.

(** X10.  A relayed OGM names the relay: the frame a node enqueues in
    response to an OGM makes its receivers record the relaying node as a
    neighbor, with the link metric of the original frame, and, unless
    they hold a sequence number at least as high, as the next hop to
    the originator. *)
Theorem X10_relayed_ogm_names_relay extB cfgB extC cfgC (now now' : Q)
    (frame fr : bytes) (h : header) (sB sC : MeshNode) :
  ogm_frame frame h ->
  tx_queue (snd (_handle_rx_frame extB cfgB now frame sB)) = tx_queue sB ++ [fr] ->
  let idB := _node_id cfgB in
  let lm := getitem 8 (frame_body frame) in
  let sC' := snd (_handle_rx_frame extC cfgC now' fr sC) in
  neighbors (_routing_state sC') !! idB
    = Some {| nei_last_seen := now'; link_metric := lm |} /\
  ((forall e, originators (_routing_state sC) !! h_origin_id h = Some e ->
              last_seqno e < h_seqno h) ->
   originators (_routing_state sC') !! h_origin_id h
     = Some {| best_next_hop := idB; last_seqno := h_seqno h; metric := lm;
               last_seen := now' |}).
Proof.
  intros Hogm Htx idB lm sC'.
  destruct (rx_ogm_relayed extB cfgB now frame h fr sB Hogm Htx)
    as (_ & Hogm' & Hlen & Hprev & Hlm).
  destruct (rx_ogm_tables extC cfgC now' fr _ sC Hogm') as (Hnei & Horig); [lia|].
  subst sC'. cbn zeta in *. rewrite Hnei, Horig, Hprev, Hlm. cbn [h_origin_id h_seqno].
  split; [apply lookup_insert_eq|].
  intros Hnew.
  destruct (originators (_routing_state sC) !! h_origin_id h) as [e|] eqn:He.
  - specialize (Hnew e eq_refl).
    destruct (Z.gtb_spec (h_seqno h) (last_seqno e)); [apply lookup_insert_eq | lia].
  - apply lookup_insert_eq.
Qed.

(** X10 for an OGM of [AAAAAAAA] relayed by [BBBBBBBB] and heard by
    [CCCCCCCC]. *)
Lemma X10_relayed_ogm_names_relay_witness :
  let fr := Bench.ax25_prefix_B ++ [x01; x01; x00; x04] ++ Bench.ascii_bytes "AAAAAAAA"
              ++ [x00; x00; x00; x09] ++ Bench.ascii_bytes "BBBBBBBB" ++ [xff] in
  let sC' := snd (_handle_rx_frame Bench.plain_ext Bench.cfg_C 4 fr fresh_node) in
  neighbors (_routing_state sC') !! Bench.ascii_bytes "BBBBBBBB"
    = Some {| nei_last_seen := 4; link_metric := 255 |} /\
  ((forall e, (∅ : gmap bytes OriginatorEntry) !! Bench.ascii_bytes "AAAAAAAA" = Some e ->
              last_seqno e < 9) ->
   originators (_routing_state sC') !! Bench.ascii_bytes "AAAAAAAA"
     = Some {| best_next_hop := Bench.ascii_bytes "BBBBBBBB"; last_seqno := 9;
               metric := 255; last_seen := 4 |}).
Proof.
  intros fr.
  apply (X10_relayed_ogm_names_relay Bench.plain_ext Bench.cfg_B Bench.plain_ext
           Bench.cfg_C 0 4 (Bench.ogm_frame_of x05 x09 xff) fr
           (Header 1 1 0 5 (Bench.ascii_bytes "AAAAAAAA") 9) fresh_node fresh_node).
  - repeat split; vm_compute; reflexivity.
  - vm_compute. reflexivity.
Defined.

Section EvictionFacts.

Lemma lookup_fold_delete_none {K V} `{Countable K} (keys : list K) (m : gmap K V) (k : K) :
  m !! k = None -> fold_left (fun m k => delete k m) keys m !! k = None.
Proof.
  revert m. induction keys as [|k' keys IH]; intros m Hk; cbn [fold_left]; [exact Hk|].
  apply IH. destruct (decide (k' = k)) as [->|Hne].
  - apply lookup_delete_eq.
  - rewrite lookup_delete_ne by exact Hne. exact Hk.
Qed.

Lemma lookup_fold_delete_in {K V} `{Countable K} (keys : list K) (m : gmap K V) (k : K) :
  In k keys -> fold_left (fun m k => delete k m) keys m !! k = None.
Proof.
  revert m. induction keys as [|k' keys IH]; intros m Hin; cbn [fold_left]; [destruct Hin|].
  destruct (decide (k' = k)) as [->|Hne].
  - apply lookup_fold_delete_none. apply lookup_delete_eq.
  - apply IH. destruct Hin as [Heq|Hin]; [contradiction | exact Hin].
Qed.

Lemma dead_keys_in {K V} `{Countable K} (expired : V -> bool) (d : gmap K V) (k : K) (v : V) :
  d !! k = Some v -> expired v = true -> In k (dead_keys expired d).
Proof.
  intros Hk Hexp. unfold dead_keys. apply in_map_iff. exists (k, v). split; [reflexivity|].
  apply filter_In. split; [|exact Hexp].
  apply list_elem_of_In. apply elem_of_map_to_list. exact Hk.
Qed.

(** Deleting the keys a cleanup comprehension collects leaves exactly the
    entries that have not expired. *)
Lemma lookup_evict {K V} `{Countable K} (expired : V -> bool) (d : gmap K V) (k : K) :
  fold_left (fun m k => delete k m) (dead_keys expired d) d !! k =
  match d !! k with
  | Some v => if expired v then None else Some v
  | None => None
  end.
Proof.
  destruct (d !! k) as [v|] eqn:Hk.
  - destruct (expired v) eqn:Hexp.
    + apply lookup_fold_delete_in. eapply dead_keys_in; eassumption.
    + rewrite lookup_fold_delete; [exact Hk|].
      intros Hin. apply in_dead_keys in Hin as (v' & Hv' & Hx). congruence.
  - apply lookup_fold_delete_none. exact Hk.
Qed.

(** An entry the exact comparison keeps or evicts. *)
Lemma evicted_by_age_intro {V} (age : V -> Q) (expiry : Q) (before : option V) :
  evicted_by_age age expiry before
    match before with
    | Some v => if Qgtb (age v) expiry then None else Some v
    | None => None
    end.
Proof.
  destruct before as [v|]; [|reflexivity]. cbn [evicted_by_age].
  unfold Qgtb, beyond. destruct (Qle_bool (age v) expiry) eqn:E; cbn [negb].
  - apply Qle_bool_iff in E. split; [auto|]. split; [auto|].
    intros [H0 H]. exfalso. nra.
  - split; [auto|]. split; [|auto].
    intros H. apply Qle_bool_iff in H. congruence.
Qed.

(** The three tables after one cleanup iteration. *)
Lemma cleanup_loop_iteration_tables cfg (now : Q) (s : MeshNode) :
  let dead_o := fun e => Qgtb (now - last_seen e) (route_expiry_seconds (routing_config cfg)) in
  let dead_n :=
    fun e => Qgtb (now - nei_last_seen e) (neighbor_expiry_seconds (routing_config cfg)) in
  let dead_d := fun ts => Qgtb (now - ts) (data_seen_expiry_seconds (routing_config cfg)) in
  exists s',
  _cleanup_loop_iteration cfg now s = (Ok tt, s') /\
  originators (_routing_state s') =
    fold_left (fun m k => delete k m)
      (dead_keys dead_o (originators (_routing_state s))) (originators (_routing_state s)) /\
  neighbors (_routing_state s') =
    fold_left (fun m k => delete k m)
      (dead_keys dead_n (neighbors (_routing_state s))) (neighbors (_routing_state s)) /\
  _data_seen s' =
    fold_left (fun m k => delete k m) (dead_keys dead_d (_data_seen s)) (_data_seen s).
Proof.
  cbv zeta. unfold _cleanup_loop_iteration.
  set (P1 := fun s : MeshNode => originators (_routing_state s)).
  set (P2 := fun s : MeshNode => neighbors (_routing_state s)).
  set (upd_o := fun key : bytes => set_routing_state (set_originators (delete key))).
  set (upd_n := fun key : bytes => set_routing_state (set_neighbors (delete key))).
  set (upd_d := fun key : bytes * Z => set_data_seen (delete key)).
  cbn zeta. unfold bind at 1. unfold touch at 1. unfold modify at 1.
  unfold bind at 1. unfold get at 1.
  unfold bind at 1. rewrite (for_each_mutate_spec res_originators upd_o).
  match goal with |- context [@fold_left MeshNode _ ?f ?keys ?s0] =>
    set (s2 := fold_left f keys s0);
    pose proof (fold_mutate_proj P1 res_originators upd_o (fun k a => delete k a) keys s0
                  (fun _ _ => eq_refl) (fun _ _ => eq_refl)) as H21;
    pose proof (fold_mutate_proj P2 res_originators upd_o (fun _ a => a) keys s0
                  (fun _ _ => eq_refl) (fun _ _ => eq_refl)) as H22;
    pose proof (fold_mutate_proj _data_seen res_originators upd_o (fun _ a => a) keys s0
                  (fun _ _ => eq_refl) (fun _ _ => eq_refl)) as H23;
    rewrite fold_left_const in H22; rewrite fold_left_const in H23;
    fold s2 in H21, H22, H23
  end.
  unfold bind at 1. unfold touch at 1. unfold modify at 1.
  unfold bind at 1. unfold get at 1.
  unfold bind at 1. rewrite (for_each_mutate_spec res_neighbors upd_n).
  match goal with |- context [@fold_left MeshNode _ ?f ?keys ?s0] =>
    set (s4 := fold_left f keys s0);
    pose proof (fold_mutate_proj P1 res_neighbors upd_n (fun _ a => a) keys s0
                  (fun _ _ => eq_refl) (fun _ _ => eq_refl)) as H41;
    pose proof (fold_mutate_proj P2 res_neighbors upd_n (fun k a => delete k a) keys s0
                  (fun _ _ => eq_refl) (fun _ _ => eq_refl)) as H42;
    pose proof (fold_mutate_proj _data_seen res_neighbors upd_n (fun _ a => a) keys s0
                  (fun _ _ => eq_refl) (fun _ _ => eq_refl)) as H43;
    rewrite fold_left_const in H41; rewrite fold_left_const in H43;
    fold s4 in H41, H42, H43
  end.
  unfold bind at 1. unfold touch at 1. unfold modify at 1.
  unfold bind at 1. unfold get at 1.
  unfold with_lock. rewrite (for_each_mutate_spec res_data_seen upd_d).
  match goal with |- context [@fold_left MeshNode _ ?f ?keys ?s0] =>
    set (s6 := fold_left f keys s0);
    pose proof (fold_mutate_proj P1 res_data_seen upd_d (fun _ a => a) keys s0
                  (fun _ _ => eq_refl) (fun _ _ => eq_refl)) as H61;
    pose proof (fold_mutate_proj P2 res_data_seen upd_d (fun _ a => a) keys s0
                  (fun _ _ => eq_refl) (fun _ _ => eq_refl)) as H62;
    pose proof (fold_mutate_proj _data_seen res_data_seen upd_d (fun k a => delete k a)
                  keys s0 (fun _ _ => eq_refl) (fun _ _ => eq_refl)) as H63;
    rewrite fold_left_const in H61; rewrite fold_left_const in H62;
    fold s6 in H61, H62, H63
  end.
  eexists; split; [reflexivity|].
  subst P1 P2.
  destruct s6 as [[o6 n6] sq6 ds6 kr6 tq6 dl6 lg6 hd6 ac6]; cbn in *.
  destruct s4 as [[o4 n4] sq4 ds4 kr4 tq4 dl4 lg4 hd4 ac4]; cbn in *.
  destruct s2 as [[o2 n2] sq2 ds2 kr2 tq2 dl2 lg2 hd2 ac2]; cbn in *.
  destruct s as [[o n] sq ds kr tq dl lg hd ac]; cbn in *.
  subst. repeat split; reflexivity.
Qed.

End EvictionFacts.

(** X11.  One cleanup iteration evicts what has expired and nothing
    else.  An originator, a neighbor or a dedup key whose age, the time
    since its timestamp, is at most the configured expiry is kept with
    its entry untouched (an age equal to the expiry is kept); one whose
    age is beyond the expiry, by more than the rounding of the float
    subtraction, is gone afterwards; no entry is changed or added. *)
Theorem X11_cleanup_evicts_expired cfg (now : Q) (s : MeshNode) :
  let s' := snd (_cleanup_loop_iteration cfg now s) in
  let rc := routing_config cfg in
  (forall k, evicted_by_age (fun e => now - last_seen e)%Q (route_expiry_seconds rc)
               (originators (_routing_state s) !! k)
               (originators (_routing_state s') !! k)) /\
  (forall k, evicted_by_age (fun e => now - nei_last_seen e)%Q (neighbor_expiry_seconds rc)
               (neighbors (_routing_state s) !! k)
               (neighbors (_routing_state s') !! k)) /\
  (forall k, evicted_by_age (fun ts => now - ts)%Q (data_seen_expiry_seconds rc)
               (_data_seen s !! k) (_data_seen s' !! k)).
Proof.
  intros s' rc. subst s' rc.
  destruct (cleanup_loop_iteration_tables cfg now s) as (s' & Hrun & Ho & Hn & Hd).
  rewrite Hrun. cbn [snd]. rewrite Ho, Hn, Hd.
  repeat split; intros k; rewrite lookup_evict; apply evicted_by_age_intro.
Qed.

(** X11 at node [BBBBBBBB], expiry 30 s, at time 40: the key cached at
    time 0 is evicted, the one cached at time 10 is kept. *)
Lemma X11_cleanup_evicts_expired_witness :
  let s := set_data_seen (insert (Bench.ascii_bytes "CCCCCCCC", 7) 10%Q)
             Bench.node_with_seen_key in
  let s' := snd (_cleanup_loop_iteration Bench.cfg_B 40 s) in
  _data_seen s' !! (Bench.ascii_bytes "AAAAAAAA", 1) = None /\
  _data_seen s' !! (Bench.ascii_bytes "CCCCCCCC", 7) = Some 10%Q.
Proof.
  intros s s'.
  destruct (X11_cleanup_evicts_expired Bench.cfg_B 40 s) as (_ & _ & H).
  split.
  - destruct (H (Bench.ascii_bytes "AAAAAAAA", 1)) as (_ & _ & Hgone).
    apply Hgone. split; vm_compute; [discriminate|reflexivity].
  - destruct (H (Bench.ascii_bytes "CCCCCCCC", 7)) as (_ & Hkept & _).
    apply Hkept. vm_compute. discriminate.
Defined.

(** X12.  Every OGM with a body of nine bytes or more refreshes the
    neighbor entry of its previous hop, with the time of arrival and the
    link metric it carries, whatever its sequence number and TTL; no
    other neighbor entry changes. *)
Theorem X12_every_ogm_refreshes_neighbor ext cfg (now : Q) (frame : bytes) (h : header)
    (s : MeshNode) :
  ogm_frame frame h -> 9 <= len (frame_body frame) ->
  let prev := slice 0 8 (frame_body frame) in
  let lm := getitem 8 (frame_body frame) in
  neighbors (_routing_state (snd (_handle_rx_frame ext cfg now frame s))) =
  <[prev := {| nei_last_seen := now; link_metric := lm |}]> (neighbors (_routing_state s)).
Proof.
  intros Hogm Hlen prev lm.
  destruct (rx_ogm_tables ext cfg now frame h s Hogm Hlen) as (Hnei & _). exact Hnei.
Qed.

(** X12 for an OGM of [AAAAAAAA] relayed by [CCCCCCCC], with TTL 1. *)
Lemma X12_every_ogm_refreshes_neighbor_witness :
  neighbors (_routing_state
    (snd (_handle_rx_frame Bench.plain_ext Bench.cfg_B 8
            (Bench.ogm_frame_of x01 x09 x80) fresh_node))) =
  <[Bench.ascii_bytes "CCCCCCCC" := {| nei_last_seen := 8; link_metric := 128 |}]> ∅.
Proof.
  apply (X12_every_ogm_refreshes_neighbor Bench.plain_ext Bench.cfg_B 8
           (Bench.ogm_frame_of x01 x09 x80)
           (Header 1 1 0 1 (Bench.ascii_bytes "AAAAAAAA") 9) fresh_node).
  - repeat split; vm_compute; reflexivity.
  - vm_compute. discriminate.
Defined.

Section DropFacts.

Context (ext : Externals) (cfg : MeshNodeConfig).

Lemma Qgtb_true (a b : Q) : (b < a)%Q -> Qgtb a b = true.
Proof.
  intros H. unfold Qgtb. destruct (Qle_bool a b) eqn:E; [|reflexivity].
  apply Qle_bool_iff in E. lra.
Qed.

Lemma beyond_lt (age expiry : Q) : beyond age expiry -> (expiry < age)%Q.
Proof. unfold beyond. intros [H0 H]. nra. Qed.

(** A DATA frame for another node to which no route is known. *)
Lemma handle_data_no_route now o sn ttl fl body s :
  body_dest_id body <> _node_id cfg ->
  originators (_routing_state s) !! body_dest_id body = None ->
  let s' := snd (_handle_data_frame ext cfg now o sn ttl fl body s) in
  tx_queue s' = tx_queue s /\ delivered s' = delivered s.
Proof.
  intros Hdest Hroute. unfold body_dest_id in *.
  destruct s as [[orig nei] sq ds kr tq dl lg hd ac].
  cbn [_routing_state originators] in Hroute.
  exec_node. all: try (split; reflexivity). all: try contradiction. all: congruence.
Qed.

End DropFacts.

(** X13.  The dedup expiry takes effect through the cleanup loop only.
    A DATA frame addressed to this node whose key was cached longer ago
    than [data_seen_expiry_seconds] is still dropped as a duplicate as
    long as no cleanup iteration has run, however old the key; once an
    iteration has run at a time when the age of the key was beyond the
    expiry (by more than the rounding of the float subtraction), the
    same frame is delivered again and its key is cached anew. *)
Theorem X13_expired_key_delivered_again ext cfg cb (now1 now2 ts : Q) (frame : bytes)
    (h : header) (p : bytes) (s : MeshNode) :
  data_frame frame h ->
  _data_seen s !! (h_origin_id h, h_seqno h) = Some ts ->
  beyond (now1 - ts) (data_seen_expiry_seconds (routing_config cfg)) ->
  12 <= len (frame_body frame) ->
  body_dest_id (frame_body frame) = _node_id cfg ->
  decode_steps ext (h_flags h) (h_origin_id h) (frame_body frame) = Some p ->
  app_data_callback ext = Some cb ->
  delivered (step ext cfg s (RxFrame now2 frame)) = delivered s /\
  let s1 := step ext cfg s (CleanupTick now1) in
  let s2 := step ext cfg s1 (RxFrame now2 frame) in
  exists n,
    unpack_be32 (slice 8 12 (frame_body frame)) = Ok n /\
    delivered s2 = delivered s ++ [(h_origin_id h, _node_id cfg, n, p)] /\
    _data_seen s2 !! (h_origin_id h, h_seqno h) = Some now2.
Proof.
  intros Hd Hk Hexp Hlen Hdest Hdec Hcb. split.
  { destruct (rx_data_duplicate ext cfg now2 frame h ts s Hd Hk) as (H & _). exact H. }
  cbn [step].
  destruct (cleanup_loop_iteration_tables cfg now1 s) as (s1 & Hrun & _ & _ & Hseen).
  destruct (cleanup_loop_iteration_spec cfg now1 s) as (s1' & Hrun' & Hdel & _).
  rewrite Hrun in Hrun'. injection Hrun' as <-.
  rewrite Hrun. cbn [snd]. cbn zeta.
  assert (Hgone : _data_seen s1 !! (h_origin_id h, h_seqno h) = None).
  { rewrite Hseen, lookup_evict, Hk.
    rewrite Qgtb_true by (apply beyond_lt; exact Hexp). reflexivity. }
  destruct (handle_rx_frame_fields ext cfg now2 frame s1) as (_ & -> & -> & _).
  rewrite (on_kiss_frame_data ext cfg now2 frame h s1 Hd).
  destruct (handle_data_local ext cfg now2 (h_origin_id h) (h_seqno h) (h_ttl h)
              (h_flags h) (frame_body frame) p s1 Hgone Hlen Hdest Hdec)
    as (n & s2 & Hn & -> & Hdel2 & _ & _ & Hseen2 & _).
  exists n. split; [exact Hn|]. cbn [snd].
  rewrite Hdel2, Hcb, Hdest, Hdel, Hseen2. split; [reflexivity|].
  apply lookup_insert_eq.
Qed.

(** X13 at node [BBBBBBBB] with the default expiry of 30 s: key cached
    at 0, cleanup at 31, frame at 40. *)
Lemma X13_expired_key_delivered_again_witness :
  let frame := Bench.data_frame_of x00 x05 x01 "BBBBBBBB" (Bench.ascii_bytes "hi") in
  let s := Bench.node_with_seen_key in
  delivered (step Bench.plain_ext Bench.cfg_B s (RxFrame 40 frame)) = [] /\
  let s1 := step Bench.plain_ext Bench.cfg_B s (CleanupTick 31) in
  let s2 := step Bench.plain_ext Bench.cfg_B s1 (RxFrame 40 frame) in
  exists n,
    unpack_be32 (slice 8 12 (frame_body frame)) = Ok n /\
    delivered s2 = [] ++ [(Bench.ascii_bytes "AAAAAAAA", Bench.ascii_bytes "BBBBBBBB", n,
                           Bench.ascii_bytes "hi")] /\
    _data_seen s2 !! (Bench.ascii_bytes "AAAAAAAA", 1) = Some 40%Q.
Proof.
  intros frame s.
  apply (X13_expired_key_delivered_again Bench.plain_ext Bench.cfg_B Bench.quiet_callback
           31 40 0 frame (Header 1 0 0 5 (Bench.ascii_bytes "AAAAAAAA") 1)
           (Bench.ascii_bytes "hi") s).
  - repeat split; vm_compute; reflexivity.
  - vm_compute. reflexivity.
  - split; vm_compute; [discriminate|reflexivity].
  - vm_compute. discriminate.
  - reflexivity.
  - reflexivity.
  - reflexivity.
Defined.

(** X14.  Without a route there is no forwarding: a DATA frame for
    another node for whose ID the originator table holds no entry is
    neither enqueued nor delivered, whatever its TTL and payload. *)
Theorem X14_no_route_no_forward ext cfg (now : Q) (frame : bytes) (h : header)
    (s : MeshNode) :
  data_frame frame h ->
  body_dest_id (frame_body frame) <> _node_id cfg ->
  originators (_routing_state s) !! body_dest_id (frame_body frame) = None ->
  let s' := snd (_handle_rx_frame ext cfg now frame s) in
  tx_queue s' = tx_queue s /\ delivered s' = delivered s.
Proof.
  intros Hd Hdest Hroute. cbn zeta.
  destruct (handle_rx_frame_fields ext cfg now frame s) as (-> & -> & _).
  rewrite (on_kiss_frame_data ext cfg now frame h s Hd).
  apply handle_data_no_route; assumption.
Qed.

(** X14 at node [BBBBBBBB], which knows no route to [CCCCCCCC]. *)
Lemma X14_no_route_no_forward_witness :
  let s' := snd (_handle_rx_frame Bench.plain_ext Bench.cfg_B 0
                   (Bench.data_frame_of x00 x05 x01 "CCCCCCCC" (Bench.ascii_bytes "hi"))
                   fresh_node) in
  tx_queue s' = [] /\ delivered s' = [].
Proof.
  apply (X14_no_route_no_forward Bench.plain_ext Bench.cfg_B 0
           (Bench.data_frame_of x00 x05 x01 "CCCCCCCC" (Bench.ascii_bytes "hi"))
           (Header 1 0 0 5 (Bench.ascii_bytes "AAAAAAAA") 1) fresh_node).
  - repeat split; vm_compute; reflexivity.
  - vm_compute. discriminate.
  - vm_compute. reflexivity.
Defined.

(** X15.  The TTL does not gate local delivery: a fresh DATA frame
    addressed to this node whose payload decodes is handed to the
    callback once (or, when no callback is registered, logged at INFO
    level) and is not forwarded, for every TTL, zero included. *)
Theorem X15_local_delivery_ignores_ttl ext cfg (now : Q) (frame : bytes) (h : header)
    (p : bytes) (s : MeshNode) :
  data_frame frame h ->
  _data_seen s !! (h_origin_id h, h_seqno h) = None ->
  12 <= len (frame_body frame) ->
  body_dest_id (frame_body frame) = _node_id cfg ->
  decode_steps ext (h_flags h) (h_origin_id h) (frame_body frame) = Some p ->
  let s' := snd (_handle_rx_frame ext cfg now frame s) in
  exists n,
    unpack_be32 (slice 8 12 (frame_body frame)) = Ok n /\
    tx_queue s' = tx_queue s /\
    match app_data_callback ext with
    | Some _ => delivered s' = delivered s ++ [(h_origin_id h, _node_id cfg, n, p)]
    | None =>
        delivered s' = delivered s /\
        log s' = log s ++ [(INFO, "DATA delivered from origin %s seq %d: %r"%string)]
    end.
Proof.
  intros Hd Hk Hlen Hdest Hdec. cbn zeta.
  destruct (handle_data_local ext cfg now (h_origin_id h) (h_seqno h) (h_ttl h)
              (h_flags h) (frame_body frame) p s Hk Hlen Hdest Hdec)
    as (n & s' & Hn & Hrun & Hdel & Hlog & Htx & _).
  exists n. split; [exact Hn|].
  destruct (handle_rx_frame_fields ext cfg now frame s) as (-> & -> & _).
  rewrite (on_kiss_frame_data ext cfg now frame h s Hd), Hrun. cbn [snd].
  split; [exact Htx|].
  destruct (app_data_callback ext) as [cb|] eqn:Hcb.
  - rewrite Hdel, Hdest. reflexivity.
  - rewrite app_nil_r in Hdel. split; [exact Hdel|].
    unfold _handle_rx_frame, try_except.
    rewrite (on_kiss_frame_data ext cfg now frame h s Hd), Hrun. cbn [snd]. exact Hlog.
Qed.

(** X15 at node [BBBBBBBB] for a frame with TTL 0. *)
Lemma X15_local_delivery_ignores_ttl_witness :
  let frame := Bench.data_frame_of x00 x00 x01 "BBBBBBBB" (Bench.ascii_bytes "hi") in
  let s' := snd (_handle_rx_frame Bench.plain_ext Bench.cfg_B 0 frame fresh_node) in
  exists n,
    unpack_be32 (slice 8 12 (frame_body frame)) = Ok n /\
    tx_queue s' = [] /\
    delivered s' = [] ++ [(Bench.ascii_bytes "AAAAAAAA", Bench.ascii_bytes "BBBBBBBB", n,
                           Bench.ascii_bytes "hi")].
Proof.
  intros frame.
  apply (X15_local_delivery_ignores_ttl Bench.plain_ext Bench.cfg_B 0 frame
           (Header 1 0 0 0 (Bench.ascii_bytes "AAAAAAAA") 1) (Bench.ascii_bytes "hi")
           fresh_node).
  - repeat split; vm_compute; reflexivity.
  - vm_compute. reflexivity.
  - vm_compute. discriminate.
  - reflexivity.
  - reflexivity.
Defined.

(** X16.  A frame with a valid version-1 header is ignored, the node
    being left exactly as it was, when its message type is neither DATA
    nor OGM, and when it is an OGM whose body has fewer than nine
    bytes. *)
Theorem X16_unknown_type_or_short_ogm_ignored ext cfg (now : Q) (frame : bytes)
    (h : header) (s : MeshNode) :
  dispatched frame h ->
  (h_msg_type h <> MESH_MSG_DATA /\ h_msg_type h <> MESH_MSG_OGM) \/
  (h_msg_type h = MESH_MSG_OGM /\ len (frame_body frame) < 9) ->
  _handle_rx_frame ext cfg now frame s = (Ok tt, s).
Proof.
  intros (Hlen & Hp & Hv) Hcase.
  assert (Hk : _on_kiss_frame ext cfg now frame s = (Ok tt, s)).
  { destruct Hcase as [[Hnd Hno]|[Ho Hshort]].
    - unfold _on_kiss_frame, _find_info_start.
      destruct (Z.leb_spec (len frame) 16); [lia|].
      unfold frame_info in Hp. unfold_monad. rewrite Hp, Hv. cbn [negb Z.eqb MESH_VERSION Pos.eqb].
      destruct (Z.eqb_spec (h_msg_type h) MESH_MSG_OGM); [contradiction|].
      destruct (Z.eqb_spec (h_msg_type h) MESH_MSG_DATA); [contradiction|]. reflexivity.
    - rewrite (on_kiss_frame_ogm ext cfg now frame h s); [|repeat split; assumption].
      destruct (Z.ltb_spec (len (frame_body frame)) 9); [reflexivity | lia]. }
  unfold _handle_rx_frame, try_except. rewrite Hk. reflexivity.
Qed.

(** X16 on a frame of message type 7 and on an OGM with an empty body. *)
Lemma X16_unknown_type_or_short_ogm_ignored_witness :
  _handle_rx_frame Bench.plain_ext Bench.cfg_B 0
    (Bench.ax25_prefix ++ [x01; x07; x00; x05] ++ replicate 20 x00) fresh_node
  = (Ok tt, fresh_node) /\
  _handle_rx_frame Bench.plain_ext Bench.cfg_B 0
    (Bench.ax25_prefix ++ [x01; x01; x00; x05] ++ replicate 12 x00) fresh_node
  = (Ok tt, fresh_node).
Proof.
  split.
  - apply (X16_unknown_type_or_short_ogm_ignored Bench.plain_ext Bench.cfg_B 0 _
             (Header 1 7 0 5 (replicate 8 x00) 0)).
    + repeat split; vm_compute; reflexivity.
    + left. split; vm_compute; discriminate.
  - apply (X16_unknown_type_or_short_ogm_ignored Bench.plain_ext Bench.cfg_B 0 _
             (Header 1 1 0 5 (replicate 8 x00) 0)).
    + repeat split; vm_compute; reflexivity.
    + right. split; vm_compute; reflexivity.
Defined.

Section AddressFacts.

Lemma shifted_ascii_even (b : byte) :
  Z_of_byte b < 128 -> Z_of_byte (byte_of_Z (Z.shiftl (Z_of_byte b) 1)) mod 2 = 0.
Proof.
  intros H. rewrite Z_of_byte_of_Z.
  - rewrite Z.shiftl_mul_pow2 by lia. change (2 ^ 1) with 2.
    apply Z_mod_mult.
  - rewrite Z.shiftl_mul_pow2 by lia. change (2 ^ 1) with 2.
    pose proof (Z_of_byte_range b). lia.
Qed.

Lemma byte_of_ascii_ascii (c : ascii) : is_ascii c = true -> Z_of_byte (byte_of_ascii c) < 128.
Proof.
  destruct c as [[] [] [] [] [] [] [] []]; vm_compute; congruence.
Qed.

Lemma ssid_field_value (v : Z) (last : bool) :
  let field := Z.lor 96 (Z.shiftl (Z.land v 15) 1) in
  (if last then Z.lor field 1 else field) = 96 + 2 * (v mod 16) + (if last then 1 else 0).
Proof.
  cbv zeta. change 15 with (Z.ones 4). rewrite Z.land_ones by lia. change (2 ^ 4) with 16.
  pose proof (Z.mod_pos_bound v 16 ltac:(lia)) as Hx.
  set (x := v mod 16) in *.
  assert (Hc : x = 0 \/ x = 1 \/ x = 2 \/ x = 3 \/ x = 4 \/ x = 5 \/ x = 6 \/ x = 7 \/
               x = 8 \/ x = 9 \/ x = 10 \/ x = 11 \/ x = 12 \/ x = 13 \/ x = 14 \/ x = 15)
    by lia.
  destruct last;
    repeat (destruct Hc as [->|Hc]; [reflexivity|]); subst x; rewrite Hc; reflexivity.
Qed.

End AddressFacts.

(** X17.  The layout of an encoded AX.25 address: six call bytes, each
    with its low bit (the address extension bit) clear, followed by one
    SSID byte whose value is [0x60 + 2 * ssid + last] for an SSID
    between 0 and 15; so the extension bit is set in the last byte of
    the source address and nowhere else. *)
Theorem X17_ax25_address_layout (int : string -> option Z) (callsign : string)
    (last : bool) (a : bytes) :
  _encode_ax25_address int callsign last = Ok a ->
  exists (call : bytes) (ssid_byte : byte) (ssid : Z),
    a = call ++ [ssid_byte] /\
    length call = 6%nat /\
    Forall (fun b => Z_of_byte b mod 2 = 0) call /\
    0 <= ssid < 16 /\
    Z_of_byte ssid_byte = 96 + 2 * ssid + (if last then 1 else 0).
Proof.
  unfold _encode_ax25_address.
  destruct (match split_dash (list_ascii_of_string callsign) with
            | Some (base, ssid_str) => _ | None => _ end) as [base ssid_value].
  unfold encode_ascii.
  destruct (forallb is_ascii (take 6 (upper base))) eqn:E; [|discriminate].
  intros [= <-].
  eexists _, _, (ssid_value mod 16). split; [reflexivity|].
  split.
  { rewrite length_map, length_ljust; [reflexivity|]. rewrite length_map, length_take. lia. }
  split.
  { apply Forall_map. unfold ljust. apply Forall_app. split.
    - apply Forall_map. apply Forall_forall. intros c Hc. cbn.
      apply shifted_ascii_even. apply byte_of_ascii_ascii.
      rewrite forallb_forall in E. apply E. apply list_elem_of_In. exact Hc.
    - apply Forall_replicate. vm_compute. reflexivity. }
  split; [apply Z.mod_pos_bound; lia|].
  pose proof (ssid_field_value ssid_value last) as Hf. cbv zeta in Hf. rewrite Hf.
  pose proof (Z.mod_pos_bound ssid_value 16 ltac:(lia)).
  apply Z_of_byte_of_Z. destruct last; lia.
Qed.

(** X17 on the source address [kd9yqk-7]. *)
Lemma X17_ax25_address_layout_witness :
  exists (call : bytes) (ssid_byte : byte) (ssid : Z),
    [x96; x88; x72; xb2; xa2; x96; x6f] = call ++ [ssid_byte] /\
    length call = 6%nat /\
    Forall (fun b => Z_of_byte b mod 2 = 0) call /\
    0 <= ssid < 16 /\
    Z_of_byte ssid_byte = 96 + 2 * ssid + 1.
Proof.
  apply (X17_ax25_address_layout Bench.int_decimal "kd9yqk-7" true). reflexivity.
Defined.

Section SilentFacts.

Context (ext : Externals) (cfg : MeshNodeConfig).

Lemma encode_ax25_address_raises int (callsign : string) (last : bool) (e : exn) :
  _encode_ax25_address int callsign last = Raise e -> e = UnicodeEncodeError.
Proof.
  unfold _encode_ax25_address.
  destruct (match split_dash (list_ascii_of_string callsign) with
            | Some (base, ssid_str) => _ | None => _ end) as [base ssid_value].
  unfold encode_ascii. destruct (forallb is_ascii (take 6 (upper base))); [discriminate|].
  intros [= <-]. reflexivity.
Qed.

(** Whether a payload can be wrapped does not depend on the payload. *)
Lemma wrap_raises_any (p : bytes) :
  (exists e, _encode_ax25_address (py_int ext) (mesh_dest_callsign cfg) false = Raise e) \/
  (exists e, _encode_ax25_address (py_int ext) (callsign cfg) true = Raise e) ->
  _wrap_in_ax25_ui ext cfg p = Raise UnicodeEncodeError.
Proof.
  unfold _wrap_in_ax25_ui. intros [[e He]|[e He]].
  - rewrite He. apply encode_ax25_address_raises in He. subst e. reflexivity.
  - rewrite He. apply encode_ax25_address_raises in He. subst e.
    destruct (_encode_ax25_address _ (mesh_dest_callsign cfg) false) as [d|e'] eqn:Hd;
      [reflexivity|].
    apply encode_ax25_address_raises in Hd. subst e'. reflexivity.
Qed.

Hypothesis Hbad :
  (exists e, _encode_ax25_address (py_int ext) (mesh_dest_callsign cfg) false = Raise e) \/
  (exists e, _encode_ax25_address (py_int ext) (callsign cfg) true = Raise e).

Lemma not_wrapped (p fr : bytes) : _wrap_in_ax25_ui ext cfg p = Ok fr -> False.
Proof. rewrite (wrap_raises_any p Hbad). discriminate. Qed.

Lemma step_silent (ev : event) (s : MeshNode) : tx_queue (step ext cfg s ev) = tx_queue s.
Proof.
  destruct ev as [now frame|now| |entropy dest payload]; cbn [step].
  - destruct (handle_rx_frame_fields ext cfg now frame s) as (-> & _).
    destruct (on_kiss_frame_cases ext cfg now frame s) as [->|[(h & _ & _ & ->)|(h & _ & ->)]].
    + reflexivity.
    + destruct (handle_ogm_tx ext cfg now (h_origin_id h) (h_seqno h) (h_ttl h)
                  (slice 0 8 (frame_body frame)) (getitem 8 (frame_body frame)) s)
        as [H|(_ & mh & rest & fr & _ & Hw & _)]; [exact H|].
      destruct (not_wrapped _ _ Hw).
    + destruct (handle_data_tx ext cfg now (h_origin_id h) (h_seqno h) (h_ttl h) (h_flags h)
                  (frame_body frame) s) as [H|(_ & mh & fr & _ & Hw & _)]; [exact H|].
      destruct (not_wrapped _ _ Hw).
  - destruct (cleanup_loop_iteration_spec cfg now s) as (s' & -> & _ & H & _). exact H.
  - destruct s as [rs sq ds kr tq dl lg hd ac]. exec_node. all: try reflexivity.
    all: exfalso; eapply not_wrapped; eassumption.
  - destruct s as [rs sq ds kr tq dl lg hd ac]. exec_node. all: try reflexivity.
    all: exfalso; eapply not_wrapped; eassumption.
Qed.

Lemma run_silent (evs : list event) (s : MeshNode) : tx_queue (run ext cfg s evs) = tx_queue s.
Proof.
  revert s. induction evs as [|ev evs IH]; intros s; cbn [run fold_left]; [reflexivity|].
  fold (run ext cfg (step ext cfg s ev) evs). rewrite IH. apply step_silent.
Qed.

Lemma ogm_loop_iteration_raises (s : MeshNode) :
  exists e s', _ogm_loop_iteration ext cfg s = (Raise e, s') /\
               _seqno s' = (_seqno s + 1) mod 2 ^ 32.
Proof.
  assert (Hland : Z.land (_seqno s + 1) 4294967295 = (_seqno s + 1) mod 2 ^ 32).
  { change 4294967295 with (Z.ones 32). rewrite Z.land_ones by lia. reflexivity. }
  destruct s as [rs sq ds kr tq dl lg hd ac]. cbn [_seqno] in *.
  exec_node.
  all: try (exfalso; eapply not_wrapped; eassumption).
  all: eexists _, _; split; [reflexivity | exact Hland].
Qed.

End SilentFacts.

(** X18.  A node whose callsign or mesh destination callsign cannot be
    encoded as an AX.25 address (a non-ASCII character among the first
    six of its upper-cased base) never transmits: no sequence of
    received frames, cleanup and OGM iterations and application sends
    enqueues a frame, and every iteration of the OGM loop raises, after
    it has consumed a sequence number. *)
Theorem X18_unencodable_callsign_silences_node ext cfg :
  (exists e, _encode_ax25_address (py_int ext) (mesh_dest_callsign cfg) false = Raise e) \/
  (exists e, _encode_ax25_address (py_int ext) (callsign cfg) true = Raise e) ->
  (forall p, _wrap_in_ax25_ui ext cfg p = Raise UnicodeEncodeError) /\
  (forall s evs, tx_queue (run ext cfg s evs) = tx_queue s) /\
  (forall s, exists e s', _ogm_loop_iteration ext cfg s = (Raise e, s') /\
                          _seqno s' = (_seqno s + 1) mod 2 ^ 32).
Proof.
  intros Hbad. split; [|split].
  - intros p. apply wrap_raises_any. exact Hbad.
  - intros s evs. apply run_silent. exact Hbad.
  - intros s. apply ogm_loop_iteration_raises. exact Hbad.
Qed.

(** X18 for a callsign that starts with e acute. *)
Lemma X18_unencodable_callsign_silences_node_witness :
  (forall p, _wrap_in_ax25_ui Bench.plain_ext Bench.cfg_accent p = Raise UnicodeEncodeError) /\
  (forall s evs, tx_queue (run Bench.plain_ext Bench.cfg_accent s evs) = tx_queue s) /\
  (forall s, exists e s',
     _ogm_loop_iteration Bench.plain_ext Bench.cfg_accent s = (Raise e, s') /\
     _seqno s' = (_seqno s + 1) mod 2 ^ 32).
Proof.
  apply (X18_unencodable_callsign_silences_node Bench.plain_ext Bench.cfg_accent).
  right. exists UnicodeEncodeError. reflexivity.
Defined.

Section CounterFacts.

Context (ext : Externals) (cfg : MeshNodeConfig).

Lemma land_mask_mod (z : Z) : Z.land z 4294967295 = z mod 2 ^ 32.
Proof. change 4294967295 with (Z.ones 32). rewrite Z.land_ones by lia. reflexivity. Qed.

Lemma step_seqno (ev : event) (s : MeshNode) :
  _seqno (step ext cfg s ev) =
  if consumes_seqno ev then (_seqno s + 1) mod 2 ^ 32 else _seqno s.
Proof.
  destruct ev as [now frame|now| |entropy dest payload]; cbn [step consumes_seqno].
  - destruct (handle_rx_frame_fields ext cfg now frame s) as (_ & _ & _ & _ & _ & _ & -> & _).
    destruct (on_kiss_frame_cases ext cfg now frame s) as [->|[(h & _ & _ & ->)|(h & _ & ->)]].
    + reflexivity.
    + destruct (handle_ogm_frame ext cfg now (h_origin_id h) (h_seqno h) (h_ttl h)
                  (slice 0 8 (frame_body frame)) (getitem 8 (frame_body frame)) s)
        as (_ & _ & _ & H & _). exact H.
    + destruct (_data_seen s !! (h_origin_id h, h_seqno h)) as [ts|] eqn:Hk.
      * destruct (handle_data_duplicate ext cfg now (h_origin_id h) (h_seqno h) (h_ttl h)
                    (h_flags h) (frame_body frame) ts s Hk)
          as (s' & -> & _ & _ & _ & _ & _ & _ & H & _). exact H.
      * destruct (handle_data_fresh ext cfg now (h_origin_id h) (h_seqno h) (h_ttl h)
                    (h_flags h) (frame_body frame) s Hk) as (_ & _ & _ & H & _). exact H.
  - destruct (cleanup_loop_iteration_spec cfg now s) as (s' & -> & _ & _ & _ & _ & H & _).
    exact H.
  - rewrite <- land_mask_mod. destruct s as [rs sq ds kr tq dl lg hd ac].
    exec_node. all: reflexivity.
  - rewrite <- land_mask_mod. destruct s as [rs sq ds kr tq dl lg hd ac].
    exec_node. all: reflexivity.
Qed.

End CounterFacts.

(** X19.  One counter numbers everything the node originates: along any
    run, the counter advances by one, modulo 2^32, for every iteration
    of the OGM loop and for every application send whose destination
    has eight bytes (also when the send fails afterwards), and it is
    never changed by a received frame, a relayed frame or a cleanup
    iteration. *)
Theorem X19_seqno_counts_originated_frames ext cfg (evs : list event) (s : MeshNode) :
  0 <= _seqno s < 2 ^ 32 ->
  _seqno (run ext cfg s evs) =
  (_seqno s + Z.of_nat (length (List.filter consumes_seqno evs))) mod 2 ^ 32.
Proof.
  revert s. induction evs as [|ev evs IH]; intros s Hs; cbn [run fold_left List.filter].
  - cbn [length]. rewrite Z.add_0_r. symmetry. apply Z.mod_small. exact Hs.
  - fold (run ext cfg (step ext cfg s ev) evs).
    pose proof (step_seqno ext cfg ev s) as Hstep.
    destruct (consumes_seqno ev).
    + rewrite IH by (rewrite Hstep; apply Z.mod_pos_bound; lia).
      rewrite Hstep. cbn [length]. rewrite Zplus_mod_idemp_l. f_equal. lia.
    + rewrite IH by (rewrite Hstep; exact Hs). rewrite Hstep. reflexivity.
Qed.

(** X19 on a run with two OGM iterations, one send, one rejected send
    and one received frame. *)
Lemma X19_seqno_counts_originated_frames_witness :
  _seqno (run Bench.plain_ext Bench.cfg_B fresh_node
            [OgmTick; RxFrame 1 (Bench.ogm_frame_of x05 x09 xff);
             AppSend [] (Bench.ascii_bytes "CCCCCCCC") (Bench.ascii_bytes "hi");
             AppSend [] (Bench.ascii_bytes "CCC") (Bench.ascii_bytes "hi");
             CleanupTick 2; OgmTick]) =
  (0 + Z.of_nat 3) mod 2 ^ 32.
Proof.
  apply (X19_seqno_counts_originated_frames Bench.plain_ext Bench.cfg_B
           [OgmTick; RxFrame 1 (Bench.ogm_frame_of x05 x09 xff);
            AppSend [] (Bench.ascii_bytes "CCCCCCCC") (Bench.ascii_bytes "hi");
            AppSend [] (Bench.ascii_bytes "CCC") (Bench.ascii_bytes "hi");
            CleanupTick 2; OgmTick] fresh_node).
  cbn. lia.
Defined.



Section LockFacts.

Context (ext : Externals) (cfg : MeshNodeConfig).



End LockFacts.



(** X21.  What a call of [send_application_data] leaves behind.  A
    destination that is not exactly eight bytes long is rejected with
    [ValueError] before anything else happens: the state is unchanged,
    no sequence number is consumed.  Any other call consumes the next
    sequence number, whether it then returns or raises.  A call that
    returns normally had a running KISS client and has enqueued exactly
    one frame: the DATA payload built for that sequence number,
    wrapped.  A call that raises has enqueued nothing.  No call
    delivers anything to the application callback. *)
Theorem X21_send_application_data_outcome ext cfg (entropy dest payload : bytes)
    (s : MeshNode) :
  let sn := (_seqno s + 1) mod 2 ^ 32 in
  let r := send_application_data ext cfg entropy dest payload s in
  (len dest <> 8 -> r = (Raise ValueError, s)) /\
  (len dest = 8 -> _seqno (snd r) = sn) /\
  (fst r = Ok tt ->
   len dest = 8 /\ kiss_running s = true /\
   exists mp fr,
     _build_data_payload ext cfg entropy dest sn payload = Ok mp /\
     _wrap_in_ax25_ui ext cfg mp = Ok fr /\
     tx_queue (snd r) = tx_queue s ++ [fr]) /\
  (forall e, fst r = Raise e -> tx_queue (snd r) = tx_queue s) /\
  delivered (snd r) = delivered s.
Proof.
  intros sn r. subst r. split.
  { intros H. unfold send_application_data.
    destruct (Z.eqb_spec (len dest) 8); [contradiction|]. reflexivity. }
  split.
  { intros Hlen. subst sn. rewrite <- land_mask_mod.
    destruct s as [rs sq ds kr tq dl lg hd ac]. cbn [_seqno].
    unfold send_application_data. rewrite Hlen. cbn [Z.eqb Pos.eqb negb].
    exec_node. all: reflexivity. }
  split.
  { intros H.
    destruct (send_application_data ext cfg entropy dest payload s) as [r s'] eqn:Hrun.
    cbn [fst] in H. subst r.
    destruct (send_application_data_inv _ _ _ _ _ _ _ Hrun)
      as (mp & fr & Hlen & Hb & Hw & Htx & _ & _ & Hr).
    split; [unfold len; lia|]. split; [exact Hr|]. exists mp, fr. auto. }
  split.
  { intros e. destruct s as [rs sq ds kr tq dl lg hd ac].
    exec_node. all: cbn [fst snd tx_queue]; intros H; try discriminate H; reflexivity. }
  destruct s as [rs sq ds kr tq dl lg hd ac].
  exec_node. all: reflexivity.
Qed.

(** X21 at node [BBBBBBBB]: a call that returns, and one with a
    destination of seven bytes. *)
Lemma X21_send_application_data_outcome_witness :
  let dest := Bench.ascii_bytes "CCCCCCCC" in
  let r := send_application_data Bench.plain_ext Bench.cfg_B [] dest
             (Bench.ascii_bytes "hi") fresh_node in
  fst r = Ok tt /\
  (exists mp fr,
     _build_data_payload Bench.plain_ext Bench.cfg_B [] dest ((0 + 1) mod 2 ^ 32)
       (Bench.ascii_bytes "hi") = Ok mp /\
     _wrap_in_ax25_ui Bench.plain_ext Bench.cfg_B mp = Ok fr /\
     tx_queue (snd r) = [] ++ [fr]) /\
  send_application_data Bench.plain_ext Bench.cfg_B [] (Bench.ascii_bytes "CCCCCCC")
    (Bench.ascii_bytes "hi") fresh_node = (Raise ValueError, fresh_node).
Proof.
  intros dest r. split; [vm_compute; reflexivity|]. split.
  - destruct (X21_send_application_data_outcome Bench.plain_ext Bench.cfg_B [] dest
                (Bench.ascii_bytes "hi") fresh_node) as (_ & _ & H & _).
    apply H. vm_compute. reflexivity.
  - destruct (X21_send_application_data_outcome Bench.plain_ext Bench.cfg_B []
                (Bench.ascii_bytes "CCCCCCC") (Bench.ascii_bytes "hi") fresh_node)
      as (H & _).
    apply H. vm_compute. discriminate.
Defined.

(** X22.  Sending while the KISS client is not running fails late: the
    payload is built and wrapped first, so [send_application_data]
    raises [KISSClientError] with nothing enqueued and nothing
    delivered, but the sequence number it allocated is spent. *)
Theorem X22_send_on_stopped_client_spends_seqno ext cfg (entropy dest payload mp fr : bytes)
    (s : MeshNode) :
  len dest = 8 ->
  kiss_running s = false ->
  _build_data_payload ext cfg entropy dest ((_seqno s + 1) mod 2 ^ 32) payload = Ok mp ->
  _wrap_in_ax25_ui ext cfg mp = Ok fr ->
  exists s',
    send_application_data ext cfg entropy dest payload s = (Raise KISSClientError, s') /\
    _seqno s' = (_seqno s + 1) mod 2 ^ 32 /\
    tx_queue s' = tx_queue s /\ delivered s' = delivered s.
Proof.
  intros Hlen Hrun Hb Hw.
  rewrite <- land_mask_mod in Hb |- *.
  destruct s as [rs sq ds kr tq dl lg hd ac]. cbn [kiss_running _seqno] in *. subst kr.
  unfold send_application_data. rewrite Hlen. cbn [Z.eqb Pos.eqb negb].
  node_eval. rewrite ?release_head. rewrite Hb. node_eval. rewrite Hw. node_eval.
  eexists. split; [reflexivity|]. repeat split; reflexivity.
Qed.

(** X22 at node [BBBBBBBB] before it is started. *)
Lemma X22_send_on_stopped_client_spends_seqno_witness :
  exists s',
    send_application_data Bench.plain_ext Bench.cfg_B [] (Bench.ascii_bytes "CCCCCCCC")
      (Bench.ascii_bytes "hi") Bench.stopped_node = (Raise KISSClientError, s') /\
    _seqno s' = (0 + 1) mod 2 ^ 32 /\ tx_queue s' = [] /\ delivered s' = [].
Proof.
  refine (X22_send_on_stopped_client_spends_seqno Bench.plain_ext Bench.cfg_B []
            (Bench.ascii_bytes "CCCCCCCC") (Bench.ascii_bytes "hi") _ _
            Bench.stopped_node _ _ _ _).
  - reflexivity.
  - reflexivity.
  - vm_compute. reflexivity.
  - vm_compute. reflexivity.
Defined.

Section ClientFacts.

Import Client.

Lemma create_kiss_iface_log_eq (c : KISSClient) :
  exists msg, _create_kiss_iface_log c = LOG INFO msg c.
Proof. unfold _create_kiss_iface_log. destruct (_transport c); eauto. Qed.

(** What [stop] does, seen from the queue: it offers its sentinel, which
    a full queue refuses. *)
Lemma stop_spec (b : bool) (c : KISSClient) :
  _config (stop b c) = _config c /\ written (stop b c) = written c /\
  slept (stop b c) = slept c /\ _running (stop b c) = false /\
  link_down (stop b c) = (if _running c then true else link_down c) /\
  exists added,
    added `sublist_of` [[]] /\ _tx_queue (stop b c) = _tx_queue c ++ added /\
    (full c = true -> added = []) /\ (_running c = false -> added = []).
Proof.
  unfold stop. destruct (_running c) eqn:Hr; cbn [negb].
  2:{ rewrite Hr. do 5 (split; [reflexivity|]). exists []. rewrite app_nil_r.
      split; [apply sublist_nil_l|]. auto. }
  assert (Hf : full (set_running false c) = full c) by (destruct c; reflexivity).
  rewrite Hf. destruct (full c) eqn:Hfull.
  - destruct c as [? ? ? [] [[]|] ? ? ? ?]; destruct b; cbn;
      do 5 (split; [reflexivity|]); exists []; rewrite app_nil_r;
      (split; [apply sublist_nil_l|]); auto.
  - destruct c as [? ? ? [] [[]|] ? ? ? ?]; destruct b; cbn;
      do 5 (split; [reflexivity|]); exists [[]];
      (split; [reflexivity|]); (split; [reflexivity|]); split; discriminate.
Qed.

(** The reconnect loop, seen from outside: when it returns, the client
    is connected or not running; it writes nothing, and the queue gains
    at most the sentinels of the calls of [stop] it met. *)
Lemma backoff_loop_spec (max_delay delay : Q) (outcomes : list try_outcome)
    (c c' : KISSClient) :
  backoff_loop max_delay delay outcomes c = Some c' ->
  _config c' = _config c /\ written c' = written c /\
  (_running c = false -> _running c' = false) /\
  (_connected c' = true \/ _running c' = false) /\
  exists added,
    added `sublist_of` sentinels outcomes /\
    _tx_queue c' = _tx_queue c ++ added /\
    (0 < tx_queue_size (_config c) -> qsize c <= tx_queue_size (_config c) ->
     qsize c' <= tx_queue_size (_config c)).
Proof.
  assert (Hexit : forall (c0 : KISSClient) (outs : list bytes),
            _running c0 && negb (_connected c0) = false ->
            _config c0 = _config c0 /\ written c0 = written c0 /\
            (_running c0 = false -> _running c0 = false) /\
            (_connected c0 = true \/ _running c0 = false) /\
            exists added,
              added `sublist_of` outs /\ _tx_queue c0 = _tx_queue c0 ++ added /\
              (0 < tx_queue_size (_config c0) -> qsize c0 <= tx_queue_size (_config c0) ->
               qsize c0 <= tx_queue_size (_config c0))).
  { intros c0 outs Hc. do 3 (split; [auto|]).
    split; [destruct (_running c0), (_connected c0); auto; discriminate|].
    exists []. rewrite app_nil_r. split; [apply sublist_nil_l|]. auto. }
  revert delay c. induction outcomes as [|o outcomes IH]; intros delay c.
  - cbn [backoff_loop]. destruct (_running c && negb (_connected c)) eqn:Hc; [discriminate|].
    intros [= <-]. apply Hexit. exact Hc.
  - destruct (create_kiss_iface_log_eq c) as [msg Hmsg].
    destruct o as [| | |b]; cbn [backoff_loop sentinels flat_map app].
    4:{ intros H. apply IH in H as (H1 & H2 & H3 & H4 & added & Ha & Hq & Hb).
        destruct (stop_spec b c) as (S1 & S2 & _ & S4 & _ & a0 & Sa & Sq & Sf & _).
        rewrite S1 in *. rewrite S2 in *.
        do 2 (split; [assumption|]). split; [intros _; apply H3; exact S4|].
        split; [exact H4|].
        exists (a0 ++ added). split; [apply (sublist_app a0 [[]]); assumption|].
        split; [rewrite Hq, Sq, app_assoc; reflexivity|].
        intros Hpos Hle. apply Hb; [exact Hpos|].
        unfold qsize in *. rewrite Sq, length_app.
        apply sublist_length in Sa. cbn in Sa.
        destruct (full c) eqn:Hfull.
        - rewrite (Sf eq_refl). cbn. lia.
        - unfold full, qsize in Hfull.
          destruct (Z.ltb_spec 0 (tx_queue_size (_config c))); [|lia].
          destruct (Z.leb_spec (tx_queue_size (_config c)) (Z.of_nat (length (_tx_queue c))));
            [discriminate|]. lia. }
    all: destruct (_running c && negb (_connected c)) eqn:Hc;
      [|intros [= <-]; apply Hexit; exact Hc].
    all: rewrite Hmsg; intros H;
      apply IH in H as (H1 & H2 & H3 & H4 & added & Ha & Hq & Hb);
      apply andb_prop in Hc as [Hr _];
      (split; [exact H1|]); (split; [exact H2|]);
      (split; [intros Hr'; congruence|]); (split; [exact H4|]);
      exists added; (split; [exact Ha|]); (split; [exact Hq|]); exact Hb.
Qed.

(** What one pass of the TX loop does to queue and history: nothing, or
    it takes the first frame off the queue and writes it or not; an
    empty frame is never written, and a client that is not running
    writes nothing. *)
Lemma tx_loop_pass_spec (outcomes : list try_outcome) (write_raises : bool)
    (c c' : KISSClient) (k : control) :
  _tx_loop_pass outcomes write_raises c = Some (k, c') ->
  _config c' = _config c /\
  (_running c = false -> _running c' = false /\ written c' = written c) /\
  (0 < tx_queue_size (_config c) -> qsize c <= tx_queue_size (_config c) ->
   qsize c' <= tx_queue_size (_config c)) /\
  ((_tx_queue c' = _tx_queue c /\ written c' = written c /\ _tx_queue c = []) \/
   (exists frame added,
      _tx_queue c ++ added = frame :: _tx_queue c' /\
      added `sublist_of` sentinels outcomes /\
      (written c' = written c \/ (written c' = written c ++ [frame] /\ frame <> [])))).
Proof.
  unfold _tx_loop_pass. destruct (_tx_queue c) as [|frame rest] eqn:Hq.
  { intros [= <- <-]. rewrite Hq. auto 10. }
  assert (Hdrop : forall c1 : KISSClient,
            _config c1 = _config c -> _running c1 = _running c ->
            written c1 = written c -> _tx_queue c1 = rest ->
            _config c1 = _config c /\
            (_running c = false -> _running c1 = false /\ written c1 = written c) /\
            (0 < tx_queue_size (_config c) -> qsize c <= tx_queue_size (_config c) ->
             qsize c1 <= tx_queue_size (_config c)) /\
            ((_tx_queue c1 = frame :: rest /\ written c1 = written c /\ frame :: rest = []) \/
             (exists frame0 added,
                (frame :: rest) ++ added = frame0 :: _tx_queue c1 /\
                added `sublist_of` sentinels outcomes /\
                (written c1 = written c \/
                 (written c1 = written c ++ [frame0] /\ frame0 <> []))))).
  { intros c1 H1 H2 H3 H4. split; [exact H1|]. split; [intros Hr; split; congruence|].
    split; [unfold qsize; rewrite H4, Hq; cbn [length]; lia|].
    right. exists frame, []. rewrite app_nil_r, H4.
    split; [reflexivity|]. split; [apply sublist_nil_l|]. left. exact H3. }
  change (_running (set_tx_queue rest c)) with (_running c).
  destruct (_running c) eqn:Hr; cbn [negb].
  2:{ intros [= <- <-]. apply Hdrop; try reflexivity. exact Hr. }
  destruct (decide (frame = [])) as [He|He].
  { intros [= <- <-]. apply Hdrop; try reflexivity. exact Hr. }
  set (c0 := set_tx_queue rest c).
  destruct (if link_down c0 then _connect_with_backoff outcomes c0 else Some c0)
    as [c1|] eqn:Hc; [|discriminate].
  assert (H1 : _config c1 = _config c /\ written c1 = written c /\
               (0 < tx_queue_size (_config c) -> qsize c <= tx_queue_size (_config c) ->
                qsize c1 <= tx_queue_size (_config c)) /\
               exists added, added `sublist_of` sentinels outcomes /\
                             _tx_queue c1 = rest ++ added).
  { assert (Hle0 : qsize c0 <= qsize c)
      by (subst c0; unfold qsize; rewrite Hq; cbn [_tx_queue set_tx_queue length]; lia).
    destruct (link_down c0).
    - apply backoff_loop_spec in Hc as (B1 & B2 & _ & _ & added & Ba & Bq & Bb).
      split; [exact B1|]. split; [exact B2|].
      split; [intros Hpos Hle; apply Bb; [exact Hpos|]; change (_config c0) with (_config c); lia|].
      exists added. split; [exact Ba|]. exact Bq.
    - injection Hc as <-. split; [reflexivity|]. split; [reflexivity|].
      split; [intros; lia|].
      exists []. rewrite app_nil_r. split; [apply sublist_nil_l|]. reflexivity. }
  destruct H1 as (Hcfg & Hw1 & Hb1 & added & Ha & Hq1).
  assert (Hfin : forall c2 : KISSClient,
            _config c2 = _config c1 -> _tx_queue c2 = _tx_queue c1 ->
            (written c2 = written c1 \/ written c2 = written c1 ++ [frame]) ->
            _config c2 = _config c /\
            (true = false -> _running c2 = false /\ written c2 = written c) /\
            (0 < tx_queue_size (_config c) -> qsize c <= tx_queue_size (_config c) ->
             qsize c2 <= tx_queue_size (_config c)) /\
            ((_tx_queue c2 = frame :: rest /\ written c2 = written c /\ frame :: rest = []) \/
             (exists frame0 added0,
                (frame :: rest) ++ added0 = frame0 :: _tx_queue c2 /\
                added0 `sublist_of` sentinels outcomes /\
                (written c2 = written c \/
                 (written c2 = written c ++ [frame0] /\ frame0 <> []))))).
  { intros c2 F1 F2 F3. split; [congruence|]. split; [discriminate|].
    split; [intros Hpos Hle; unfold qsize in *; rewrite F2; apply Hb1; assumption|].
    right. exists frame, added. rewrite F2, Hq1. split; [reflexivity|].
    split; [exact Ha|]. rewrite <- Hw1. destruct F3 as [F3|F3]; [left; exact F3|right; auto]. }
  destruct (link_down c1).
  { intros [= <- <-]. apply Hfin; try reflexivity. left. reflexivity. }
  destruct write_raises.
  { intros [= <- <-]. apply Hfin; try reflexivity. left. reflexivity. }
  intros [= <- <-]. apply Hfin; try reflexivity. right. reflexivity.
Qed.


Lemma send_enqueued (frame : bytes) (block : bool) (timeout : option Q)
    (c c' : KISSClient) :
  send frame block timeout c = Enqueued c' ->
  c' = set_tx_queue (_tx_queue c ++ [frame]) c /\ _running c = true /\ full c = false.
Proof.
  unfold send. destruct (_running c); cbn [negb]; [|discriminate].
  unfold full. destruct (0 <? tx_queue_size (_config c)); cbn [andb].
  - destruct block; cbn [negb].
    + destruct timeout as [t|].
      * destruct (Qltb t 0); [discriminate|].
        destruct (tx_queue_size (_config c) <=? qsize c); [discriminate|].
        intros [= <-]. auto.
      * destruct (tx_queue_size (_config c) <=? qsize c); [discriminate|].
        intros [= <-]. auto.
    + destruct (tx_queue_size (_config c) <=? qsize c); [discriminate|].
      intros [= <-]. auto.
  - intros [= <-]. auto.
Qed.

(** A queue that is not full has room for one more frame. *)
Lemma room_for_one (c : KISSClient) :
  full c = false ->
  0 < tx_queue_size (_config c) -> qsize c + 1 <= tx_queue_size (_config c).
Proof.
  unfold full. intros Hf Hpos.
  destruct (Z.ltb_spec 0 (tx_queue_size (_config c))); [|lia].
  destruct (Z.leb_spec (tx_queue_size (_config c)) (qsize c)); [discriminate|lia].
Qed.

(** One operation, seen from the queue. *)
Lemma step_spec (o : op) (c c' : KISSClient) :
  step c o = Some c' ->
  _config c' = _config c /\
  (_running c = false -> o <> Start -> _running c' = false /\ written c' = written c) /\
  (0 < tx_queue_size (_config c) -> qsize c <= tx_queue_size (_config c) ->
   qsize c' <= tx_queue_size (_config c)) /\
  exists added dequeued w,
    added `sublist_of` offered [o] /\
    _tx_queue c ++ added = dequeued ++ _tx_queue c' /\
    written c' = written c ++ w /\ w `sublist_of` dequeued /\
    Forall (fun f => f <> []) w.
Proof.
  destruct o as [|b|frame block timeout|outcomes write_raises];
    cbn [step offered flat_map app]; rewrite ?app_nil_r.
  - intros [= <-]. unfold start.
    assert (H : _config (if _running c then LOG WARNING "KISSClient %s already running" c
                         else set_running true c) = _config c /\
                _tx_queue (if _running c then LOG WARNING "KISSClient %s already running" c
                           else set_running true c) = _tx_queue c /\
                written (if _running c then LOG WARNING "KISSClient %s already running" c
                         else set_running true c) = written c)
      by (destruct (_running c); auto).
    destruct H as (H1 & H2 & H3). split; [exact H1|].
    split; [intros _ Hne; contradiction|].
    split; [unfold qsize; rewrite H2; auto|].
    exists [], [], []. rewrite !app_nil_r, H2, H3.
    repeat split; try reflexivity; constructor.
  - intros [= <-].
    destruct (stop_spec b c) as (S1 & S2 & _ & S4 & _ & added & Sa & Sq & Sf & _).
    split; [exact S1|]. split; [auto|].
    split.
    { intros Hpos Hle. unfold qsize in *. rewrite Sq, length_app.
      apply sublist_length in Sa. cbn in Sa.
      destruct (full c) eqn:Hfull; [rewrite (Sf eq_refl); cbn; lia|].
      pose proof (room_for_one c Hfull Hpos) as Hroom. unfold qsize in Hroom. lia. }
    exists added, [], []. rewrite !app_nil_r, Sq, S2.
    split; [exact Sa|]. repeat split; try reflexivity; constructor.
  - destruct (send frame block timeout c) as [c1|e|] eqn:Hs; [| |discriminate].
    + intros [= <-]. apply send_enqueued in Hs as (-> & Hr & Hfull).
      split; [reflexivity|]. split; [congruence|].
      split.
      { intros Hpos Hle. pose proof (room_for_one c Hfull Hpos) as Hroom.
        unfold qsize in *. cbn [_tx_queue set_tx_queue]. rewrite length_app. cbn [length]. lia. }
      exists [frame], [], []. rewrite !app_nil_r.
      repeat split; try reflexivity; constructor.
    + intros [= <-]. split; [reflexivity|]. split; [auto|]. split; [auto|].
      exists [], [], []. rewrite !app_nil_r.
      repeat split; try reflexivity; try constructor. apply sublist_nil_l.
  - destruct (_tx_loop_pass outcomes write_raises c) as [[k c1]|] eqn:Hp; [|discriminate].
    intros [= <-]. apply tx_loop_pass_spec in Hp as (Hcfg & Hr & Hb & Hcase).
    split; [exact Hcfg|]. split; [intros H _; apply Hr; exact H|]. split; [exact Hb|].
    destruct Hcase as [(Hq & Hw & _)|(frame & added & Hq & Ha & Hw)].
    + exists [], [], []. rewrite !app_nil_r, Hq, Hw.
      repeat split; try reflexivity; try constructor. apply sublist_nil_l.
    + destruct Hw as [Hw|(Hw & He)].
      * exists added, [frame], []. rewrite app_nil_r, Hq, Hw.
        split; [exact Ha|]. repeat split; try reflexivity; try constructor.
        apply sublist_nil_l.
      * exists added, [frame], [frame]. rewrite Hq, Hw.
        split; [exact Ha|]. repeat split; try reflexivity.
        repeat constructor. exact He.
Qed.

Lemma offered_app (ops1 ops2 : list op) : offered (ops1 ++ ops2) = offered ops1 ++ offered ops2.
Proof. unfold offered. apply flat_map_app. Qed.

Lemma run_stopped (ops : list op) (c c' : KISSClient) :
  _running c = false -> Forall (fun o => o <> Start) ops ->
  run ops c = Some c' ->
  written c' = written c /\ _running c' = false.
Proof.
  intros Hr Hops. revert c Hr. induction Hops as [|o ops Ho _ IH]; intros c Hr; cbn [run].
  - intros [= <-]. auto.
  - destruct (step c o) as [c1|] eqn:Hstep; [|discriminate]. intros Hrun.
    destruct (step_spec o c c1 Hstep) as (_ & Hstop & _).
    destruct (Hstop Hr Ho) as (Hr1 & Hw).
    destruct (IH c1 Hr1 Hrun) as (Hw' & Hr'). split; congruence.
Qed.

Lemma stop_not_running (b : bool) (c : KISSClient) : _running (stop b c) = false.
Proof. apply stop_spec. Qed.

Lemma stop_written (b : bool) (c : KISSClient) : written (stop b c) = written c.
Proof. apply stop_spec. Qed.

(** With the link up and every write accepted, the TX loop empties the
    queue in order. *)
Lemma tx_loop_drains (q : list bytes) (c : KISSClient) (passes : list (list try_outcome)) :
  _running c = true -> link_down c = false -> _tx_queue c = q ->
  length passes = length q ->
  exists c',
    run (map (fun outcomes => TxPass outcomes false) passes) c = Some c' /\
    _tx_queue c' = [] /\
    written c' = written c ++ List.filter (fun f => negb (bool_decide (f = []))) q /\
    _running c' = true /\ link_down c' = false.
Proof.
  revert c passes. induction q as [|frame q IH]; intros c passes Hr Hl Hq Hlen.
  - destruct passes; [|discriminate Hlen]. exists c. cbn. rewrite app_nil_r. auto.
  - destruct passes as [|o passes]; [discriminate Hlen|]. cbn [map run step].
    unfold _tx_loop_pass. rewrite Hq.
    change (_running (set_tx_queue q c)) with (_running c). rewrite Hr. cbn [negb].
    change (link_down (set_tx_queue q c)) with (link_down c). rewrite Hl.
    destruct (decide (frame = [])) as [He|He].
    + destruct (IH (set_tx_queue q c) passes Hr Hl eq_refl) as (c' & Hrun & H1 & H2 & H3);
        [cbn in Hlen; lia|].
      exists c'. split; [exact Hrun|]. split; [exact H1|]. split; [|exact H3].
      rewrite H2. cbn [List.filter]. rewrite bool_decide_eq_true_2 by exact He. reflexivity.
    + change (link_down (set_tx_queue q c)) with (link_down c). rewrite Hl.
      destruct (IH (add_written frame (set_tx_queue q c)) passes Hr Hl eq_refl)
        as (c' & Hrun & H1 & H2 & H3); [cbn in Hlen; lia|].
      exists c'. split; [exact Hrun|]. split; [exact H1|]. split; [|exact H3].
      rewrite H2. cbn [List.filter]. rewrite bool_decide_eq_false_2 by exact He.
      cbn [negb written add_written set_tx_queue]. rewrite <- app_assoc. reflexivity.
Qed.

End ClientFacts.

(** X23.  The TX queue never grows beyond [tx_queue_size]: when the
    bound is positive and respected at the start, it is respected after
    any sequence of [start], [stop], [send] calls and TX passes that
    return.  On a full queue a [send] that does not block, or that
    blocks with a timeout, raises instead of enqueuing, and [stop]
    leaves its sentinel out. *)
Theorem X23_tx_queue_never_exceeds_bound (ops : list Client.op)
    (c c' : Client.KISSClient) :
  0 < tx_queue_size (Client._config c) ->
  Client.qsize c <= tx_queue_size (Client._config c) ->
  Client.run ops c = Some c' ->
  Client.qsize c' <= tx_queue_size (Client._config c).
Proof.
  intros Hpos. revert c Hpos.
  induction ops as [|o ops IH]; intros c Hpos Hle; cbn [Client.run].
  - intros [= <-]. exact Hle.
  - destruct (Client.step c o) as [c1|] eqn:Hstep; [|discriminate]. intros Hrun.
    destruct (step_spec o c c1 Hstep) as (Hcfg & _ & Hb & _).
    rewrite <- Hcfg. apply IH; rewrite ?Hcfg; auto.
Qed.

(** X23 on a client with room for two frames: the sends that find the
    queue full raise, with or without a timeout, and [stop] finds it
    full too, here and during the last pass of the TX loop. *)
Lemma X23_tx_queue_never_exceeds_bound_witness :
  let ops := [Client.Start; Client.Send [x01] false None; Client.Send [x02] true None;
              Client.Send [x03] false None; Client.Send [x04] true (Some 0%Q);
              Client.Send [x05] true (Some 5%Q); Client.Stop false; Client.Start;
              Client.TxPass [Client.CreateFails; Client.StopCalled true] false] in
  exists c',
    Client.run ops (Client.new_client Bench.small_queue_config TCP) = Some c' /\
    Client._tx_queue c' = [[x02]; []] /\
    Client.qsize c' <= 2.
Proof.
  intros ops. eexists. split; [vm_compute; reflexivity|]. split; [reflexivity|].
  apply (X23_tx_queue_never_exceeds_bound ops (Client.new_client Bench.small_queue_config TCP)).
  - reflexivity.
  - vm_compute. discriminate.
  - vm_compute. reflexivity.
Defined.

(** X24.  Frames leave in the order they were queued, each at most once,
    and the empty frame never leaves.  After any sequence of operations
    that return, the queue has gained some of the frames offered by
    [send] and [stop] at its tail, in order, and lost frames at its
    head; what has been written in the meantime is a subsequence of the
    frames taken off the head, without any empty frame.  A frame whose
    write failed, or that was taken while the link was down, is in no
    later write. *)
Theorem X24_frames_written_in_queue_order (ops : list Client.op)
    (c c' : Client.KISSClient) :
  Client.run ops c = Some c' ->
  exists added dequeued w,
    added `sublist_of` Client.offered ops /\
    Client._tx_queue c ++ added = dequeued ++ Client._tx_queue c' /\
    Client.written c' = Client.written c ++ w /\
    w `sublist_of` dequeued /\
    Forall (fun f => f <> []) w.
Proof.
  revert c. induction ops as [|o ops IH]; intros c; cbn [Client.run].
  - intros [= <-]. exists [], [], []. rewrite !app_nil_r.
    repeat split; try reflexivity. constructor.
  - destruct (Client.step c o) as [c1|] eqn:Hstep; [|discriminate]. intros Hrun.
    destruct (step_spec o c c1 Hstep)
      as (_ & _ & _ & a1 & d1 & w1 & Ha1 & Hq1 & Hw1 & Hs1 & Hf1).
    destruct (IH c1 Hrun) as (a2 & d2 & w2 & Ha2 & Hq2 & Hw2 & Hs2 & Hf2).
    exists (a1 ++ a2), (d1 ++ d2), (w1 ++ w2).
    split. { change (o :: ops) with ([o] ++ ops). rewrite offered_app.
             apply sublist_app; assumption. }
    split. { rewrite app_assoc, Hq1, <- !app_assoc, Hq2. reflexivity. }
    split. { rewrite Hw2, Hw1, app_assoc. reflexivity. }
    split. { apply sublist_app; assumption. }
    apply Forall_app. split; assumption.
Qed.

(** X24 on a run in which the first write fails, a timed [send] finds
    room, and [stop] is called while the last pass tries to reconnect. *)
Lemma X24_frames_written_in_queue_order_witness :
  let ops := [Client.TxPass [] true; Client.Send [x04] true (Some 1%Q);
              Client.TxPass [] false;
              Client.TxPass [Client.StartFails; Client.Started] false;
              Client.TxPass [] true; Client.Send [x05] false None;
              Client.TxPass [Client.CreateFails; Client.StopCalled false] false] in
  exists c',
    Client.run ops Bench.busy_client = Some c' /\
    Client.written c' = [[x02; x03]] /\
    Client._tx_queue c' = [[]] /\
    exists added dequeued w,
      added `sublist_of` Client.offered ops /\
      [[x01]; []; [x02; x03]] ++ added = dequeued ++ Client._tx_queue c' /\
      Client.written c' = [] ++ w /\
      w `sublist_of` dequeued /\
      Forall (fun f => f <> []) w.
Proof.
  intros ops. eexists. split; [vm_compute; reflexivity|].
  split; [vm_compute; reflexivity|]. split; [vm_compute; reflexivity|].
  apply (X24_frames_written_in_queue_order ops Bench.busy_client).
  vm_compute. reflexivity.
Defined.

(** X25.  With the client running, the link up and every write accepted,
    as many TX passes as there are queued frames empty the queue and
    write its non-empty frames, all of them, in order; no pass tries
    to reconnect. *)
Theorem X25_tx_loop_drains_queue (c : Client.KISSClient)
    (passes : list (list Client.try_outcome)) :
  Client._running c = true -> Client.link_down c = false ->
  length passes = length (Client._tx_queue c) ->
  exists c',
    Client.run (map (fun outcomes => Client.TxPass outcomes false) passes) c = Some c' /\
    Client._tx_queue c' = [] /\
    Client.written c' =
      Client.written c ++
      List.filter (fun f => negb (bool_decide (f = []))) (Client._tx_queue c).
Proof.
  intros Hr Hl Hlen.
  destruct (tx_loop_drains (Client._tx_queue c) c passes Hr Hl eq_refl Hlen)
    as (c' & Hrun & Hq & Hw & _).
  exists c'. auto.
Qed.

(** X25 on a client with three queued frames, one of them empty. *)
Lemma X25_tx_loop_drains_queue_witness :
  exists c',
    Client.run (map (fun outcomes => Client.TxPass outcomes false) [[]; []; []])
      Bench.busy_client = Some c' /\
    Client._tx_queue c' = [] /\
    Client.written c' = [] ++ [[x01]; [x02; x03]].
Proof.
  apply (X25_tx_loop_drains_queue Bench.busy_client [[]; []; []]); reflexivity.
Defined.

(** X26.  A stopped client stays silent: after [stop], and until [start]
    is called again, no TX pass writes a frame, whatever the queue
    holds, and every [send] raises [KISSClientError]. *)
Theorem X26_stopped_client_stays_silent (b : bool) (ops : list Client.op)
    (c c' : Client.KISSClient) :
  Forall (fun o => o <> Client.Start) ops ->
  Client.run ops (Client.stop b c) = Some c' ->
  Client.written c' = Client.written c /\
  forall frame block timeout,
    Client.send frame block timeout c' = Client.Raised KISSClientError.
Proof.
  intros Hops Hrun.
  destruct (run_stopped ops (Client.stop b c) c' (stop_not_running b c) Hops Hrun)
    as (Hw & Hr).
  split; [rewrite Hw; apply stop_written|].
  intros frame block timeout. unfold Client.send. rewrite Hr. reflexivity.
Qed.

(** X26 on a client stopped with three frames queued. *)
Lemma X26_stopped_client_stays_silent_witness :
  let ops := [Client.TxPass [] false; Client.Send [x09] true None; Client.Stop true;
              Client.TxPass [Client.Started] false] in
  exists c',
    Client.run ops (Client.stop false Bench.busy_client) = Some c' /\
    Client.written c' = [] /\
    forall frame block timeout,
      Client.send frame block timeout c' = Client.Raised KISSClientError.
Proof.
  intros ops. eexists. split; [vm_compute; reflexivity|].
  apply (X26_stopped_client_stays_silent false ops Bench.busy_client).
  - repeat constructor; discriminate.
  - vm_compute. reflexivity.
Defined.

Section ConfigFacts.

Import Config.

Context (py : Builtins).

Lemma unhex_length (s : list ascii) (out : bytes) :
  unhex s = Some out -> length s = (2 * length out)%nat.
Proof.
  remember (length s) as n eqn:Hn. revert s out Hn.
  induction n as [n IH] using lt_wf_ind. intros s out Hn.
  destruct s as [|hi [|lo rest]]; cbn [unhex].
  - intros [= <-]. exact Hn.
  - discriminate.
  - destruct (hex_value hi); [|discriminate]. destruct (hex_value lo); [|discriminate].
    destruct (unhex rest) as [out'|] eqn:E; [|discriminate].
    intros [= <-]. cbn [length] in Hn |- *.
    specialize (IH (length rest) ltac:(lia) rest out' eq_refl E). lia.
Qed.

Lemma length_list_ascii_of_string (s : string) :
  length (list_ascii_of_string s) = String.length s.
Proof. induction s; cbn; congruence. Qed.

(** The loop over the peers: it appends, one peer for every item that
    is a mapping, in order. *)
Lemma load_peers_spec (items : list (yaml * yaml)) (acc ps : list (yaml * ChatPeer)) :
  load_peers py items acc = Loaded ps ->
  exists new,
    ps = acc ++ new /\
    Forall2 (peer_of_item py) (List.filter (fun item => is_mapping (snd item)) items) new.
Proof.
  revert acc. induction items as [|[nickname data] items IH]; intros acc; cbn [load_peers].
  - intros [= <-]. exists []. rewrite app_nil_r. split; [reflexivity | constructor].
  - destruct data as [| | | | |l|peer_data]; cbn [List.filter is_mapping snd];
      try (intros H; apply IH in H; exact H).
    unfold _get_required, bind.
    destruct (lookup peer_data "node_id_hex") as [hexv|] eqn:Hl; [|discriminate].
    destruct (unhexlify hexv) as [out|e] eqn:Hu; [|discriminate].
    destruct (Z.eqb_spec (len out) 8) as [Hlen|Hlen]; cbn [negb]; [|discriminate].
    intros H. apply IH in H as (new & -> & Hnew).
    eexists (_ :: new). split; [rewrite <- app_assoc; reflexivity|].
    constructor; [|exact Hnew].
    split; [reflexivity|]. cbn [fst snd node_id nick].
    unfold unhexlify in Hu. destruct hexv as [| | | |hex| |]; try discriminate.
    destruct (forallb is_ascii (list_ascii_of_string hex)); [|discriminate].
    cbn [negb] in Hu.
    destruct (unhex (list_ascii_of_string hex)) as [out'|] eqn:Hx; [|discriminate].
    injection Hu as ->.
    exists peer_data, hex. unfold len in Hlen.
    pose proof (unhex_length _ _ Hx) as Hl2. rewrite length_list_ascii_of_string in Hl2.
    repeat split; try assumption; try reflexivity; lia.
Qed.

End ConfigFacts.

(** X27.  Peers are validated on loading.  When
    [load_chat_config_from_yaml] returns, the entries of the [peers]
    mapping that are not mappings themselves have been skipped, and
    every other entry has become one peer, in order, under its own key:
    its [node_id_hex] is a string of exactly sixteen hexadecimal digits
    and the peer's node ID is the eight bytes they spell. *)
Theorem X27_loaded_peers_have_eight_byte_ids (py : Config.Builtins)
    (root items : list (Config.yaml * Config.yaml)) (cfg : Config.MeshChatConfig) :
  Config.load_chat_config_from_yaml py (Config.YMap root) = Config.Loaded cfg ->
  Config.get_attr (Config.get root "chat" (Config.YMap [])) "peers" (Config.YMap [])
    = Config.Loaded (Config.YMap items) ->
  Forall2 (Config.peer_of_item py)
    (List.filter (fun item => Config.is_mapping (snd item)) items) (Config.peers cfg) /\
  Forall (fun peer => length (Config.node_id (snd peer)) = 8%nat) (Config.peers cfg).
Proof.
  intros Hload Hpeers.
  assert (H : Forall2 (Config.peer_of_item py)
                (List.filter (fun item => Config.is_mapping (snd item)) items)
                (Config.peers cfg)).
  { unfold Config.load_chat_config_from_yaml, Config.bind in Hload.
    destruct (Config.load_mesh_node_config py root); [|discriminate].
    destruct (Config._get_required _ "db_path"); [|discriminate].
    rewrite Hpeers in Hload.
    destruct (Config.load_peers py items []) as [ps|] eqn:Hps; [|discriminate].
    injection Hload as <-. cbn [Config.peers].
    apply load_peers_spec in Hps as (new & -> & Hnew). exact Hnew. }
  split; [exact H|].
  clear -H. induction H as [|item peer its ps Hp _ IH]; constructor; [|exact IH].
  destruct Hp as (_ & pd & hex & _ & _ & _ & _ & Hlen & _). exact Hlen.
Qed.

(** X27 on a file with two peers and one entry that is not a mapping. *)
Lemma X27_loaded_peers_have_eight_byte_ids_witness :
  exists cfg,
    Config.load_chat_config_from_yaml Bench.simple_builtins (Config.YMap Bench.minimal_root)
      = Config.Loaded cfg /\
    map (fun peer => (fst peer, Config.node_id (snd peer))) (Config.peers cfg)
      = [(Config.YStr "alice", Bench.ascii_bytes "ABCDEFGH");
         (Config.YStr "bob", [x00; xff; x00; xff; x00; xff; x00; xff])] /\
    Forall (fun peer => length (Config.node_id (snd peer)) = 8%nat) (Config.peers cfg).
Proof.
  eexists. split; [vm_compute; reflexivity|]. split; [vm_compute; reflexivity|].
  eapply (X27_loaded_peers_have_eight_byte_ids Bench.simple_builtins Bench.minimal_root).
  - vm_compute. reflexivity.
  - vm_compute. reflexivity.
Defined.

(** X28.  The defaults of the loader are the configuration the node and
    its client are verified with: a file whose [mesh] section gives the
    callsign and nothing else, and that has no [kiss], [routing] and
    [security] section, loads to the callsign as given, destination
    [QMESH-0], TCP to 127.0.0.1:8001, reconnect delays from 5 s to
    60 s, a queue of 1000 frames, an OGM every 10 s with TTL 5, expiry
    after 120 s, 60 s and 30 s, and encryption off. *)
Theorem X28_loader_defaults (py : Config.Builtins) (root mesh : list (Config.yaml * Config.yaml))
    (v : Config.yaml) :
  Config.lookup root "mesh" = Some (Config.YMap mesh) ->
  Config.lookup mesh "callsign" = Some v ->
  Config.lookup mesh "mesh_dest_callsign" = None ->
  Config.lookup root "kiss" = None ->
  Config.lookup root "routing" = None ->
  Config.lookup root "security" = None ->
  Config.load_mesh_node_config py root =
  Config.Loaded
    {| Config.node_config :=
         {| callsign := Config.py_str py v; mesh_dest_callsign := "QMESH-0";
            kiss_config := default_kiss_config;
            routing_config := default_routing_config |};
       Config.kiss_transport :=
         {| Config.transport := TCP;
            Config.serial_port := Config.YStr "/dev/ttyUSB0";
            Config.serial_baud := 1200;
            Config.tcp_host := Config.YStr "127.0.0.1";
            Config.tcp_port := 8001 |};
       Config.security_config :=
         {| Config.enable_encryption := false; Config.key := None |} |}.
Proof.
  intros Hmesh Hcall Hdest Hkiss Hrouting Hsec.
  unfold Config.load_mesh_node_config, Config.load_kiss_config, Config.load_routing_config,
    Config.load_security_config, Config.get.
  rewrite Hmesh, Hkiss, Hrouting, Hsec.
  cbn [Config._get_required Config.get_attr Config.get]. unfold Config.get.
  rewrite Hcall, Hdest. reflexivity.
Qed.

(** X28 on the file of the instances. *)
Lemma X28_loader_defaults_witness :
  exists loaded_cfg,
    Config.load_mesh_node_config Bench.simple_builtins Bench.minimal_root
      = Config.Loaded loaded_cfg /\
    kiss_config (Config.node_config loaded_cfg) = default_kiss_config /\
    routing_config (Config.node_config loaded_cfg) = default_routing_config /\
    callsign (Config.node_config loaded_cfg) = "KD9YQK-1"%string.
Proof.
  eexists. split.
  - apply (X28_loader_defaults Bench.simple_builtins Bench.minimal_root
             [(Config.YStr "callsign", Config.YStr "KD9YQK-1")] (Config.YStr "KD9YQK-1"));
      reflexivity.
  - repeat split; reflexivity.
Defined.

(** X29.  The callsign is required, and it is looked up first: when the
    [mesh] section is missing, or is a mapping without the key
    [callsign], [load_mesh_node_config] raises [KeyError], whatever the
    other sections hold, valid or not. *)
Theorem X29_missing_callsign_is_key_error (py : Config.Builtins)
    (root : list (Config.yaml * Config.yaml)) :
  (Config.lookup root "mesh" = None \/
   exists mesh, Config.lookup root "mesh" = Some (Config.YMap mesh) /\
                Config.lookup mesh "callsign" = None) ->
  Config.load_mesh_node_config py root = Config.Fails Config.KeyError.
Proof.
  intros [Hnone|(mesh & Hmesh & Hcall)]; unfold Config.load_mesh_node_config, Config.get.
  - rewrite Hnone. reflexivity.
  - rewrite Hmesh. cbn [Config._get_required]. rewrite Hcall. reflexivity.
Qed.

(** X29 on a file whose [kiss] section asks for an unknown transport. *)
Lemma X29_missing_callsign_is_key_error_witness :
  Config.load_mesh_node_config Bench.simple_builtins
    [(Config.YStr "kiss", Config.YMap [(Config.YStr "transport", Config.YStr "udp")]);
     (Config.YStr "mesh", Config.YMap [(Config.YStr "mesh_dest_callsign", Config.YStr "Q")])]
  = Config.Fails Config.KeyError.
Proof.
  apply (X29_missing_callsign_is_key_error Bench.simple_builtins).
  right. eexists. split; reflexivity.
Defined.

Section ReconnectFacts.

Import Client.






End ReconnectFacts.


